(** * google-api-linter-vscode: provisioning, invocation and decoding pipeline

    A shallow embedding of the TypeScript sources of the extension:
    - [utils/linterUtils.ts]   argument builder and output decoder,
    - [linterProvider.ts] / [server.ts]   process runner,
    - [download/apiLinterDownloader.ts], [binaryManager.ts],
      [download/googleapisDownloader.ts]   dependency provisioner,
    - [hoverProvider.ts]   documentation enrichment cache.

    JavaScript strings are sequences of UTF-16 code units, JSON values are
    a small inductive type, asynchronous functions are computations in a
    state-and-exception monad over an explicit world (file system, clock,
    configuration, network oracle, event trace). *)

From Stdlib Require Import ZArith NArith String Ascii Decimal DecimalString.
From stdpp Require Import base option list gmap.

Open Scope Z_scope.
Set Warnings "-register-all".

(** ** JavaScript strings *)

(** A string is its sequence of UTF-16 code units. *)
Abbreviation jsstring := (list N).

(** ASCII literal to code units. *)
Definition str (s : string) : jsstring :=
  (fun a => N_of_ascii a) <$> list_ascii_of_string s.

Definition OPEN_BRACKET : N := 91%N.
Definition CLOSE_BRACKET : N := 93%N.

(** [WhiteSpace] and [LineTerminator] code points stripped by
    [String.prototype.trim] (ECMA-262, 22.1.3.32 and 12.2, 12.3). *)
Definition isWhiteSpace (c : N) : bool :=
  ((9 <=? c) && (c <=? 13) ||
   (c =? 32) || (c =? 160) || (c =? 5760) ||
   (8192 <=? c) && (c <=? 8202) ||
   (c =? 8232) || (c =? 8233) || (c =? 8239) || (c =? 8287) ||
   (c =? 12288) || (c =? 65279))%N.

Fixpoint trimStart (s : jsstring) : jsstring :=
  match s with
  | c :: s' => if isWhiteSpace c then trimStart s' else s
  | [] => []
  end.

Definition trimEnd (s : jsstring) : jsstring := rev (trimStart (rev s)).

Definition trim (s : jsstring) : jsstring := trimEnd (trimStart s).

(** [s.indexOf(c)] for a one-unit needle: first position, or [-1]. *)
Fixpoint indexOf (c : N) (s : jsstring) : Z :=
  match s with
  | [] => -1
  | x :: s' =>
      if (x =? c)%N then 0
      else let i := indexOf c s' in if i <? 0 then -1 else i + 1
  end.

(** [s.lastIndexOf(c)]: last position, or [-1]. *)
Fixpoint lastIndexOf (c : N) (s : jsstring) : Z :=
  match s with
  | [] => -1
  | x :: s' =>
      let i := lastIndexOf c s' in
      if 0 <=? i then i + 1
      else if (x =? c)%N then 0 else -1
  end.

(** [s.substring(a, b)]: both bounds clamped to [0, length], swapped when
    [a > b]. *)
Definition substring (a b : Z) (s : jsstring) : jsstring :=
  let len := Z.of_nat (length s) in
  let a' := Z.min (Z.max a 0) len in
  let b' := Z.min (Z.max b 0) len in
  let lo := Z.min a' b' in
  let hi := Z.max a' b' in
  take (Z.to_nat (hi - lo)) (drop (Z.to_nat lo) s).

(** Decimal rendering of an integer as template literals print it. *)
Definition showZ (z : Z) : jsstring :=
  str (NilZero.string_of_int (Z.to_int z)).

(** Boolean equality on strings ([===] on two strings). *)
Definition streq (a b : jsstring) : bool := bool_decide (a = b).

(** [hay.startsWith(needle)] at the head of the list. *)
Fixpoint startsWith (needle hay : jsstring) : bool :=
  match needle, hay with
  | [], _ => true
  | n :: needle', h :: hay' => (n =? h)%N && startsWith needle' hay'
  | _ :: _, [] => false
  end.

(** [GetSubstitution] (ECMA-262, 22.1.3.19.1) for a pattern without capture
    groups: in the replacement text [$$] is a dollar sign, [$&] the match,
    [$`] the text before the match, [$'] the text after it; every other
    unit is copied. *)
Fixpoint getSubstitution (matched before after repl : jsstring) : jsstring :=
  match repl with
  | [] => []
  | 36%N :: r =>
      match r with
      | 36%N :: r' => 36%N :: getSubstitution matched before after r'
      | 38%N :: r' => matched ++ getSubstitution matched before after r'
      | 96%N :: r' => before ++ getSubstitution matched before after r'
      | 39%N :: r' => after ++ getSubstitution matched before after r'
      | _ => 36%N :: getSubstitution matched before after r
      end
  | c :: r => c :: getSubstitution matched before after r
  end.

(** [s.replace(/lit/g, repl)] for a regular expression that matches exactly
    the literal text [lit] (non-empty): every occurrence, left to right, non
    overlapping.  [seen] is the text already scanned, in reverse; [skip]
    counts the units of the current match still to be consumed. *)
Fixpoint replaceAllFrom (lit repl : jsstring) (skip : nat) (seen s : jsstring)
  : jsstring :=
  match s with
  | [] => []
  | c :: s' =>
      match skip with
      | S k => replaceAllFrom lit repl k (c :: seen) s'
      | O =>
          if startsWith lit s then
            getSubstitution lit (rev seen) (drop (length lit) s) repl
              ++ replaceAllFrom lit repl (length lit - 1) (c :: seen) s'
          else c :: replaceAllFrom lit repl O (c :: seen) s'
      end
  end.

Definition replaceAll (lit repl s : jsstring) : jsstring :=
  replaceAllFrom lit repl O [] s.

(** ** JavaScript values *)

(** A number is an integer in the exactly representable range, or [NaN]
    (the external tool reports 32-bit line and column numbers; [Date.now()]
    is an integral count of milliseconds). *)
Inductive number :=
  | NaN
  | Num (z : Z).

(** The values [JSON.parse] can produce, plus [undefined] for absent
    properties.  An object is the list of its own properties. *)
Inductive value :=
  | VUndefined
  | VNull
  | VBool (b : bool)
  | VNumber (n : number)
  | VString (s : jsstring)
  | VArray (xs : list value)
  | VObject (fields : list (jsstring * value)).

(** Thrown values. *)
Inductive exn :=
  | SyntaxError
  | TypeError
  | ErrnoException (code : jsstring)
  | Error (message : jsstring).

(** Outcome of an expression that may throw. *)
Inductive result (A : Type) :=
  | Ok (a : A)
  | Throw (e : exn).
Arguments Ok {A} a.
Arguments Throw {A} e.

Definition result_bind {A B} (r : result A) (k : A -> result B) : result B :=
  match r with
  | Ok a => k a
  | Throw e => Throw e
  end.

(** Own-property lookup in an object literal. *)
Fixpoint lookupField (k : jsstring) (fields : list (jsstring * value))
  : value :=
  match fields with
  | [] => VUndefined
  | (k', v) :: rest => if streq k' k then v else lookupField k rest
  end.

(** [v.k] for the property names the sources read ([problems], [location],
    [start_position], [end_position], [line_number], [column_number],
    [message], [rule_id], [rule_doc_uri], [lastChecked], [version],
    [length]): reading a property of [null] or [undefined] throws a
    [TypeError]; arrays and strings only have [length] among these names;
    numbers and booleans have none. *)
Definition getProp (v : value) (k : jsstring) : result value :=
  match v with
  | VUndefined | VNull => Throw TypeError
  | VObject fields => Ok (lookupField k fields)
  | VArray xs =>
      Ok (if streq k (str "length")
          then VNumber (Num (Z.of_nat (length xs))) else VUndefined)
  | VString s =>
      Ok (if streq k (str "length")
          then VNumber (Num (Z.of_nat (length s))) else VUndefined)
  | VBool _ | VNumber _ => Ok VUndefined
  end.

(** [ToBoolean]. *)
Definition truthy (v : value) : bool :=
  match v with
  | VUndefined | VNull => false
  | VBool b => b
  | VNumber NaN => false
  | VNumber (Num z) => negb (z =? 0)
  | VString s => negb (streq s [])
  | VArray _ | VObject _ => true
  end.

(** [v === 0]. *)
Definition isZero (v : value) : bool :=
  match v with
  | VNumber (Num 0) => true
  | _ => false
  end.

Definition number_sub (a b : number) : number :=
  match a, b with
  | Num x, Num y => Num (x - y)
  | _, _ => NaN
  end.

(** [Math.max(a, b)]: [NaN] if either argument is. *)
Definition Math_max (a b : number) : number :=
  match a, b with
  | Num x, Num y => Num (Z.max x y)
  | _, _ => NaN
  end.

(** [a > b]: false as soon as one side is [NaN]. *)
Definition number_gt (a b : number) : bool :=
  match a, b with
  | Num x, Num y => y <? x
  | _, _ => false
  end.

(** ** Platform

    Built-ins of the JavaScript engine and of Node.js that the sources call
    and that are not part of the repository.  Every statement below holds
    for all platforms. *)
Class Platform := {
  (** [JSON.parse]: [None] when it throws a [SyntaxError]. *)
  JSON_parse : jsstring -> option value;
  (** [JSON.stringify(v, null, 2)]. *)
  JSON_stringify : value -> jsstring;
  (** [ToNumber] on strings, arrays and objects. *)
  ToNumber_other : value -> number;
  (** [path.isAbsolute], [path.resolve], [path.dirname], [path.basename],
      [path.join]. *)
  path_isAbsolute : jsstring -> bool;
  path_resolve : jsstring -> jsstring;
  path_dirname : jsstring -> jsstring;
  path_basename : jsstring -> jsstring;
  path_join : list jsstring -> jsstring;
  (** [os.homedir()]. *)
  os_homedir : jsstring;
  (** [getPlatform()] and [getArch()] of [utils/platformUtils]. *)
  getPlatform : jsstring;
  getArch : jsstring;
  (** [String(error)] as interpolated into log lines. *)
  showError : exn -> jsstring;
  (** [String(v)] as interpolated into template literals. *)
  ToString : value -> jsstring;
  (** A text that parses to an array is bracketed. *)
  JSON_parse_array : forall s xs,
    JSON_parse s = Some (VArray xs) -> OPEN_BRACKET ∈ s /\ CLOSE_BRACKET ∈ s;
}.

(** [ToNumber]. *)
Definition ToNumber `{Platform} (v : value) : number :=
  match v with
  | VUndefined => NaN
  | VNull => Num 0
  | VBool b => Num (if b then 1 else 0)
  | VNumber n => n
  | VString _ | VArray _ | VObject _ => ToNumber_other v
  end.


(** ** State and exceptions

    A computation reads and updates a state and either returns or throws;
    the state reached when it throws is kept, as mutations made before a
    JavaScript exception are. *)
Definition ST (S A : Type) : Type := S -> S * result A.

Definition ret {S A} (a : A) : ST S A := fun s => (s, Ok a).

Definition throw {S A} (e : exn) : ST S A := fun s => (s, Throw e).

Definition bind {S A B} (m : ST S A) (k : A -> ST S B) : ST S B :=
  fun s =>
    match m s with
    | (s', Ok a) => k a s'
    | (s', Throw e) => (s', Throw e)
    end.

(** [try { body } catch (e) { handler }]. *)
Definition tryCatch {S A} (body : ST S A) (handler : exn -> ST S A) : ST S A :=
  fun s =>
    match body s with
    | (s', Ok a) => (s', Ok a)
    | (s', Throw e) => handler e s'
    end.

Definition lift {S A} (r : result A) : ST S A := fun s => (s, r).

Definition gets {S A} (f : S -> A) : ST S A := fun s => (s, Ok (f s)).

Definition modify {S} (f : S -> S) : ST S unit := fun s => (f s, Ok tt).

Declare Scope st_scope.
Delimit Scope st_scope with st.
Notation "x <- m ;; k" := (bind m (fun x => k))
  (at level 100, m at next level, right associativity) : st_scope.
Notation "m ;;; k" := (bind m (fun _ => k))
  (at level 100, right associativity) : st_scope.
Open Scope st_scope.

(** [xs.forEach(f)] on a list: stops at the first exception. *)
Fixpoint forEach {S X} (f : X -> ST S unit) (xs : list X) : ST S unit :=
  match xs with
  | [] => ret tt
  | x :: xs' => f x ;;; forEach f xs'
  end.

(** [v.forEach(f)] on an arbitrary value: only arrays have the method. *)
Definition forEachValue {S} (v : value) (f : value -> ST S unit) : ST S unit :=
  match v with
  | VArray xs => forEach f xs
  | _ => throw TypeError
  end.

(** ** types.ts *)
Module Types.

Record Position := {
  line_number : Z;
  column_number : Z;
}.

Record LinterLocation := {
  start_position : Position;
  end_position : Position;
  path : jsstring;
}.

Record LinterProblem := {
  message : jsstring;
  location : LinterLocation;
  rule_id : jsstring;
  rule_doc_uri : jsstring;
}.

(** The [problems] property of a result group as it arrives: absent,
    [null] (how the tool prints an empty Go slice) or an array. *)
Inductive ProblemList :=
  | Missing
  | Null
  | Problems (ps : list LinterProblem).

Record LinterOutput := {
  file_path : jsstring;
  problems : ProblemList;
}.

Definition problemsOf (o : LinterOutput) : list LinterProblem :=
  match problems o with
  | Problems ps => ps
  | Missing | Null => []
  end.

Record LinterOptions := {
  configPath : jsstring;
  protoPath : list jsstring;
  disableRules : list jsstring;
  enableRules : list jsstring;
  descriptorSetIn : list jsstring;
  ignoreCommentDisables : bool;
  setExitStatus : bool;
}.

Record BinaryMetadata := {
  version : jsstring;
  lastChecked : Z;
  binary_path : jsstring;
}.

End Types.

(** ** Objects of the editor API

    [vscode.Range], [vscode.Uri] and [vscode.Diagnostic] are records of the
    arguments their constructors were given, in the order the sources pass
    them. *)
Module vscode.

Record Range := {
  startLine : number;
  startCharacter : number;
  endLine : number;
  endCharacter : number;
}.

Inductive DiagnosticSeverity := Error | Warning | Information | Hint.

(** [vscode.Uri.parse(text)]. *)
Record Uri := { parsedFrom : value }.

Record Diagnostic := {
  range : Range;
  message : value;
  severity : DiagnosticSeverity;
  source : jsstring;
  code_value : value;
  code_target : Uri;
}.

End vscode.

(** What the decoder writes to the console and to the output channel. *)
Inductive LogEntry :=
  | ConsoleError (msg : jsstring) (detail : option exn)
  | ChannelLine (msg : jsstring).

(** The decoder state: the [diagnostics] array being filled and the log. *)
Record DecoderState := {
  diagnostics : list vscode.Diagnostic;
  logged : list LogEntry;
}.

Definition push (d : vscode.Diagnostic) : ST DecoderState unit :=
  modify (fun s => {| diagnostics := diagnostics s ++ [d]; logged := logged s |}).

Definition emit (l : LogEntry) : ST DecoderState unit :=
  modify (fun s => {| diagnostics := diagnostics s; logged := logged s ++ [l] |}).


Definition DIAGNOSTIC_SOURCE : jsstring := str "google-api-linter".

(** ** The world of the extension host *)

Inductive Node :=
  | File (content : jsstring)
  | Directory.

(** File-system requests that the operating system may refuse. *)
Inductive FsOp :=
  | OpMkdir (p : jsstring)
  | OpReadFile (p : jsstring)
  | OpWriteFile (p : jsstring)
  | OpChmod (p : jsstring)
  | OpUnlink (p : jsstring).

(** What a run leaves behind, in order. *)
Inductive Event :=
  | AppendLine (line : jsstring)
  | ShowInformationMessage (msg : jsstring) (items : list jsstring)
  | FetchJson (url : jsstring)
  | DownloadFile (url : value) (dest : jsstring)
  | FetchHtml (url : jsstring)
  | ExecCommand (cmd : jsstring)
  | Spawn (binaryPath : jsstring) (args : list jsstring) (cwd : jsstring)
  | FsMkdir (p : jsstring)
  | FsWriteFile (p : jsstring) (content : jsstring)
  | FsChmod (p : jsstring) (mode : jsstring)
  | FsUnlink (p : jsstring)
  | FsRename (src dst : jsstring).

(** A request that leaves the machine. *)
Definition isNetworkCall (e : Event) : bool :=
  match e with
  | FetchJson _ | DownloadFile _ _ | FetchHtml _ => true
  | _ => false
  end.

Definition networkCalls (t : list Event) : list Event :=
  List.filter isNetworkCall t.

Record World := {
  (** files and directories by absolute path *)
  fs : gmap jsstring Node;
  (** an I/O error the operating system raises for a request, if any *)
  fault : FsOp -> option exn;
  (** [Date.now()] *)
  now : Z;
  (** the [binaryPath] setting; [None] is [undefined] *)
  binaryPathSetting : option jsstring;
  (** [fsPath] of each of [vscode.workspace.workspaceFolders] *)
  workspaceFolders : list jsstring;
  (** [vscode.workspace.getWorkspaceFolder(Uri.file(p))?.uri.fsPath] *)
  getWorkspaceFolder : jsstring -> option jsstring;
  (** how the network answers [fetchJson], [downloadFile], [fetchHtml] *)
  fetchJsonResponse : jsstring -> result value;
  downloadResponse : jsstring -> result jsstring;
  fetchHtmlResponse : jsstring -> result jsstring;
  (** what a shell command does to the file system *)
  execEffect : jsstring -> gmap jsstring Node -> result (gmap jsstring Node);
  (** the button the user picks in a notification; [None] is dismissal *)
  promptAnswer : option jsstring;
  (** the hover provider's [guidanceCache] *)
  guidanceCache : gmap jsstring jsstring;
  (** everything observable done so far *)
  trace : list Event;
}.

Definition withFs (f : gmap jsstring Node) (w : World) : World :=
  {| fs := f; fault := fault w; now := now w;
     binaryPathSetting := binaryPathSetting w;
     workspaceFolders := workspaceFolders w;
     getWorkspaceFolder := getWorkspaceFolder w;
     fetchJsonResponse := fetchJsonResponse w;
     downloadResponse := downloadResponse w;
     fetchHtmlResponse := fetchHtmlResponse w;
     execEffect := execEffect w; promptAnswer := promptAnswer w;
     guidanceCache := guidanceCache w; trace := trace w |}.

Definition withCache (c : gmap jsstring jsstring) (w : World) : World :=
  {| fs := fs w; fault := fault w; now := now w;
     binaryPathSetting := binaryPathSetting w;
     workspaceFolders := workspaceFolders w;
     getWorkspaceFolder := getWorkspaceFolder w;
     fetchJsonResponse := fetchJsonResponse w;
     downloadResponse := downloadResponse w;
     fetchHtmlResponse := fetchHtmlResponse w;
     execEffect := execEffect w; promptAnswer := promptAnswer w;
     guidanceCache := c; trace := trace w |}.

Definition withTrace (t : list Event) (w : World) : World :=
  {| fs := fs w; fault := fault w; now := now w;
     binaryPathSetting := binaryPathSetting w;
     workspaceFolders := workspaceFolders w;
     getWorkspaceFolder := getWorkspaceFolder w;
     fetchJsonResponse := fetchJsonResponse w;
     downloadResponse := downloadResponse w;
     fetchHtmlResponse := fetchHtmlResponse w;
     execEffect := execEffect w; promptAnswer := promptAnswer w;
     guidanceCache := guidanceCache w; trace := t |}.

Abbreviation M := (ST World).

Definition record (e : Event) : M unit :=
  modify (fun w => withTrace (trace w ++ [e]) w).

(** [fs.existsSync(p)]. *)
Definition existsSync (w : World) (p : jsstring) : bool :=
  bool_decide (is_Some (fs w !! p)).

Definition exists_ (p : jsstring) : M bool := gets (fun w => existsSync w p).

Definition checkFault (op : FsOp) : M unit :=
  fun w =>
    match fault w op with
    | Some e => (w, Throw e)
    | None => (w, Ok tt)
    end.

(** [mkdir(p, { recursive: true })]: no error when the directory is there;
    [EEXIST] when a file is in the way. *)
Definition mkdir (p : jsstring) : M unit :=
  checkFault (OpMkdir p) ;;;
  f <- gets fs ;;
  match f !! p with
  | Some (File _) => throw (ErrnoException (str "EEXIST"))
  | Some Directory => ret tt
  | None =>
      modify (fun w => withFs (<[p := Directory]> (fs w)) w) ;;;
      record (FsMkdir p)
  end.

(** [readFile(p, 'utf-8')]. *)
Definition readFile (p : jsstring) : M jsstring :=
  checkFault (OpReadFile p) ;;;
  f <- gets fs ;;
  match f !! p with
  | Some (File c) => ret c
  | Some Directory => throw (ErrnoException (str "EISDIR"))
  | None => throw (ErrnoException (str "ENOENT"))
  end.

(** [writeFile(p, data)], when it runs to completion. *)
Definition writeFile (p data : jsstring) : M unit :=
  checkFault (OpWriteFile p) ;;;
  f <- gets fs ;;
  match f !! p with
  | Some Directory => throw (ErrnoException (str "EISDIR"))
  | _ =>
      modify (fun w => withFs (<[p := File data]> (fs w)) w) ;;;
      record (FsWriteFile p data)
  end.

(** [chmod(p, mode)]. *)
Definition chmod (p mode : jsstring) : M unit :=
  checkFault (OpChmod p) ;;;
  f <- gets fs ;;
  match f !! p with
  | Some _ => record (FsChmod p mode)
  | None => throw (ErrnoException (str "ENOENT"))
  end.

(** [fs.unlinkSync(p)]. *)
Definition unlinkSync (p : jsstring) : M unit :=
  checkFault (OpUnlink p) ;;;
  f <- gets fs ;;
  match f !! p with
  | Some (File _) =>
      modify (fun w => withFs (delete p (fs w)) w) ;;;
      record (FsUnlink p)
  | Some Directory => throw (ErrnoException (str "EISDIR"))
  | None => throw (ErrnoException (str "ENOENT"))
  end.

(** [exec(cmd)]. *)
Definition exec (cmd : jsstring) : M unit :=
  record (ExecCommand cmd) ;;;
  w <- gets id ;;
  match execEffect w cmd (fs w) with
  | Ok f => modify (withFs f)
  | Throw e => throw e
  end.

(** [outputChannel.appendLine(line)]. *)
Definition appendLine (line : jsstring) : M unit := record (AppendLine line).

(** [vscode.window.showInformationMessage(msg, ...items)]. *)
Definition showInformationMessage (msg : jsstring) (items : list jsstring)
  : M (option jsstring) :=
  record (ShowInformationMessage msg items) ;;;
  gets promptAnswer.

(** [Date.now()]. *)
Definition Date_now : M Z := gets now.

(** ** utils/httpClient.ts, through the network oracle *)

Definition fetchJson (url : jsstring) : M value :=
  record (FetchJson url) ;;;
  w <- gets id ;;
  lift (fetchJsonResponse w url).

Definition fetchHtml (url : jsstring) : M jsstring :=
  record (FetchHtml url) ;;;
  w <- gets id ;;
  lift (fetchHtmlResponse w url).

(** [downloadFile(url, dest, fs)]: [https.get] rejects a URL that is not a
    string; otherwise the body ends up in [dest]. *)
Definition downloadFile (url : value) (dest : jsstring) : M unit :=
  record (DownloadFile url dest) ;;;
  match url with
  | VString u =>
      w <- gets id ;;
      match downloadResponse w u with
      | Ok body => modify (fun w => withFs (<[dest := File body]> (fs w)) w)
      | Throw e => throw e
      end
  | _ => throw TypeError
  end.

(** ** utils/linterUtils.ts: output decoder, shared steps *)

Section Decoder.
Context `{Platform}.

(** [Math.max(0, v - 1)]. *)
Definition toZeroIndexed (v : value) : number :=
  Math_max (Num 0) (number_sub (ToNumber v) (Num 1)).

(** [createDiagnosticFromProblem]; the two copies of the file differ only
    in the severity constant. *)
Definition createDiagnosticWith (sev : vscode.DiagnosticSeverity)
    (problem : value) : result vscode.Diagnostic :=
  result_bind (getProp problem (str "location")) (fun loc =>
  result_bind (getProp loc (str "start_position")) (fun sp =>
  result_bind (getProp sp (str "line_number")) (fun sl =>
  let startLine := toZeroIndexed sl in
  result_bind (getProp sp (str "column_number")) (fun sc =>
  let startChar := toZeroIndexed sc in
  result_bind (getProp loc (str "end_position")) (fun ep =>
  result_bind (getProp ep (str "line_number")) (fun el =>
  let endLine := toZeroIndexed el in
  result_bind (getProp ep (str "column_number")) (fun ec =>
  let endChar := toZeroIndexed ec in
  result_bind (getProp problem (str "message")) (fun msg =>
  result_bind (getProp problem (str "rule_id")) (fun rid =>
  result_bind (getProp problem (str "rule_doc_uri")) (fun uri =>
  Ok {| vscode.range :=
          {| vscode.startLine := startLine;
             vscode.startCharacter := startChar;
             vscode.endLine := endLine;
             vscode.endCharacter := endChar |};
        vscode.message := msg;
        vscode.severity := sev;
        vscode.source := DIAGNOSTIC_SOURCE;
        vscode.code_value := rid;
        vscode.code_target := {| vscode.parsedFrom := uri |} |})))))))))).

(** The body of [results.forEach(result => ...)]. *)
Definition collectProblems
    (createDiagnosticFromProblem : value -> result vscode.Diagnostic)
    (result : value) : ST DecoderState unit :=
  problems <- lift (getProp result (str "problems")) ;;
  if negb (truthy problems) then ret tt
  else
    len <- lift (getProp problems (str "length")) ;;
    if isZero len then ret tt
    else
      forEachValue problems (fun problem =>
        diagnostic <- lift (createDiagnosticFromProblem problem) ;;
        push diagnostic).

(** [const results = JSON.parse(text); results.forEach(...)]. *)
Definition parseAndCollect
    (createDiagnosticFromProblem : value -> result vscode.Diagnostic)
    (text : jsstring) : ST DecoderState unit :=
  match JSON_parse text with
  | None => throw SyntaxError
  | Some results =>
      forEachValue results (collectProblems createDiagnosticFromProblem)
  end.

Definition emptyDecoderState : DecoderState :=
  {| diagnostics := []; logged := [] |}.

(** What [parseLinterOutput] hands back: the returned array (or the
    exception that escaped), and what was logged on the way. *)
Definition runDecoder (m : ST DecoderState unit)
  : result (list vscode.Diagnostic) * list LogEntry :=
  match m emptyDecoderState with
  | (s, Ok _) => (Ok (diagnostics s), logged s)
  | (s, Throw e) => (Throw e, logged s)
  end.

End Decoder.

(** ** utils/linterUtils.ts: argument builder, shared steps *)

(** The record [buildLinterArgs] returns. *)
Record LinterArgs := {
  args : list jsstring;
  workingDir : jsstring;
  fileName : jsstring;
}.

Section ArgumentBuilder.
Context `{Platform}.

(** [path.isAbsolute(filePath) ? filePath : path.resolve(filePath)]. *)
Definition absolutePathOf (filePath : jsstring) : jsstring :=
  if path_isAbsolute filePath then filePath else path_resolve filePath.

(** [xs.forEach(x => args.push(flag, x))]. *)
Definition flagEach (flag : jsstring) (xs : list jsstring) : list jsstring :=
  flat_map (fun x => [flag; x]) xs.

(** [if (b) args.push(flag)]. *)
Definition flagIf (b : bool) (flag : jsstring) : list jsstring :=
  if b then [flag] else [].

(** [workspaceFolder?.uri.fsPath || workspaceFolders[0].uri.fsPath], for a
    non-empty [workspaceFolders] whose first entry is [first]. *)
Definition workspacePathOf (w : World) (filePath first : jsstring)
  : jsstring :=
  match getWorkspaceFolder w filePath with
  | Some p => if streq p [] then first else p
  | None => first
  end.

(** [resolveWorkspaceVariables]. *)
Definition resolveWorkspaceVariables (w : World) (pathStr filePath : jsstring)
  : jsstring :=
  let resolved := pathStr in
  let resolved :=
    match workspaceFolders w with
    | first :: _ =>
        let workspacePath := workspacePathOf w filePath first in
        let resolved :=
          replaceAll (str "${workspaceFolder}") workspacePath resolved in
        replaceAll (str "${workspaceRoot}") workspacePath resolved
    | [] => resolved
    end in
  path_resolve resolved.

(** The [--config] step of the copies that resolve variables. *)
Definition configArgs (w : World) (options : Types.LinterOptions)
    (filePath : jsstring) : list jsstring :=
  if streq (Types.configPath options) [] then []
  else
    let resolvedConfigPath :=
      resolveWorkspaceVariables w (Types.configPath options) filePath in
    if existsSync w resolvedConfigPath
    then [str "--config"; resolvedConfigPath] else [].

(** The workspace-root and workspace-local corpus steps. *)
Definition workspaceArgs (w : World) (filePath workingDir : jsstring)
  : list jsstring :=
  match workspaceFolders w with
  | first :: _ =>
      let workspaceRoot := workspacePathOf w filePath first in
      (if negb (streq workspaceRoot workingDir) && existsSync w workspaceRoot
       then [str "--proto-path"; workspaceRoot] else [])
      ++
      (let workspaceGapiDir :=
         path_join [workspaceRoot; str ".gapi"; str "googleapis"] in
       if existsSync w workspaceGapiDir
       then [str "--proto-path"; workspaceGapiDir] else [])
  | [] => []
  end.

(** The user-global corpus step. *)
Definition homeArgs (w : World) : list jsstring :=
  let homeGapiDir := path_join [os_homedir; str ".gapi"; str "googleapis"] in
  if existsSync w homeGapiDir then [str "--proto-path"; homeGapiDir] else [].

(** [options.protoPath.forEach(protoPath => { resolve; if exists push })]. *)
Definition protoPathArgs (w : World) (filePath : jsstring)
    (protoPath : list jsstring) : list jsstring :=
  flat_map
    (fun protoPath =>
       let resolvedPath := resolveWorkspaceVariables w protoPath filePath in
       if existsSync w resolvedPath
       then [str "--proto-path"; resolvedPath] else [])
    protoPath.

End ArgumentBuilder.

(** ** utils/linterUtils.ts: the copies *)

(** The copy of [utils/linterUtils.ts] that passes import paths through and
    parses the whole buffer. *)
Module LinterUtilsPlain.
Section Plain.
Context `{Platform}.

(** [buildLinterArgs] of the copy without variable resolution. *)
Definition buildLinterArgs (w : World) (filePath : jsstring)
    (options : Types.LinterOptions) : LinterArgs :=
  let args0 :=
    if negb (streq (Types.configPath options) [])
       && existsSync w (Types.configPath options)
    then [str "--config"; Types.configPath options] else [] in
  let absolutePath := absolutePathOf filePath in
  let workingDir := path_dirname absolutePath in
  let fileName := path_basename absolutePath in
  {| args :=
       args0
         ++ [str "--proto-path"; workingDir]
         ++ flagEach (str "--proto-path") (Types.protoPath options)
         ++ flagEach (str "--disable-rule") (Types.disableRules options)
         ++ flagEach (str "--enable-rule") (Types.enableRules options)
         ++ flagEach (str "--descriptor-set-in") (Types.descriptorSetIn options)
         ++ flagIf (Types.ignoreCommentDisables options)
              (str "--ignore-comment-disables")
         ++ flagIf (Types.setExitStatus options) (str "--set-exit-status")
         ++ [str "--output-format"; str "json"]
         ++ [fileName];
     workingDir := workingDir;
     fileName := fileName |}.


Definition createDiagnosticFromProblem :=
  createDiagnosticWith vscode.Warning.

Definition parseLinterOutput_body (output : jsstring)
  : ST DecoderState unit :=
  if streq output [] || streq (trim output) [] then ret tt
  else
    tryCatch
      (parseAndCollect createDiagnosticFromProblem output)
      (fun error =>
         emit (ConsoleError (str "Error parsing linter output:") (Some error))).

Definition parseLinterOutput (output : jsstring)
  : result (list vscode.Diagnostic) * list LogEntry :=
  runDecoder (parseLinterOutput_body output).

End Plain.
End LinterUtilsPlain.

(** The copies of [utils/linterUtils.ts] that resolve workspace variables
    and filter import paths by existence; the last of them extracts the
    bracketed array before parsing and takes an optional output channel. *)
Module LinterUtils.
Section Resolving.
Context `{Platform}.

(** [buildLinterArgs] of the copy that resolves workspace variables and
    filters by existence (all option flags). *)
Definition buildLinterArgs (w : World) (filePath : jsstring)
    (options : Types.LinterOptions) : LinterArgs :=
  let args0 := configArgs w options filePath in
  let absolutePath := absolutePathOf filePath in
  let workingDir := path_dirname absolutePath in
  let fileName := path_basename absolutePath in
  {| args :=
       args0
         ++ [str "--proto-path"; workingDir]
         ++ workspaceArgs w filePath workingDir
         ++ homeArgs w
         ++ protoPathArgs w filePath (Types.protoPath options)
         ++ flagEach (str "--disable-rule") (Types.disableRules options)
         ++ flagEach (str "--enable-rule") (Types.enableRules options)
         ++ flagEach (str "--descriptor-set-in") (Types.descriptorSetIn options)
         ++ flagIf (Types.ignoreCommentDisables options)
              (str "--ignore-comment-disables")
         ++ flagIf (Types.setExitStatus options) (str "--set-exit-status")
         ++ [str "--output-format"; str "json"]
         ++ [fileName];
     workingDir := workingDir;
     fileName := fileName |}.



Definition createDiagnosticFromProblem :=
  createDiagnosticWith vscode.Error.

(** [console.error(msg); if (outputChannel) outputChannel.appendLine(
    `ERROR: ${msg}`)]. *)
Definition reportError (outputChannel : bool) (msg : jsstring)
  : ST DecoderState unit :=
  emit (ConsoleError msg None) ;;;
  if outputChannel then emit (ChannelLine (str "ERROR: " ++ msg)) else ret tt.

Definition parseLinterOutput_try (outputChannel : bool) (output : jsstring)
  : ST DecoderState unit :=
  let jsonOutput := trim output in
  let jsonStart := indexOf OPEN_BRACKET jsonOutput in
  if jsonStart =? -1 then
    reportError outputChannel
      (str "No JSON array found in linter output. First 200 chars: "
         ++ substring 0 200 output)
  else
    let jsonEnd := lastIndexOf CLOSE_BRACKET jsonOutput in
    if (jsonEnd =? -1) || (jsonEnd <? jsonStart) then
      reportError outputChannel
        (str "Invalid JSON array in linter output. First 200 chars: "
           ++ substring 0 200 output)
    else
      let jsonOutput := substring jsonStart (jsonEnd + 1) jsonOutput in
      (if outputChannel then
         emit (ChannelLine (str "Extracted JSON (first 200 chars): "
                              ++ substring 0 200 jsonOutput))
       else ret tt) ;;;
      parseAndCollect createDiagnosticFromProblem jsonOutput.

Definition parseLinterOutput_body (outputChannel : bool) (output : jsstring)
  : ST DecoderState unit :=
  if streq output [] || streq (trim output) [] then ret tt
  else
    tryCatch
      (parseLinterOutput_try outputChannel output)
      (fun error =>
         reportError outputChannel
           (str "Error parsing linter output: " ++ showError error
              ++ str ". First 200 chars: " ++ substring 0 200 output)).

Definition parseLinterOutput (outputChannel : bool) (output : jsstring)
  : result (list vscode.Diagnostic) * list LogEntry :=
  runDecoder (parseLinterOutput_body outputChannel output).

(** The substring handed to [JSON.parse]. *)
Definition extractJson (output : jsstring) : jsstring :=
  let jsonOutput := trim output in
  substring (indexOf OPEN_BRACKET jsonOutput)
            (lastIndexOf CLOSE_BRACKET jsonOutput + 1) jsonOutput.

End Resolving.
End LinterUtils.

(** ** linterProvider.ts and server.ts: process runner *)

(** How a spawned process ends: the ['error'] event with the error it
    carries, or the ['close'] event with the exit code ([None] is [null],
    a process ended by a signal). *)
Inductive ProcessEnd :=
  | ErrorEvent (error : exn)
  | CloseEvent (code : option Z).

(** A finished run: the buffered streams and the final event. *)
Record ProcessRun := {
  stdout : jsstring;
  stderr : jsstring;
  ending : ProcessEnd;
}.

(** [`${code}`]. *)
Definition showCode (code : option Z) : jsstring :=
  match code with
  | Some z => showZ z
  | None => str "null"
  end.

(** [code !== 0 && code !== 1]. *)
Definition isFailureCode (code : option Z) : bool :=
  match code with
  | Some z => negb (z =? 0) && negb (z =? 1)
  | None => true
  end.

(** [(error as NodeJS.ErrnoException).code === 'ENOENT']. *)
Definition isENOENT (error : exn) : bool :=
  match error with
  | ErrnoException c => streq c (str "ENOENT")
  | _ => false
  end.

Definition joinWith (sep : jsstring) (xs : list jsstring) : jsstring :=
  match xs with
  | [] => []
  | x :: rest => x ++ flat_map (fun y => sep ++ y) rest
  end.

Section ProcessRunner.
Context `{Platform}.

(** The two functions imported from [./utils/linterUtils], whichever copy
    of that file is installed. *)
Variable buildLinterArgs :
  World -> jsstring -> Types.LinterOptions -> LinterArgs.
Variable parseLinterOutput :
  jsstring -> result (list vscode.Diagnostic) * list LogEntry.

(** [ApiLinterProvider.runLinter]: the promise resolves ([Ok]) or rejects
    ([Throw]). *)
Definition runLinter (binaryPath filePath : jsstring)
    (options : Types.LinterOptions) (proc : ProcessRun)
  : M (list vscode.Diagnostic) :=
  w <- gets id ;;
  let built := buildLinterArgs w filePath options in
  appendLine (str "Running: " ++ binaryPath ++ str " "
                ++ joinWith (str " ") (args built)) ;;;
  appendLine (str "Working directory: " ++ workingDir built) ;;;
  record (Spawn binaryPath (args built) (workingDir built)) ;;;
  match ending proc with
  | ErrorEvent error =>
      if isENOENT error then
        throw (Error (str "api-linter binary not found at: " ++ binaryPath
                 ++ str ". Please install it or configure the correct path in settings."))
      else throw error
  | CloseEvent code =>
      (if negb (streq (stderr proc) [])
       then appendLine (str "stderr: " ++ stderr proc) else ret tt) ;;;
      if isFailureCode code then
        appendLine (str "api-linter exited with code " ++ showCode code) ;;;
        appendLine (str "stdout: " ++ stdout proc) ;;;
        throw (Error (str "api-linter exited with code " ++ showCode code))
      else
        match fst (parseLinterOutput (stdout proc)) with
        | Ok diagnostics => ret diagnostics
        | Throw error =>
            appendLine (str "Failed to parse linter output: "
                          ++ showError error) ;;;
            appendLine (str "stdout: " ++ stdout proc) ;;;
            ret []
        end
  end.

End ProcessRunner.

(** The language-server copy ([server.ts]). *)
Module Server.

(** A diagnostic of the language-server protocol. *)
Record Diagnostic := {
  severity : vscode.DiagnosticSeverity;
  range : vscode.Range;
  message : value;
  source : jsstring;
  code : value;
}.

Record ExtensionSettings := {
  configPath : jsstring;
  additionalArgs : list jsstring;
}.

Section Runner.
Context `{Platform}.
Variable buildLinterArgs :
  World -> jsstring -> Types.LinterOptions -> LinterArgs.
Variable parseLinterOutput :
  jsstring -> result (list vscode.Diagnostic) * list LogEntry.

Definition toLsp (d : vscode.Diagnostic) : Diagnostic :=
  {| severity := vscode.Error;
     range := vscode.range d;
     message := vscode.message d;
     source := vscode.source d;
     code := vscode.code_value d |}.

Definition runLinter (binaryPath filePath : jsstring)
    (settings : ExtensionSettings) (proc : ProcessRun)
  : M (list Diagnostic) :=
  let options :=
    {| Types.configPath := configPath settings;
       Types.protoPath := [];
       Types.disableRules := [];
       Types.enableRules := [];
       Types.descriptorSetIn := [];
       Types.ignoreCommentDisables := false;
       Types.setExitStatus := false |} in
  w <- gets id ;;
  let built := buildLinterArgs w filePath options in
  let args := args built ++ additionalArgs settings in
  record (Spawn binaryPath args (workingDir built)) ;;;
  match ending proc with
  | ErrorEvent error =>
      if isENOENT error then
        throw (Error (str "api-linter binary not found at: " ++ binaryPath))
      else throw error
  | CloseEvent code =>
      (if negb (streq (stderr proc) [])
       then appendLine (str "stderr: " ++ stderr proc) else ret tt) ;;;
      if isFailureCode code then
        appendLine (str "api-linter exited with code " ++ showCode code) ;;;
        throw (Error (str "api-linter exited with code " ++ showCode code))
      else
        match fst (parseLinterOutput (stdout proc)) with
        | Ok vscDiagnostics => ret (toLsp <$> vscDiagnostics)
        | Throw error =>
            appendLine (str "Failed to parse linter output: "
                          ++ showError error) ;;;
            ret []
        end
  end.

End Runner.
End Server.

(** What the promise resolves to on a successful exit: the decoded
    diagnostics, or nothing should the decoder throw. *)
Definition decoded {A} (r : result (list A)) : list A :=
  match r with
  | Ok ds => ds
  | Throw _ => []
  end.

(** ** download/apiLinterDownloader.ts *)

(** [a === b] on values.  Two objects or arrays obtained from separate
    [JSON.parse] calls are never identical. *)
Definition strictEq (a b : value) : bool :=
  match a, b with
  | VUndefined, VUndefined => true
  | VNull, VNull => true
  | VBool x, VBool y => bool_decide (x = y)
  | VNumber (Num x), VNumber (Num y) => x =? y
  | VString x, VString y => streq x y
  | _, _ => false
  end.

Module ApiLinterDownloader.
Section Downloader.
Context `{Platform}.

Definition GITHUB_API : jsstring :=
  str "https://api.github.com/repos/googleapis/api-linter/releases/latest".

Definition GAPI_DIR : jsstring := path_join [os_homedir; str ".gapi"].
Definition BINARY_PATH : jsstring := path_join [GAPI_DIR; str "api-linter"].
Definition METADATA_PATH : jsstring :=
  path_join [GAPI_DIR; str "metadata.json"].

(** [24 * 60 * 60 * 1000]. *)
Definition oneDayInMs : Z := 24 * 60 * 60 * 1000.

(** [JSON.parse(text)] inside an asynchronous function. *)
Definition parseJson (text : jsstring) : M value :=
  match JSON_parse text with
  | Some v => ret v
  | None => throw SyntaxError
  end.

Definition getCustomBinaryPath : M (option jsstring) :=
  customPath <- gets binaryPathSetting ;;
  ret (match customPath with
       | Some p =>
           if negb (streq p []) && negb (streq p (str "api-linter"))
           then Some p else None
       | None => None
       end).

Definition ensureDirectory : M unit :=
  present <- exists_ GAPI_DIR ;;
  if negb present then mkdir GAPI_DIR else ret tt.

Definition binaryExists : M bool := exists_ BINARY_PATH.

Definition shouldCheckForUpdate : M bool :=
  tryCatch
    (metadata <- readFile METADATA_PATH ;;
     data <- parseJson metadata ;;
     now <- Date_now ;;
     lastChecked <- lift (getProp data (str "lastChecked")) ;;
     ret (number_gt (number_sub (Num now) (ToNumber lastChecked))
            (Num oneDayInMs)))
    (fun _ => ret true).

Definition getLatestVersion : M value :=
  release <- fetchJson GITHUB_API ;;
  lift (getProp release (str "tag_name")).

Definition getCurrentVersion : M value :=
  tryCatch
    (metadata <- readFile METADATA_PATH ;;
     data <- parseJson metadata ;;
     lift (getProp data (str "version")))
    (fun _ => ret (VString (str "unknown"))).

Definition updateMetadata (version : value) : M unit :=
  now <- Date_now ;;
  let metadata :=
    VObject [(str "version", version);
             (str "lastChecked", VNumber (Num now));
             (str "path", VString BINARY_PATH)] in
  writeFile METADATA_PATH (JSON_stringify metadata).

(** [assets.find(asset => asset.name === assetName)]. *)
Fixpoint findByName (assetName : jsstring) (assets : list value)
  : result value :=
  match assets with
  | [] => Ok VUndefined
  | asset :: rest =>
      result_bind (getProp asset (str "name")) (fun name =>
        if strictEq name (VString assetName) then Ok asset
        else findByName assetName rest)
  end.

Definition findAssetForPlatform (assets : value) : result value :=
  let assetName :=
    str "api-linter-" ++ getPlatform ++ str "-" ++ getArch ++ str ".tar.gz" in
  match assets with
  | VArray xs => findByName assetName xs
  | _ => Throw TypeError
  end.

Definition extractBinary (tarPath : jsstring) : M unit :=
  let extractDir := GAPI_DIR in
  exec (str "tar -xzf " ++ [34%N] ++ tarPath ++ [34%N] ++ str " -C "
          ++ [34%N] ++ extractDir ++ [34%N]) ;;;
  chmod BINARY_PATH (str "755") ;;;
  unlinkSync tarPath.

Definition downloadBinary : M unit :=
  appendLine (str "Downloading api-linter binary...") ;;;
  release <- fetchJson GITHUB_API ;;
  version <- lift (getProp release (str "tag_name")) ;;
  assets <- lift (getProp release (str "assets")) ;;
  asset <- lift (findAssetForPlatform assets) ;;
  if negb (truthy asset) then
    throw (Error (str "No compatible binary found for " ++ getPlatform
                    ++ str "-" ++ getArch))
  else
    downloadUrl <- lift (getProp asset (str "browser_download_url")) ;;
    let tarPath := path_join [GAPI_DIR; str "api-linter.tar.gz"] in
    downloadFile downloadUrl tarPath ;;;
    appendLine (str "Download complete. Extracting...") ;;;
    extractBinary tarPath ;;;
    updateMetadata version ;;;
    appendLine (str "Binary downloaded and installed successfully").

Definition checkAndUpdate : M unit :=
  tryCatch
    (latestVersion <- getLatestVersion ;;
     currentVersion <- getCurrentVersion ;;
     (if negb (strictEq latestVersion currentVersion) then
        selection <-
          showInformationMessage
            (str "New version of api-linter available: "
               ++ ToString latestVersion ++ str " (current: "
               ++ ToString currentVersion ++ str ")")
            [str "Update Now"; str "Later"] ;;
        match selection with
        | Some choice =>
            if streq choice (str "Update Now") then
              downloadBinary ;;;
              showInformationMessage
                (str "api-linter updated to " ++ ToString latestVersion) [] ;;;
              ret tt
            else ret tt
        | None => ret tt
        end
      else ret tt) ;;;
     updateMetadata currentVersion)
    (fun error =>
       appendLine (str "Failed to check for updates: " ++ showError error)).

(** Everything after the custom-path test of [ensureBinary]. *)
Definition ensureManagedBinary : M jsstring :=
  present <- binaryExists ;;
  if present then
    due <- shouldCheckForUpdate ;;
    (if due then
       appendLine (str "Checking for updates...") ;;;
       checkAndUpdate
     else ret tt) ;;;
    ret BINARY_PATH
  else
    appendLine (str "Binary not found. Downloading...") ;;;
    downloadBinary ;;;
    ret BINARY_PATH.

Definition ensureBinary : M jsstring :=
  ensureDirectory ;;;
  customBinaryPath <- getCustomBinaryPath ;;
  match customBinaryPath with
  | Some customBinaryPath =>
      appendLine (str "Using custom binary path: " ++ customBinaryPath) ;;;
      ret customBinaryPath
  | None => ensureManagedBinary
  end.

End Downloader.
End ApiLinterDownloader.

(** ** binaryManager.ts: the functions that differ from the downloader *)
Module BinaryManager.
Section Manager.
Context `{Platform}.

(** [10 * 24 * 60 * 60 * 1000]. *)
Definition CHECK_INTERVAL_MS : Z := 10 * 24 * 60 * 60 * 1000.

(** [config.get<string>('binaryPath', '')]: the default replaces
    [undefined]. *)
Definition getCustomBinaryPath : M (option jsstring) :=
  setting <- gets binaryPathSetting ;;
  let customBinaryPath := default [] setting in
  ret (if negb (streq customBinaryPath [])
          && negb (streq customBinaryPath (str "api-linter"))
       then Some customBinaryPath else None).

Definition ensureDirectory : M unit :=
  tryCatch
    (mkdir ApiLinterDownloader.GAPI_DIR)
    (fun error =>
       match error with
       | ErrnoException c =>
           if streq c (str "EEXIST") then ret tt else throw error
       | _ => throw error
       end).

Definition shouldCheckForUpdate : M bool :=
  tryCatch
    (metadataContent <- readFile ApiLinterDownloader.METADATA_PATH ;;
     metadata <- ApiLinterDownloader.parseJson metadataContent ;;
     now <- Date_now ;;
     lastChecked <- lift (getProp metadata (str "lastChecked")) ;;
     ret (number_gt (number_sub (Num now) (ToNumber lastChecked))
            (Num CHECK_INTERVAL_MS)))
    (fun _ => ret true).

End Manager.
End BinaryManager.

(** ** download/googleapisDownloader.ts *)
Module GoogleapisDownloader.
Section Downloader.
Context `{Platform}.

Definition GAPI_DIR : jsstring := path_join [os_homedir; str ".gapi"].
Definition GOOGLEAPIS_DIR : jsstring :=
  path_join [GAPI_DIR; str "googleapis"].
Definition GOOGLEAPIS_METADATA_PATH : jsstring :=
  path_join [GAPI_DIR; str "googleapis-metadata.json"].

(** [30 * 24 * 60 * 60 * 1000]. *)
Definition thirtyDays : Z := 30 * 24 * 60 * 60 * 1000.

Definition shouldDownloadGoogleapis : M bool :=
  present <- exists_ GOOGLEAPIS_DIR ;;
  if negb present then ret true
  else
    tryCatch
      (metadataContent <- readFile GOOGLEAPIS_METADATA_PATH ;;
       metadata <- ApiLinterDownloader.parseJson metadataContent ;;
       now <- Date_now ;;
       lastChecked <- lift (getProp metadata (str "lastChecked")) ;;
       ret (number_gt (number_sub (Num now) (ToNumber lastChecked))
              (Num thirtyDays)))
      (fun _ => ret true).

Definition updateGoogleapisMetadata : M unit :=
  now <- Date_now ;;
  let metadata :=
    VObject [(str "lastChecked", VNumber (Num now));
             (str "commit", VString (str "master"));
             (str "source",
              VString (str "https://github.com/googleapis/googleapis"));
             (str "path", VString GOOGLEAPIS_DIR)] in
  writeFile GOOGLEAPIS_METADATA_PATH (JSON_stringify metadata).

End Downloader.
End GoogleapisDownloader.

(** ** hoverProvider.ts: documentation cache *)
Module ApiLinterHoverProvider.
Section Hover.
Context `{Platform}.

(** [parseRuleHtml] of [utils/htmlParser.ts]: regular-expression matching
    and replacement on a string, which cannot throw. *)
Variable parseRuleHtml : jsstring -> jsstring.

Definition PLACEHOLDER : jsstring :=
  str "**Documentation available at the link below.**".

(** [private guidanceCache: Map<string, string> = new Map()]. *)
Definition initialGuidanceCache : gmap jsstring jsstring := ∅.

Definition fetchRuleGuidance (ruleUri : jsstring) : M jsstring :=
  cache <- gets guidanceCache ;;
  match cache !! ruleUri with
  | Some guidance => ret guidance
  | None =>
      tryCatch
        (html <- fetchHtml ruleUri ;;
         let guidance := parseRuleHtml html in
         modify (fun w => withCache (<[ruleUri := guidance]> (guidanceCache w)) w) ;;;
         ret guidance)
        (fun _ => ret PLACEHOLDER)
  end.

End Hover.
End ApiLinterHoverProvider.

(** ** Interrupted writes

    [fs.writeFile(p, data)] opens [p] with flag ['w'] (create or truncate)
    and then writes the data; [fs.rename] replaces the destination in one
    step.  A prefix of the step list is what an interruption leaves done. *)
Inductive DiskStep :=
  | Truncate (p : jsstring)
  | Append (p chunk : jsstring)
  | Rename (src dst : jsstring).

Definition applyStep (f : gmap jsstring Node) (st : DiskStep)
  : gmap jsstring Node :=
  match st with
  | Truncate p => <[p := File []]> f
  | Append p chunk =>
      match f !! p with
      | Some (File c) => <[p := File (c ++ chunk)]> f
      | _ => f
      end
  | Rename src dst =>
      match f !! src with
      | Some n => <[dst := n]> (delete src f)
      | None => f
      end
  end.

Definition applySteps (f : gmap jsstring Node) (steps : list DiskStep)
  : gmap jsstring Node :=
  foldl applyStep f steps.

(** The disk steps behind one traced event. *)
Definition diskSteps (e : Event) : list DiskStep :=
  match e with
  | FsWriteFile p data => [Truncate p; Append p data]
  | FsRename src dst => [Rename src dst]
  | _ => []
  end.

(** Replacing the file at [p] by running [steps] from [f] is atomic when
    every interruption point shows [p] as it was or as it will finally be. *)
Definition atomicReplace (steps : list DiskStep) (p : jsstring)
    (f : gmap jsstring Node) : Prop :=
  forall k : nat,
    applySteps f (take k steps) !! p = f !! p
    \/ applySteps f (take k steps) !! p = applySteps f steps !! p.

(** The strategy the specification asks for: write a temporary file, then
    rename it over the final path. *)
Definition writeTempThenRename (tmp p data : jsstring) : list Event :=
  [FsWriteFile tmp data; FsRename tmp p].

(** ** Output decoder: the path through the bracket tests *)
Section DecoderSteps.
Context `{Platform}.

(** What the decoder does once the brackets are found. *)
Definition decodeText (outputChannel : bool) (text : jsstring)
  : ST DecoderState unit :=
  (if outputChannel then
     emit (ChannelLine (str "Extracted JSON (first 200 chars): "
                          ++ substring 0 200 text))
   else ret tt) ;;;
  parseAndCollect LinterUtils.createDiagnosticFromProblem text.

(** The three tests of the decoder on the trimmed buffer. *)
Definition bracketsFound (output : jsstring) : Prop :=
  let t := trim output in
  indexOf OPEN_BRACKET t <> -1
  /\ lastIndexOf CLOSE_BRACKET t <> -1
  /\ indexOf OPEN_BRACKET t <= lastIndexOf CLOSE_BRACKET t.

End DecoderSteps.

(** ** The decoder as the specification words it

    A DiagnosticRecord per problem entry, each coordinate converted on its
    own as [max(0, external - 1)]. *)
Definition zeroIndexed (external : Z) : number := Num (Z.max 0 (external - 1)).

Definition DiagnosticRecord (sev : vscode.DiagnosticSeverity)
    (p : Types.LinterProblem) : vscode.Diagnostic :=
  let loc := Types.location p in
  {| vscode.range :=
       {| vscode.startLine :=
            zeroIndexed (Types.line_number (Types.start_position loc));
          vscode.startCharacter :=
            zeroIndexed (Types.column_number (Types.start_position loc));
          vscode.endLine :=
            zeroIndexed (Types.line_number (Types.end_position loc));
          vscode.endCharacter :=
            zeroIndexed (Types.column_number (Types.end_position loc)) |};
     vscode.message := VString (Types.message p);
     vscode.severity := sev;
     vscode.source := DIAGNOSTIC_SOURCE;
     vscode.code_value := VString (Types.rule_id p);
     vscode.code_target :=
       {| vscode.parsedFrom := VString (Types.rule_doc_uri p) |} |}.

(** One record per problem entry, groups in order, entries in order. *)
Definition decodeSpec (sev : vscode.DiagnosticSeverity)
    (payload : list Types.LinterOutput) : list vscode.Diagnostic :=
  DiagnosticRecord sev <$> flat_map Types.problemsOf payload.






(** The JSON value of a typed payload, as the tool prints it. *)
Definition encodePosition (p : Types.Position) : value :=
  VObject [(str "line_number", VNumber (Num (Types.line_number p)));
           (str "column_number", VNumber (Num (Types.column_number p)))].

Definition encodeProblem (p : Types.LinterProblem) : value :=
  let loc := Types.location p in
  VObject
    [(str "message", VString (Types.message p));
     (str "location",
      VObject [(str "start_position", encodePosition (Types.start_position loc));
               (str "end_position", encodePosition (Types.end_position loc));
               (str "path", VString (Types.path loc))]);
     (str "rule_id", VString (Types.rule_id p));
     (str "rule_doc_uri", VString (Types.rule_doc_uri p))].

Definition encodeOutput (o : Types.LinterOutput) : value :=
  VObject
    ((str "file_path", VString (Types.file_path o))
       :: match Types.problems o with
          | Types.Missing => []
          | Types.Null => [(str "problems", VNull)]
          | Types.Problems ps => [(str "problems", VArray (encodeProblem <$> ps))]
          end).

Definition encodePayload (payload : list Types.LinterOutput) : value :=
  VArray (encodeOutput <$> payload).

(** Noise: text without either bracket. *)
Definition noBracket (s : jsstring) : Prop :=
  Forall (fun c => c <> OPEN_BRACKET /\ c <> CLOSE_BRACKET) s.

(** A text that starts with [[] and ends with []]. *)
Definition bracketed (arr : jsstring) : Prop :=
  exists body, arr = OPEN_BRACKET :: body ++ [CLOSE_BRACKET].

(** Some error was reported on the console. *)
Definition errorLogged (log : list LogEntry) : Prop :=
  exists msg detail, ConsoleError msg detail ∈ log.

(** ** Helpers for stating the argument-builder properties *)

(** [hay.includes(needle)]. *)
Fixpoint includes (needle hay : jsstring) : bool :=
  startsWith needle hay
  || match hay with
     | [] => false
     | _ :: hay' => includes needle hay'
     end.

(** The options with another import-path list. *)
Definition withProtoPath (options : Types.LinterOptions)
    (importPaths : list jsstring) : Types.LinterOptions :=
  {| Types.configPath := Types.configPath options;
     Types.protoPath := importPaths;
     Types.disableRules := Types.disableRules options;
     Types.enableRules := Types.enableRules options;
     Types.descriptorSetIn := Types.descriptorSetIn options;
     Types.ignoreCommentDisables := Types.ignoreCommentDisables options;
     Types.setExitStatus := Types.setExitStatus options |}.


(** ** Helpers for stating the freshness properties *)

(** The metadata file at [path] can be read and parses to [data]. *)
Definition metadataHolds `{Platform} (w : World) (path : jsstring)
    (data : value) : Prop :=
  fault w (OpReadFile path) = None
  /\ exists content,
       fs w !! path = Some (File content) /\ JSON_parse content = Some data.

(** The metadata file at [path] is missing, unreadable or unparsable. *)
Definition metadataUnusable `{Platform} (w : World) (path : jsstring) : Prop :=
  fs w !! path = None
  \/ (exists content,
        fs w !! path = Some (File content) /\ JSON_parse content = None)
  \/ fs w !! path = Some Directory
  \/ (exists e, fault w (OpReadFile path) = Some e).

(** The shape the three freshness checks share. *)
Definition dueAfter `{Platform} (path : jsstring) (interval : Z) : M bool :=
  tryCatch
    (metadata <- readFile path ;;
     data <- ApiLinterDownloader.parseJson metadata ;;
     now <- Date_now ;;
     lastChecked <- lift (getProp data (str "lastChecked")) ;;
     ret (number_gt (number_sub (Num now) (ToNumber lastChecked))
            (Num interval)))
    (fun _ => ret true).

(** ** Helpers for stating the metadata-write properties *)

(** The events a computation adds to the trace of [w]. *)
Definition eventsOf {A} (m : M A) (w : World) : list Event :=
  drop (length (trace w)) (trace (fst (m w))).

(** The metadata objects the two writers serialise. *)
Definition binaryMetadata `{Platform} (version : value) (now : Z) : value :=
  VObject [(str "version", version);
           (str "lastChecked", VNumber (Num now));
           (str "path", VString ApiLinterDownloader.BINARY_PATH)].

Definition googleapisMetadata `{Platform} (now : Z) : value :=
  VObject [(str "lastChecked", VNumber (Num now));
           (str "commit", VString (str "master"));
           (str "source",
            VString (str "https://github.com/googleapis/googleapis"));
           (str "path", VString GoogleapisDownloader.GOOGLEAPIS_DIR)].

(** ** A sample platform

    A POSIX-like platform used to run the definitions on concrete inputs:
    paths are joined with [/] and taken as already normalised, the working
    directory is [/cwd], and [JSON.parse] understands the compact rendering
    of the values listed in [sampleValues]. *)
Module Sample.

Definition QUOTE : jsstring := [34%N].
Definition SLASH : N := 47%N.

(** Compact JSON text of a value (strings without characters to escape). *)
Fixpoint renderJson (v : value) : jsstring :=
  match v with
  | VUndefined => str "undefined"
  | VNull => str "null"
  | VBool b => if b then str "true" else str "false"
  | VNumber NaN => str "null"
  | VNumber (Num z) => showZ z
  | VString s => QUOTE ++ s ++ QUOTE
  | VArray xs =>
      str "["
        ++ (fix items (l : list value) : jsstring :=
              match l with
              | [] => []
              | x :: l' =>
                  renderJson x
                    ++ match l' with [] => [] | _ => str "," ++ items l' end
              end) xs
        ++ str "]"
  | VObject fields =>
      str "{"
        ++ (fix members (l : list (jsstring * value)) : jsstring :=
              match l with
              | [] => []
              | (k, x) :: l' =>
                  QUOTE ++ k ++ QUOTE ++ str ":" ++ renderJson x
                    ++ match l' with [] => [] | _ => str "," ++ members l' end
              end) fields
        ++ str "}"
  end.

Definition problem1 : Types.LinterProblem :=
  {| Types.message := str "HTTP URI should end in a custom verb";
     Types.location :=
       {| Types.start_position :=
            {| Types.line_number := 12; Types.column_number := 3 |};
          Types.end_position :=
            {| Types.line_number := 12; Types.column_number := 40 |};
          Types.path := str "a.proto" |};
     Types.rule_id := str "core::0136::http-uri-suffix";
     Types.rule_doc_uri := str "https://linter.aip.dev/136/http-uri-suffix" |}.

(** A finding the tool places before the first line of the file. *)
Definition problem2 : Types.LinterProblem :=
  {| Types.message := str "Missing comment";
     Types.location :=
       {| Types.start_position :=
            {| Types.line_number := 0; Types.column_number := 5 |};
          Types.end_position :=
            {| Types.line_number := 1; Types.column_number := 0 |};
          Types.path := str "a.proto" |};
     Types.rule_id := str "core::0192::has-comments";
     Types.rule_doc_uri := str "https://linter.aip.dev/192/has-comments" |}.

Definition payload1 : list Types.LinterOutput :=
  [ {| Types.file_path := str "empty.proto"; Types.problems := Types.Problems [] |};
    {| Types.file_path := str "a.proto";
       Types.problems := Types.Problems [problem1; problem2] |};
    {| Types.file_path := str "b.proto"; Types.problems := Types.Null |} ].

Definition metadataAt (t : Z) : value :=
  VObject [(str "version", VString (str "v1.69.2"));
           (str "lastChecked", VNumber (Num t));
           (str "path", VString (str "/home/u/.gapi/api-linter"))].

Definition sampleNow : Z := 1750000000000.

Definition sampleValues : list value :=
  [ VArray [];
    encodePayload payload1;
    metadataAt (sampleNow - (24 * 60 * 60 * 1000 + 1));
    metadataAt (sampleNow - (24 * 60 * 60 * 1000 - 1));
    metadataAt (sampleNow - (30 * 24 * 60 * 60 * 1000 + 1));
    metadataAt (sampleNow - (30 * 24 * 60 * 60 * 1000 - 1)) ].

Definition parse (s : jsstring) : option value :=
  List.find (fun v => streq (renderJson v) s) sampleValues.

Definition isAbsolute (s : jsstring) : bool :=
  match s with
  | c :: _ => (c =? SLASH)%N
  | [] => false
  end.

Definition resolve (s : jsstring) : jsstring :=
  if isAbsolute s then s else str "/cwd/" ++ s.

Definition dirname (s : jsstring) : jsstring :=
  let i := lastIndexOf SLASH s in
  if i <? 0 then str "." else if i =? 0 then str "/" else substring 0 i s.

Definition basename (s : jsstring) : jsstring :=
  substring (lastIndexOf SLASH s + 1) (Z.of_nat (length s)) s.

Definition showExn (e : exn) : jsstring :=
  match e with
  | SyntaxError => str "SyntaxError: Unexpected token"
  | TypeError => str "TypeError"
  | ErrnoException c => str "Error: " ++ c
  | Error m => str "Error: " ++ m
  end.

Lemma parse_array s xs :
  parse s = Some (VArray xs) -> OPEN_BRACKET ∈ s /\ CLOSE_BRACKET ∈ s.
Proof.
  unfold parse. intros Hfind.
  apply List.find_some in Hfind as [_ Heq].
  unfold streq in Heq. apply bool_decide_eq_true_1 in Heq. subst s.
  cbn [renderJson]. split.
  - apply elem_of_app. left. apply elem_of_cons. by left.
  - apply elem_of_app. right. apply elem_of_app. right.
    apply elem_of_cons. by left.
Qed.

Definition platform : Platform :=
  {| JSON_parse := parse;
     JSON_stringify := renderJson;
     ToNumber_other := fun _ => NaN;
     path_isAbsolute := isAbsolute;
     path_resolve := resolve;
     path_dirname := dirname;
     path_basename := basename;
     path_join := joinWith (str "/");
     os_homedir := str "/home/u";
     getPlatform := str "linux";
     getArch := str "amd64";
     showError := showExn;
     ToString := fun v => match v with VString t => t | _ => renderJson v end;
     JSON_parse_array := parse_array |}.

(** A machine with an empty disk, no workspace open and no network. *)
Definition offline : World :=
  {| fs := ∅;
     fault := fun _ => None;
     now := sampleNow;
     binaryPathSetting := None;
     workspaceFolders := [];
     getWorkspaceFolder := fun _ => None;
     fetchJsonResponse := fun _ => Throw (Error (str "getaddrinfo ENOTFOUND"));
     downloadResponse := fun _ => Throw (Error (str "getaddrinfo ENOTFOUND"));
     fetchHtmlResponse := fun _ => Throw (Error (str "getaddrinfo ENOTFOUND"));
     execEffect := fun _ f => Ok f;
     promptAnswer := None;
     guidanceCache := ∅;
     trace := [] |}.

Definition withWorkspace (folders : list jsstring) (w : World) : World :=
  {| fs := fs w; fault := fault w; now := now w;
     binaryPathSetting := binaryPathSetting w;
     workspaceFolders := folders;
     getWorkspaceFolder := fun _ => head folders;
     fetchJsonResponse := fetchJsonResponse w;
     downloadResponse := downloadResponse w;
     fetchHtmlResponse := fetchHtmlResponse w;
     execEffect := execEffect w; promptAnswer := promptAnswer w;
     guidanceCache := guidanceCache w; trace := trace w |}.

Definition withBinaryPath (setting : option jsstring) (w : World) : World :=
  {| fs := fs w; fault := fault w; now := now w;
     binaryPathSetting := setting;
     workspaceFolders := workspaceFolders w;
     getWorkspaceFolder := getWorkspaceFolder w;
     fetchJsonResponse := fetchJsonResponse w;
     downloadResponse := downloadResponse w;
     fetchHtmlResponse := fetchHtmlResponse w;
     execEffect := execEffect w; promptAnswer := promptAnswer w;
     guidanceCache := guidanceCache w; trace := trace w |}.

Definition withFault (f : FsOp -> option exn) (w : World) : World :=
  {| fs := fs w; fault := f; now := now w;
     binaryPathSetting := binaryPathSetting w;
     workspaceFolders := workspaceFolders w;
     getWorkspaceFolder := getWorkspaceFolder w;
     fetchJsonResponse := fetchJsonResponse w;
     downloadResponse := downloadResponse w;
     fetchHtmlResponse := fetchHtmlResponse w;
     execEffect := execEffect w; promptAnswer := promptAnswer w;
     guidanceCache := guidanceCache w; trace := trace w |}.

Definition withHtml (pages : jsstring -> result jsstring) (w : World)
  : World :=
  {| fs := fs w; fault := fault w; now := now w;
     binaryPathSetting := binaryPathSetting w;
     workspaceFolders := workspaceFolders w;
     getWorkspaceFolder := getWorkspaceFolder w;
     fetchJsonResponse := fetchJsonResponse w;
     downloadResponse := downloadResponse w;
     fetchHtmlResponse := pages;
     execEffect := execEffect w; promptAnswer := promptAnswer w;
     guidanceCache := guidanceCache w; trace := trace w |}.

Definition noOptions : Types.LinterOptions :=
  {| Types.configPath := [];
     Types.protoPath := [];
     Types.disableRules := [];
     Types.enableRules := [];
     Types.descriptorSetIn := [];
     Types.ignoreCommentDisables := false;
     Types.setExitStatus := false |}.

(** The data directory cannot be created (a read-only home directory) and
    a custom executable is configured. *)
Definition readOnlyHome : World :=
  withFault
    (fun op =>
       match op with
       | OpMkdir _ => Some (ErrnoException (str "EACCES"))
       | _ => None
       end)
    (withBinaryPath (Some (str "/opt/tools/api-linter")) offline).


(** An installed binary whose metadata was written a day ago. *)
Definition installed : World :=
  withFs (<[str "/home/u/.gapi/metadata.json" :=
              File (renderJson (metadataAt (sampleNow - 24 * 60 * 60 * 1000)))]>
            (<[str "/home/u/.gapi" := Directory]> ∅)) offline.

(** The documentation site answers for one rule page. *)
Definition ruleUri : jsstring := str "https://linter.aip.dev/136/http-uri-suffix".

Definition online : World :=
  withHtml
    (fun url =>
       if streq url ruleUri then Ok (str "<h2 id=details>Details</h2>")
       else Throw (Error (str "getaddrinfo ENOTFOUND")))
    offline.



(** A run of the tool that reports findings: exit code 1. *)
Definition findingsRun : ProcessRun :=
  {| stdout := renderJson (encodePayload payload1);
     stderr := [];
     ending := CloseEvent (Some 1) |}.

(** A run of the tool that fails: exit code 2. *)
Definition failedRun : ProcessRun :=
  {| stdout := [];
     stderr := str "unknown flag";
     ending := CloseEvent (Some 2) |}.

Definition noSettings : Server.ExtensionSettings :=
  {| Server.configPath := []; Server.additionalArgs := [] |}.


(** The workspace [/ws] with [/ws/p/vendor] on disk and no [/ws/missing]. *)
Definition vendorWorld : World :=
  withWorkspace [str "/ws"]
    (withFs (<[str "/ws" := Directory]>
               (<[str "/ws/p" := Directory]>
                  (<[str "/ws/p/vendor" := Directory]> ∅))) offline).

End Sample.

(** * Further functions of the sources *)

(** ** Helpers for stating the decoder's behaviour on malformed groups *)


(** The two tokens [resolveWorkspaceVariables] substitutes. *)
Definition WORKSPACE_FOLDER_TOKEN : jsstring := str "${workspaceFolder}".
Definition WORKSPACE_ROOT_TOKEN : jsstring := str "${workspaceRoot}".
Definition DOLLAR : N := 36%N.

(** The lines [ApiLinterProvider.runLinter] logs before the process ends. *)
Definition runnerPreamble (binaryPath : jsstring) (built : LinterArgs)
  : list Event :=
  [AppendLine (str "Running: " ++ binaryPath ++ str " "
                 ++ joinWith (str " ") (args built));
   AppendLine (str "Working directory: " ++ workingDir built);
   Spawn binaryPath (args built) (workingDir built)].

(** [if (stderr) appendLine(`stderr: ${stderr}`)]. *)
Definition stderrLine (proc : ProcessRun) : list Event :=
  if negb (streq (stderr proc) []) then [AppendLine (str "stderr: " ++ stderr proc)]
  else [].

(** ** download/apiLinterDownloader.ts: the remaining function *)
Module ApiLinterDownloaderViews.
Section Views.
Context `{Platform}.

(** [data.version || 'unknown'] and the like. *)
Definition orElse (v : value) (fallback : jsstring) : value :=
  if truthy v then v else VString fallback.

Definition getBinaryVersion : M value :=
  tryCatch
    (metadata <- readFile ApiLinterDownloader.METADATA_PATH ;;
     data <- ApiLinterDownloader.parseJson metadata ;;
     version <- lift (getProp data (str "version")) ;;
     ret (orElse version (str "unknown")))
    (fun _ => ret (VString (str "unknown"))).

(** The [try] block of [checkAndUpdate]. *)
Definition checkAndUpdate_try : M unit :=
  latestVersion <- ApiLinterDownloader.getLatestVersion ;;
  currentVersion <- ApiLinterDownloader.getCurrentVersion ;;
  (if negb (strictEq latestVersion currentVersion) then
     selection <-
       showInformationMessage
         (str "New version of api-linter available: "
            ++ ToString latestVersion ++ str " (current: "
            ++ ToString currentVersion ++ str ")")
         [str "Update Now"; str "Later"] ;;
     match selection with
     | Some choice =>
         if streq choice (str "Update Now") then
           ApiLinterDownloader.downloadBinary ;;;
           showInformationMessage
             (str "api-linter updated to " ++ ToString latestVersion) [] ;;;
           ret tt
         else ret tt
     | None => ret tt
     end
   else ret tt) ;;;
  ApiLinterDownloader.updateMetadata currentVersion.

(** The name of the release asset for this machine. *)
Definition assetName : jsstring :=
  str "api-linter-" ++ getPlatform ++ str "-" ++ getArch ++ str ".tar.gz".

End Views.
End ApiLinterDownloaderViews.

(** ** download/googleapisDownloader.ts and download/protobufDownloader.ts:
    further functions *)
Module CorpusDownloaders.
Section Corpora.
Context `{Platform}.

Definition PROTOBUF_DIR : jsstring :=
  path_join [GoogleapisDownloader.GAPI_DIR; str "protobuf"].
Definition PROTOBUF_METADATA_PATH : jsstring :=
  path_join [GoogleapisDownloader.GAPI_DIR; str "protobuf-metadata.json"].

Definition getGoogleapisCommit : M value :=
  tryCatch
    (metadata <- readFile GoogleapisDownloader.GOOGLEAPIS_METADATA_PATH ;;
     data <- ApiLinterDownloader.parseJson metadata ;;
     commit <- lift (getProp data (str "commit")) ;;
     ret (ApiLinterDownloaderViews.orElse commit (str "not downloaded")))
    (fun _ => ret (VString (str "not downloaded"))).

Definition getProtobufCommit : M value :=
  tryCatch
    (metadata <- readFile PROTOBUF_METADATA_PATH ;;
     data <- ApiLinterDownloader.parseJson metadata ;;
     commit <- lift (getProp data (str "commit")) ;;
     ret (ApiLinterDownloaderViews.orElse commit (str "not downloaded")))
    (fun _ => ret (VString (str "not downloaded"))).

Definition shouldDownloadProtobuf : M bool :=
  present <- exists_ PROTOBUF_DIR ;;
  if negb present then ret true
  else
    tryCatch
      (metadataContent <- readFile PROTOBUF_METADATA_PATH ;;
       metadata <- ApiLinterDownloader.parseJson metadataContent ;;
       now <- Date_now ;;
       lastChecked <- lift (getProp metadata (str "lastChecked")) ;;
       ret (number_gt (number_sub (Num now) (ToNumber lastChecked))
              (Num GoogleapisDownloader.thirtyDays)))
      (fun _ => ret true).

End Corpora.
End CorpusDownloaders.

(** ** Helpers for stating the provisioning properties *)

(** [JSON.parse] gives back the object that was serialised. *)
Definition roundTrips `{Platform} (v : value) : Prop :=
  JSON_parse (JSON_stringify v) = Some v.

(** The metadata file can be written. *)
Definition writable (w : World) (path : jsstring) : Prop :=
  fault w (OpWriteFile path) = None /\ fs w !! path <> Some Directory.

(** ** hoverProvider.ts: rendering a hover *)
Module ApiLinterHoverRendering.
Section Rendering.
Context `{Platform}.

Variable parseRuleHtml : jsstring -> jsstring.

(** [uri.toString()] of a [vscode.Uri]. *)
Variable uriToString : vscode.Uri -> jsstring.

Definition NEWLINE : jsstring := [10%N].

(** [markdown.appendMarkdown(text)]: [this.value += text]. *)
Definition appendMarkdown (markdown text : jsstring) : jsstring :=
  markdown ++ text.

(** [code?.value || 'unknown']. *)
Definition ruleIdOf (diagnostic : vscode.Diagnostic) : value :=
  ApiLinterDownloaderViews.orElse (vscode.code_value diagnostic)
    (str "unknown").

(** [code?.target?.toString() || '']. *)
Definition ruleUriOf (diagnostic : vscode.Diagnostic) : jsstring :=
  let text := uriToString (vscode.code_target diagnostic) in
  if truthy (VString text) then text else [].

Definition appendRuleHeader (markdown : jsstring) (ruleId : value)
    (ruleUri : jsstring) : jsstring :=
  if truthy (VString ruleUri) then
    appendMarkdown markdown
      (str "### Rule: [`" ++ ToString ruleId ++ str "`](" ++ ruleUri
         ++ str ")" ++ NEWLINE ++ NEWLINE)
  else
    appendMarkdown markdown
      (str "### Rule: `" ++ ToString ruleId ++ str "`" ++ NEWLINE ++ NEWLINE).

Definition severityMap (severity : vscode.DiagnosticSeverity) : jsstring :=
  match severity with
  | vscode.Error => str "ERROR"
  | vscode.Warning => str "WARNING"
  | vscode.Information => str "INFO"
  | vscode.Hint => str "HINT"
  end.

Definition appendSeverityAndMessage (markdown : jsstring)
    (diagnostic : vscode.Diagnostic) : jsstring :=
  let label := severityMap (vscode.severity diagnostic) in
  let severityLabel := if truthy (VString label) then label else str "INFO" in
  appendMarkdown markdown
    (str "**" ++ severityLabel ++ str ":** "
       ++ ToString (vscode.message diagnostic) ++ NEWLINE ++ NEWLINE).

(** The [MarkdownString] is mutated in place; the text it holds afterwards
    is returned. *)
Definition appendDiagnosticInfo (markdown : jsstring)
    (diagnostic : vscode.Diagnostic) : M jsstring :=
  let ruleId := ruleIdOf diagnostic in
  let ruleUri := ruleUriOf diagnostic in
  let markdown := appendRuleHeader markdown ruleId ruleUri in
  let markdown := appendSeverityAndMessage markdown diagnostic in
  if truthy (VString ruleUri) then
    guidance <- ApiLinterHoverProvider.fetchRuleGuidance parseRuleHtml ruleUri ;;
    let markdown := appendMarkdown markdown guidance in
    ret (appendMarkdown markdown
           (NEWLINE ++ NEWLINE ++ str "[View Full Documentation](" ++ ruleUri
              ++ str ")" ++ NEWLINE))
  else ret markdown.

(** The loop of [buildHoverMarkdown] from position [index] on. *)
Fixpoint appendFrom (index : nat) (diagnostics : list vscode.Diagnostic)
    (markdown : jsstring) : M jsstring :=
  match diagnostics with
  | [] => ret markdown
  | diagnostic :: rest =>
      let markdown :=
        if (0 <? index)%nat then
          appendMarkdown markdown
            (NEWLINE ++ NEWLINE ++ str "---" ++ NEWLINE ++ NEWLINE)
        else markdown in
      markdown <- appendDiagnosticInfo markdown diagnostic ;;
      appendFrom (S index) rest markdown
  end.

Definition buildHoverMarkdown (diagnostics : list vscode.Diagnostic)
  : M jsstring :=
  appendFrom 0 diagnostics [].

(** [provideHover] once the diagnostics at the position are known: the
    text of the hover and the range it is attached to. *)
Definition provideHover (matchingDiagnostics : list vscode.Diagnostic)
  : M (option (jsstring * vscode.Range)) :=
  match matchingDiagnostics with
  | [] => ret None
  | first :: _ =>
      markdown <- buildHoverMarkdown matchingDiagnostics ;;
      ret (Some (markdown, vscode.range first))
  end.

End Rendering.
End ApiLinterHoverRendering.


(** ** linterProvider.ts: linting documents *)

(** [s.endsWith(suffix)]. *)
Definition endsWith (suffix s : jsstring) : bool :=
  streq (drop (length s - length suffix) s) suffix.

Module LinterProvider.

(** What the provider reads of a [vscode.TextDocument]. *)
Record TextDocument := {
  fileName : jsstring;
  isDirty : bool;
  uri : jsstring;
  fsPath : jsstring;
}.

(** Calls on the editor window and on documents. *)
Inductive WindowEvent :=
  | DocumentSaved (uri : jsstring)
  | ShowErrorMessage (message : jsstring).

(** The provider's surroundings: the machine, the diagnostic collection
    (keyed by document URI), the [gapi] settings and the calls made on the
    window. *)
Record Host := {
  world : World;
  diagnosticCollection : gmap jsstring (list vscode.Diagnostic);
  linterOptions : Types.LinterOptions;
  window : list WindowEvent;
}.

Definition withWorld (w : World) (h : Host) : Host :=
  {| world := w; diagnosticCollection := diagnosticCollection h;
     linterOptions := linterOptions h; window := window h |}.

Definition withCollection (c : gmap jsstring (list vscode.Diagnostic))
    (h : Host) : Host :=
  {| world := world h; diagnosticCollection := c;
     linterOptions := linterOptions h; window := window h |}.

Definition withWindow (es : list WindowEvent) (h : Host) : Host :=
  {| world := world h; diagnosticCollection := diagnosticCollection h;
     linterOptions := linterOptions h; window := es |}.

(** A computation on the machine, run inside the provider. *)
Definition onWorld {A} (m : M A) : ST Host A :=
  fun h => let (w, r) := m (world h) in (withWorld w h, r).

Definition notify (e : WindowEvent) : ST Host unit :=
  modify (fun h => withWindow (window h ++ [e]) h).

Section Provider.
Context `{Platform}.

Variable buildLinterArgs :
  World -> jsstring -> Types.LinterOptions -> LinterArgs.
Variable parseLinterOutput :
  jsstring -> result (list vscode.Diagnostic) * list LogEntry.

(** [this.binaryManager.ensureBinary()]. *)
Variable ensureBinary : M jsstring.

(** What the process started by [cp.spawn(command, args, { cwd })] does. *)
Variable spawn : jsstring -> list jsstring -> jsstring -> ProcessRun.

(** [this.runLinter(binaryPath, filePath, options)] with the process that
    [cp.spawn] starts for the arguments it builds. *)
Definition runSpawned (binaryPath filePath : jsstring)
    (options : Types.LinterOptions) : M (list vscode.Diagnostic) :=
  w <- gets id ;;
  let built := buildLinterArgs w filePath options in
  runLinter buildLinterArgs parseLinterOutput binaryPath filePath options
    (spawn binaryPath (args built) (workingDir built)).

Definition lintDocument (document : TextDocument) (saveFirst : bool)
  : ST Host unit :=
  if negb (endsWith (str ".proto") (fileName document)) then ret tt
  else
    (if saveFirst && isDirty document
     then notify (DocumentSaved (uri document)) else ret tt) ;;;
    let filePath := fsPath document in
    onWorld (appendLine (str "Starting lint for: " ++ filePath)) ;;;
    tryCatch
      (binaryPath <- onWorld ensureBinary ;;
       onWorld (appendLine (str "Using binary: " ++ binaryPath)) ;;;
       options <- gets linterOptions ;;
       diagnostics <- onWorld (runSpawned binaryPath filePath options) ;;
       onWorld (appendLine (str "Found "
                              ++ showZ (Z.of_nat (length diagnostics))
                              ++ str " diagnostic(s)")) ;;;
       modify (fun h =>
                 withCollection
                   (<[uri document := diagnostics]> (diagnosticCollection h))
                   h))
      (fun error =>
         onWorld (appendLine (str "Error linting " ++ filePath ++ str ": "
                                ++ showError error)) ;;;
         notify (ShowErrorMessage (str "Google API Linter error: "
                                     ++ showError error))).

(** [lintWorkspace] once [findProtoFiles] has answered and the documents
    are open. *)
Definition lintWorkspace (protoFiles : list TextDocument) : ST Host unit :=
  if (length protoFiles =? 0)%nat then
    onWorld (showInformationMessage
               (str "No .proto files found in workspace.") []) ;;;
    ret tt
  else
    onWorld (showInformationMessage
               (str "Linting " ++ showZ (Z.of_nat (length protoFiles))
                  ++ str " proto file(s)...") []) ;;;
    forEach (fun document => lintDocument document false) protoFiles ;;;
    onWorld (showInformationMessage
               (str "Workspace linting completed.") []) ;;;
    ret tt.

End Provider.
End LinterProvider.


(** ** utils/httpClient.ts

    [https.get(url, ...)] either emits [error] or hands a response to the
    callback, whose body then arrives completely. *)
Module HttpClient.

Record IncomingMessage := {
  statusCode : Z;
  (** [response.headers.location]. *)
  location : option jsstring;
  (** The chunks of the body, concatenated. *)
  data : jsstring;
}.

Inductive Exchange :=
  | ErrorEmitted (err : exn)
  | Responded (res : IncomingMessage).

Section Client.
Context `{Platform}.

(** The network: what [https.get] does for a URL. *)
Variable get : jsstring -> Exchange.

Definition fetchHtml (url : jsstring) : result jsstring :=
  match get url with
  | ErrorEmitted err => Throw err
  | Responded res => Ok (data res)
  end.

Definition fetchJson (url : jsstring) : result value :=
  match get url with
  | ErrorEmitted err => Throw err
  | Responded res =>
      if negb (statusCode res =? 200) then
        Throw (Error (str "HTTP " ++ showZ (statusCode res) ++ str ": "
                        ++ substring 0 200 (data res)))
      else
        match JSON_parse (data res) with
        | Some v => Ok v
        | None =>
            Throw (Error (str "Failed to parse JSON response. First 200 chars: "
                            ++ substring 0 200 (data res)))
        end
  end.

(** The inner [request] of [downloadFile]: [None] while the promise is not
    settled after [fuel] requests; [Ok body] when it resolves with [body]
    piped into the destination file. *)
Fixpoint request (fuel : nat) (redirectUrl : jsstring)
  : option (result jsstring) :=
  match fuel with
  | O => None
  | S fuel' =>
      match get redirectUrl with
      | ErrorEmitted err => Some (Throw err)
      | Responded response =>
          let settle :=
            if negb (statusCode response =? 200) then
              Some (Throw (Error (str "Failed to download: "
                                    ++ showZ (statusCode response))))
            else Some (Ok (data response)) in
          if (statusCode response =? 302) || (statusCode response =? 301)
          then
            match location response with
            | Some location =>
                if truthy (VString location) then request fuel' location
                else settle
            | None => settle
            end
          else settle
      end
  end.

Definition downloadFile (fuel : nat) (url : jsstring)
  : option (result jsstring) :=
  request fuel url.

End Client.
End HttpClient.

(** ** Helpers for stating the redirect properties *)

(** The response to [url] is a redirect (301 or 302) to [next]. *)
Definition redirectsTo (get : jsstring -> HttpClient.Exchange)
    (url next : jsstring) : Prop :=
  exists res,
    get url = HttpClient.Responded res
    /\ (HttpClient.statusCode res = 301 \/ HttpClient.statusCode res = 302)
    /\ HttpClient.location res = Some next
    /\ next <> [].

(** Starting at [url], the redirects lead through [hops], one after the
    other. *)
Fixpoint redirectChain (get : jsstring -> HttpClient.Exchange)
    (url : jsstring) (hops : list jsstring) : Prop :=
  match hops with
  | [] => True
  | next :: rest => redirectsTo get url next /\ redirectChain get next rest
  end.

(** A world whose pages are served by the HTTP client. *)
Definition htmlOver (get : jsstring -> HttpClient.Exchange) (w : World)
  : Prop :=
  fetchHtmlResponse w = HttpClient.fetchHtml get.


(** ** Further sample runs

    More inputs on the sample machine: a truncated payload, installed and
    half-installed data directories, a release without an asset for the
    machine, an accepted update, redirecting servers and an editor with one
    open document. *)
Module Scenario.

(** A payload whose last group is [null]. *)
Definition truncatedPayload : value :=
  VArray ((encodeOutput <$> Sample.payload1) ++ [VNull]).

Definition values : list value :=
  Sample.sampleValues
    ++ [truncatedPayload; Sample.metadataAt Sample.sampleNow].

Definition parse (s : jsstring) : option value :=
  List.find (fun v => streq (Sample.renderJson v) s) values.

Lemma parse_known_array s xs :
  parse s = Some (VArray xs) -> OPEN_BRACKET ∈ s /\ CLOSE_BRACKET ∈ s.
Proof.
  unfold parse. intros Hfind.
  apply List.find_some in Hfind as [_ Heq].
  unfold streq in Heq. apply bool_decide_eq_true_1 in Heq. subst s.
  cbn [Sample.renderJson]. split.
  - apply elem_of_app. left. apply elem_of_cons. by left.
  - apply elem_of_app. right. apply elem_of_app. right.
    apply elem_of_cons. by left.
Qed.

(** The sample platform with a [JSON.parse] that knows the further
    values. *)
Definition platform : Platform :=
  {| JSON_parse := parse;
     JSON_stringify := Sample.renderJson;
     ToNumber_other := fun _ => NaN;
     path_isAbsolute := Sample.isAbsolute;
     path_resolve := Sample.resolve;
     path_dirname := Sample.dirname;
     path_basename := Sample.basename;
     path_join := joinWith (str "/");
     os_homedir := str "/home/u";
     getPlatform := str "linux";
     getArch := str "amd64";
     showError := Sample.showExn;
     ToString := fun v => match v with
                          | VString t => t
                          | _ => Sample.renderJson v
                          end;
     JSON_parse_array := parse_known_array |}.

Definition oneDay : Z := 24 * 60 * 60 * 1000.

(** The data directory with the binary in it and a metadata file written
    at time [t]. *)
Definition installedAt (t : Z) : World :=
  withFs
    (<[str "/home/u/.gapi/metadata.json" :=
         File (Sample.renderJson (Sample.metadataAt t))]>
       (<[str "/home/u/.gapi/api-linter" := File (str "ELF")]>
          (<[str "/home/u/.gapi" := Directory]> ∅)))
    Sample.offline.

(** Checked a day and a millisecond ago, and a millisecond less than a day
    ago. *)
Definition installedStale : World :=
  installedAt (Sample.sampleNow - (oneDay + 1)).
Definition installedFresh : World :=
  installedAt (Sample.sampleNow - (oneDay - 1)).

(** The data directory exists and is empty. *)
Definition emptyDataDir : World :=
  withFs (<[str "/home/u/.gapi" := Directory]> ∅) Sample.offline.

(** A regular file sits where the data directory should be. *)
Definition fileInTheWay : World :=
  withFs (<[str "/home/u/.gapi" := File (str "notes")]> ∅) Sample.offline.


(** The protobuf corpus is installed; its metadata is thirty days and a
    millisecond old. *)
Definition protobufStale : World :=
  withFs
    (<[str "/home/u/.gapi/protobuf-metadata.json" :=
         File (Sample.renderJson
                 (Sample.metadataAt
                    (Sample.sampleNow - (30 * 24 * 60 * 60 * 1000 + 1))))]>
       (<[str "/home/u/.gapi/protobuf" := Directory]> ∅))
    Sample.offline.

Definition withRelease (release : value) (answer : option jsstring)
    (w : World) : World :=
  {| fs := fs w; fault := fault w; now := now w;
     binaryPathSetting := binaryPathSetting w;
     workspaceFolders := workspaceFolders w;
     getWorkspaceFolder := getWorkspaceFolder w;
     fetchJsonResponse := fun _ => Ok release;
     downloadResponse := fun _ => Ok (str "tarball");
     fetchHtmlResponse := fetchHtmlResponse w;
     execEffect := execEffect w; promptAnswer := answer;
     guidanceCache := guidanceCache w; trace := trace w |}.

Definition releaseWith (tag assetName : jsstring) : value :=
  VObject
    [(str "tag_name", VString tag);
     (str "assets",
      VArray [VObject [(str "name", VString assetName);
                       (str "browser_download_url",
                        VString (str "https://example.org/asset"))]])].

(** The latest release only ships a Windows archive. *)
Definition foreignRelease : World :=
  withRelease (releaseWith (str "v1.70.0") (str "api-linter-windows-amd64.zip"))
    None emptyDataDir.

(** A newer release is out and the user picks [Update Now]. *)
Definition updateAccepted : World :=
  withRelease
    (releaseWith (str "v1.70.0") (str "api-linter-linux-amd64.tar.gz"))
    (Some (str "Update Now")) installedStale.

(** The executable is missing. *)
Definition missingBinaryRun : ProcessRun :=
  {| stdout := [];
     stderr := [];
     ending := ErrorEvent (ErrnoException (str "ENOENT")) |}.

(** The run of [Sample.findingsRun] with a warning on stderr. *)
Definition noisyRun : ProcessRun :=
  {| stdout := stdout Sample.findingsRun;
     stderr := str "warning: deprecated flag";
     ending := ending Sample.findingsRun |}.

(** [uri.toString()] for the URIs of the samples. *)
Definition uriToString (u : vscode.Uri) : jsstring :=
  match vscode.parsedFrom u with
  | VString s => s
  | _ => []
  end.

(** Two findings of the same rule. *)
Definition sameRule : list vscode.Diagnostic :=
  [DiagnosticRecord vscode.Error Sample.problem1;
   DiagnosticRecord vscode.Error Sample.problem1].

(** An unsaved [.proto] document in an editor that shows an earlier finding
    for it. *)
Definition document : LinterProvider.TextDocument :=
  {| LinterProvider.fileName := str "/ws/p/a.proto";
     LinterProvider.isDirty := true;
     LinterProvider.uri := str "file:///ws/p/a.proto";
     LinterProvider.fsPath := str "/ws/p/a.proto" |}.

Definition editor : LinterProvider.Host :=
  {| LinterProvider.world := Sample.offline;
     LinterProvider.diagnosticCollection :=
       {[ str "file:///ws/p/a.proto" :=
            [DiagnosticRecord vscode.Error Sample.problem2] ]};
     LinterProvider.linterOptions := Sample.noOptions;
     LinterProvider.window := [] |}.

(** Servers: [https://a] redirects to [https://b], which redirects to
    [https://c], which serves the archive; and two addresses that redirect
    to each other. *)
Definition redirect (status : Z) (target : jsstring) : HttpClient.Exchange :=
  HttpClient.Responded
    {| HttpClient.statusCode := status;
       HttpClient.location := Some target;
       HttpClient.data := [] |}.

Definition mirrors (url : jsstring) : HttpClient.Exchange :=
  if streq url (str "https://a") then redirect 302 (str "https://b")
  else if streq url (str "https://b") then redirect 301 (str "https://c")
  else if streq url (str "https://c") then
    HttpClient.Responded
      {| HttpClient.statusCode := 200;
         HttpClient.location := None;
         HttpClient.data := str "tarball" |}
  else HttpClient.ErrorEmitted (Error (str "getaddrinfo ENOTFOUND")).

Definition pingPong (url : jsstring) : HttpClient.Exchange :=
  if streq url (str "https://a") then redirect 302 (str "https://b")
  else redirect 302 (str "https://a").

(** A documentation site that answers every page with [404]. *)
Definition notFound (url : jsstring) : HttpClient.Exchange :=
  HttpClient.Responded
    {| HttpClient.statusCode := 404;
       HttpClient.location := None;
       HttpClient.data := str "<h1>Not Found</h1>" |}.

Definition brokenSite : World :=
  Sample.withHtml (HttpClient.fetchHtml notFound) Sample.offline.

End Scenario.


(** * Properties *)

(** ** Strings *)

Example trim_example : trim (str "  [x] " ++ [10%N]) = str "[x]".
Proof. vm_compute. reflexivity. Qed.

Example indexOf_example :
  indexOf OPEN_BRACKET (str "a[b]c]") = 1
  /\ lastIndexOf CLOSE_BRACKET (str "a[b]c]") = 5
  /\ indexOf OPEN_BRACKET (str "abc") = -1.
Proof. vm_compute. auto. Qed.

Example replaceAll_example :
  replaceAll (str "${workspaceFolder}") (str "/ws")
    (str "${workspaceFolder}/a:${workspaceFolder}/b")
  = str "/ws/a:/ws/b".
Proof. vm_compute. reflexivity. Qed.

Example showCode_example :
  showCode (Some 2) = str "2" /\ showCode None = str "null".
Proof. vm_compute. auto. Qed.

Lemma isWhiteSpace_open : isWhiteSpace OPEN_BRACKET = false.
Proof. reflexivity. Qed.

Lemma isWhiteSpace_close : isWhiteSpace CLOSE_BRACKET = false.
Proof. reflexivity. Qed.

Lemma streq_true (a b : jsstring) : streq a b = true <-> a = b.
Proof. unfold streq. apply bool_decide_eq_true. Qed.

Lemma streq_false (a b : jsstring) : streq a b = false <-> a <> b.
Proof. unfold streq. apply bool_decide_eq_false. Qed.

Lemma streq_refl (a : jsstring) : streq a a = true.
Proof. by apply streq_true. Qed.

Lemma trimStart_app_stop (pre rest : jsstring) (c : N) :
  isWhiteSpace c = false ->
  trimStart (pre ++ c :: rest) = trimStart pre ++ c :: rest.
Proof.
  intros Hc. induction pre as [|x pre IH]; simpl.
  - by rewrite Hc.
  - destruct (isWhiteSpace x); [exact IH | reflexivity].
Qed.

Lemma trimStart_suffix (s : jsstring) : exists ws, s = ws ++ trimStart s.
Proof.
  induction s as [|x s [ws IH]]; simpl.
  - by exists [].
  - destruct (isWhiteSpace x).
    + exists (x :: ws). simpl. by f_equal.
    + by exists [].
Qed.

Lemma trimEnd_app_stop (rest post : jsstring) (c : N) :
  isWhiteSpace c = false ->
  trimEnd (rest ++ c :: post) = rest ++ c :: trimEnd post.
Proof.
  intros Hc. unfold trimEnd.
  rewrite rev_app_distr. simpl. rewrite <- app_assoc. simpl.
  rewrite trimStart_app_stop by done.
  rewrite rev_app_distr. simpl. rewrite rev_involutive.
  by rewrite <- app_assoc.
Qed.

Lemma trimEnd_prefix (s : jsstring) : exists ws, s = trimEnd s ++ ws.
Proof.
  unfold trimEnd. destruct (trimStart_suffix (rev s)) as [ws Hws].
  exists (rev ws).
  rewrite <- rev_app_distr, <- Hws. by rewrite rev_involutive.
Qed.

Lemma noBracket_app (a b : jsstring) :
  noBracket (a ++ b) <-> noBracket a /\ noBracket b.
Proof. unfold noBracket. apply Forall_app. Qed.

Lemma noBracket_trimStart (s : jsstring) : noBracket s -> noBracket (trimStart s).
Proof.
  intros Hs. destruct (trimStart_suffix s) as [ws Hws].
  rewrite Hws in Hs. by apply noBracket_app in Hs as [_ ?].
Qed.

Lemma noBracket_trimEnd (s : jsstring) : noBracket s -> noBracket (trimEnd s).
Proof.
  intros Hs. destruct (trimEnd_prefix s) as [ws Hws].
  rewrite Hws in Hs. by apply noBracket_app in Hs as [? _].
Qed.

Lemma indexOf_bounds (c : N) (s : jsstring) :
  -1 <= indexOf c s < Z.of_nat (length s) \/ (indexOf c s = -1 /\ s = []).
Proof.
  induction s as [|x s IH]; simpl.
  - right. done.
  - left. destruct (x =? c)%N; [lia|].
    destruct (indexOf c s <? 0) eqn:E; [lia|].
    apply Z.ltb_ge in E. destruct IH as [IH|[IH _]]; lia.
Qed.

Lemma indexOf_app_found (c : N) (pre rest : jsstring) :
  c ∉ pre -> indexOf c (pre ++ c :: rest) = Z.of_nat (length pre).
Proof.
  induction pre as [|x pre IH]; intros Hnot; simpl.
  - by rewrite N.eqb_refl.
  - apply not_elem_of_cons in Hnot as [Hne Hnot].
    destruct (x =? c)%N eqn:E; [apply N.eqb_eq in E; congruence|].
    rewrite IH by done.
    destruct (Z.of_nat (length pre) <? 0) eqn:E2; [apply Z.ltb_lt in E2; lia|lia].
Qed.

Lemma indexOf_absent (c : N) (s : jsstring) : c ∉ s <-> indexOf c s = -1.
Proof.
  induction s as [|x s IH]; simpl.
  - split; [done | intros _; apply not_elem_of_nil].
  - destruct (x =? c)%N eqn:E.
    + apply N.eqb_eq in E. subst. split; [|lia].
      intros Hn. exfalso. apply Hn. by left.
    + apply N.eqb_neq in E.
      rewrite not_elem_of_cons.
      destruct (indexOf c s <? 0) eqn:E2.
      * apply Z.ltb_lt in E2.
        destruct (indexOf_bounds c s) as [Hb|[Hb _]];
          (split; [done | intros _; split; [congruence | apply IH; lia]]).
      * apply Z.ltb_ge in E2. split; [|lia].
        intros [_ Hn]. apply IH in Hn. lia.
Qed.

Lemma lastIndexOf_absent (c : N) (s : jsstring) :
  c ∉ s <-> lastIndexOf c s = -1.
Proof.
  induction s as [|x s IH]; simpl.
  - split; [done | intros _; apply not_elem_of_nil].
  - rewrite not_elem_of_cons.
    destruct (0 <=? lastIndexOf c s) eqn:E.
    + apply Z.leb_le in E. split; [|lia].
      intros [_ Hn]. apply IH in Hn. lia.
    + apply Z.leb_gt in E.
      destruct (x =? c)%N eqn:E2.
      * apply N.eqb_eq in E2. split; [intros [? _]; congruence | lia].
      * apply N.eqb_neq in E2. split; [done|].
        intros _. split; [congruence|].
        apply IH. clear IH E2. induction s as [|y s IHs]; simpl in *; [done|].
        destruct (0 <=? lastIndexOf c s) eqn:E3.
        -- apply Z.leb_le in E3. lia.
        -- destruct (y =? c)%N; [lia | done].
Qed.

Lemma lastIndexOf_app_found (c : N) (pre post : jsstring) :
  c ∉ post -> lastIndexOf c (pre ++ c :: post) = Z.of_nat (length pre).
Proof.
  intros Hnot. induction pre as [|x pre IH]; simpl.
  - apply lastIndexOf_absent in Hnot. rewrite Hnot. simpl.
    by rewrite N.eqb_refl.
  - rewrite IH.
    destruct (0 <=? Z.of_nat (length pre)) eqn:E; [lia|].
    apply Z.leb_gt in E. lia.
Qed.

Lemma substring_middle (pre mid post : jsstring) :
  substring (Z.of_nat (length pre)) (Z.of_nat (length pre + length mid))
    (pre ++ mid ++ post) = mid.
Proof.
  unfold substring. rewrite !length_app.
  replace (Z.min (Z.max (Z.of_nat (length pre)) 0)
             (Z.of_nat (length pre + (length mid + length post))))
    with (Z.of_nat (length pre)) by lia.
  replace (Z.min (Z.max (Z.of_nat (length pre + length mid)) 0)
             (Z.of_nat (length pre + (length mid + length post))))
    with (Z.of_nat (length pre + length mid)) by lia.
  replace (Z.min (Z.of_nat (length pre)) (Z.of_nat (length pre + length mid)))
    with (Z.of_nat (length pre)) by lia.
  replace (Z.max (Z.of_nat (length pre)) (Z.of_nat (length pre + length mid)))
    with (Z.of_nat (length pre + length mid)) by lia.
  rewrite Nat2Z.id.
  replace (Z.to_nat (Z.of_nat (length pre + length mid) - Z.of_nat (length pre)))
    with (length mid) by lia.
  rewrite drop_app_length. by rewrite take_app_length.
Qed.

(** ** Output decoder: locating the bracketed array *)

Section DecoderFacts.
Context `{Platform}.

Lemma trim_noise (pre body post : jsstring) :
  trim (pre ++ (OPEN_BRACKET :: body ++ [CLOSE_BRACKET]) ++ post)
  = trimStart pre ++ (OPEN_BRACKET :: body ++ [CLOSE_BRACKET]) ++ trimEnd post.
Proof.
  unfold trim. simpl.
  rewrite trimStart_app_stop by apply isWhiteSpace_open.
  rewrite <- (app_assoc body [CLOSE_BRACKET] post). simpl.
  replace (trimStart pre ++ OPEN_BRACKET :: body ++ CLOSE_BRACKET :: post)
    with ((trimStart pre ++ OPEN_BRACKET :: body) ++ CLOSE_BRACKET :: post)
    by (by rewrite <- app_assoc).
  rewrite trimEnd_app_stop by apply isWhiteSpace_close.
  rewrite <- app_assoc. simpl.
  by rewrite <- (app_assoc body [CLOSE_BRACKET] (trimEnd post)).
Qed.

Lemma noBracket_open (s : jsstring) : noBracket s -> OPEN_BRACKET ∉ s.
Proof.
  unfold noBracket. rewrite Forall_forall. intros Hs Hin.
  by destruct (Hs _ Hin) as [? _].
Qed.

Lemma noBracket_close (s : jsstring) : noBracket s -> CLOSE_BRACKET ∉ s.
Proof.
  unfold noBracket. rewrite Forall_forall. intros Hs Hin.
  by destruct (Hs _ Hin) as [_ ?].
Qed.

(** In a trimmed buffer of the shape noise, bracketed text, noise, the
    first [[] and the last []] are those of the bracketed text. *)
Lemma locate_brackets (pre body post : jsstring) :
  noBracket pre -> noBracket post ->
  let t := pre ++ (OPEN_BRACKET :: body ++ [CLOSE_BRACKET]) ++ post in
  indexOf OPEN_BRACKET t = Z.of_nat (length pre)
  /\ lastIndexOf CLOSE_BRACKET t
     = Z.of_nat (length pre + length (OPEN_BRACKET :: body))
  /\ substring (indexOf OPEN_BRACKET t) (lastIndexOf CLOSE_BRACKET t + 1) t
     = OPEN_BRACKET :: body ++ [CLOSE_BRACKET].
Proof.
  intros Hpre Hpost t.
  assert (Hi : indexOf OPEN_BRACKET t = Z.of_nat (length pre)).
  { subst t. simpl. apply indexOf_app_found. by apply noBracket_open. }
  assert (Hl : lastIndexOf CLOSE_BRACKET t
               = Z.of_nat (length pre + length (OPEN_BRACKET :: body))).
  { subst t.
    replace (pre ++ (OPEN_BRACKET :: body ++ [CLOSE_BRACKET]) ++ post)
      with ((pre ++ OPEN_BRACKET :: body) ++ CLOSE_BRACKET :: post).
    - rewrite lastIndexOf_app_found by (by apply noBracket_close).
      by rewrite length_app.
    - rewrite <- app_assoc. simpl. by rewrite <- app_assoc. }
  split; [done|]. split; [done|].
  rewrite Hi, Hl. subst t.
  replace (Z.of_nat (length pre + length (OPEN_BRACKET :: body)) + 1)
    with (Z.of_nat (length pre
                    + length (OPEN_BRACKET :: body ++ [CLOSE_BRACKET]))).
  - apply substring_middle.
  - simpl. rewrite length_app. simpl. lia.
Qed.

Lemma extractJson_noise (pre arr post : jsstring) :
  noBracket pre -> noBracket post -> bracketed arr ->
  LinterUtils.extractJson (pre ++ arr ++ post) = arr.
Proof.
  intros Hpre Hpost [body ->]. unfold LinterUtils.extractJson.
  rewrite trim_noise.
  apply (locate_brackets (trimStart pre) body (trimEnd post)).
  - by apply noBracket_trimStart.
  - by apply noBracket_trimEnd.
Qed.

Lemma bracketsFound_nonblank (output : jsstring) :
  bracketsFound output ->
  streq output [] || streq (trim output) [] = false.
Proof.
  intros (Hi & _ & _). apply orb_false_iff. split; apply streq_false.
  - intros ->. by apply Hi.
  - intros Ht. rewrite Ht in Hi. by apply Hi.
Qed.

Lemma parse_try_found (ch : bool) (output : jsstring) :
  bracketsFound output ->
  LinterUtils.parseLinterOutput_try ch output
  = decodeText ch (LinterUtils.extractJson output).
Proof.
  intros (Hi & Hl & Hle). unfold LinterUtils.parseLinterOutput_try.
  cbv zeta.
  destruct (indexOf OPEN_BRACKET (trim output) =? -1) eqn:E1;
    [apply Z.eqb_eq in E1; contradiction|].
  destruct (lastIndexOf CLOSE_BRACKET (trim output) =? -1) eqn:E2;
    [apply Z.eqb_eq in E2; contradiction|].
  destruct (lastIndexOf CLOSE_BRACKET (trim output)
            <? indexOf OPEN_BRACKET (trim output)) eqn:E3;
    [apply Z.ltb_lt in E3; lia|].
  reflexivity.
Qed.

Lemma bracketsFound_noise (pre arr post : jsstring) :
  noBracket pre -> noBracket post -> bracketed arr ->
  bracketsFound (pre ++ arr ++ post).
Proof.
  intros Hpre Hpost [body ->]. unfold bracketsFound. cbv zeta.
  rewrite trim_noise.
  destruct (locate_brackets (trimStart pre) body (trimEnd post))
    as (Hi & Hl & _);
    [by apply noBracket_trimStart | by apply noBracket_trimEnd |].
  cbv zeta in Hi, Hl. rewrite Hi, Hl. lia.
Qed.

Lemma noBracket_nil : noBracket [].
Proof. apply Forall_nil. done. Qed.

Lemma bracketsFound_bracketed (arr : jsstring) :
  bracketed arr -> bracketsFound arr.
Proof.
  intros Harr.
  pose proof (bracketsFound_noise [] arr [] noBracket_nil noBracket_nil Harr)
    as Hb.
  simpl in Hb. by rewrite app_nil_r in Hb.
Qed.

Lemma extractJson_bracketed (arr : jsstring) :
  bracketed arr -> LinterUtils.extractJson arr = arr.
Proof.
  intros Harr.
  pose proof (extractJson_noise [] arr [] noBracket_nil noBracket_nil Harr)
    as Hb.
  simpl in Hb. by rewrite app_nil_r in Hb.
Qed.

(** Reporting an error leaves the collected diagnostics alone. *)
Lemma reportError_diagnostics (ch : bool) (msg : jsstring) (s : DecoderState) :
  exists s', LinterUtils.reportError ch msg s = (s', Ok tt)
             /\ diagnostics s' = diagnostics s
             /\ ConsoleError msg None ∈ logged s'.
Proof.
  unfold LinterUtils.reportError, bind, emit, modify, ret.
  destruct ch; simpl; eexists; (split; [reflexivity|]); simpl;
    (split; [reflexivity|]).
  - rewrite <- app_assoc. apply elem_of_app. right. apply elem_of_cons. by left.
  - apply elem_of_app. right. apply elem_of_cons. by left.
Qed.

(** The decoder returns what its [try] block had collected, whether the
    block finished or threw. *)
Lemma parseLinterOutput_found (ch : bool) (output : jsstring) :
  bracketsFound output ->
  fst (LinterUtils.parseLinterOutput ch output)
  = Ok (diagnostics
          (fst (decodeText ch (LinterUtils.extractJson output)
                  emptyDecoderState))).
Proof.
  intros Hb. unfold LinterUtils.parseLinterOutput, runDecoder,
    LinterUtils.parseLinterOutput_body.
  rewrite (bracketsFound_nonblank _ Hb).
  rewrite (parse_try_found _ _ Hb).
  unfold tryCatch.
  destruct (decodeText ch (LinterUtils.extractJson output) emptyDecoderState)
    as [s [[]|e]]; simpl; [reflexivity|].
  match goal with
  | |- context [LinterUtils.reportError ch ?m s] =>
      destruct (reportError_diagnostics ch m s) as (s' & -> & Hd & _)
  end.
  simpl. by rewrite Hd.
Qed.

End DecoderFacts.


(** ** Output decoder: well-typed payloads *)

Section DecoderPayload.
Context `{Platform}.











End DecoderPayload.


(** ** Output decoder: failures *)

Ltac find_logged :=
  repeat first [apply list_elem_of_here | apply list_elem_of_further].

Section DecoderFailures.
Context `{Platform}.

Lemma trim_infix (s : jsstring) : exists a b, s = a ++ trim s ++ b.
Proof.
  destruct (trimStart_suffix s) as [a Ha].
  destruct (trimEnd_prefix (trimStart s)) as [b Hb].
  exists a, b. unfold trim. by rewrite <- Hb.
Qed.

Lemma not_elem_of_trim (c : N) (s : jsstring) : c ∉ s -> c ∉ trim s.
Proof.
  intros Hs Ht. apply Hs. destruct (trim_infix s) as (a & b & Heq).
  rewrite Heq. apply elem_of_app. right. apply elem_of_app. by left.
Qed.

(** No [[], or no []], or the last []] before the first [[]. *)
Lemma no_pair_not_found (output : jsstring) :
  OPEN_BRACKET ∉ output \/ CLOSE_BRACKET ∉ output -> ~ bracketsFound output.
Proof.
  intros [Hn|Hn] (Hi & Hl & _).
  - apply Hi. apply indexOf_absent. by apply not_elem_of_trim.
  - apply Hl. apply lastIndexOf_absent. by apply not_elem_of_trim.
Qed.

Lemma nonblank_guard (output : jsstring) :
  trim output <> [] -> streq output [] || streq (trim output) [] = false.
Proof.
  intros Hne. apply orb_false_iff. split; apply streq_false; [|done].
  intros ->. by apply Hne.
Qed.

Lemma blank_guard (output : jsstring) :
  trim output = [] -> streq output [] || streq (trim output) [] = true.
Proof. intros ->. rewrite streq_refl. apply orb_true_r. Qed.

Lemma extracting_total (ch : bool) (output : jsstring) :
  exists ds, fst (LinterUtils.parseLinterOutput ch output) = Ok ds.
Proof.
  unfold LinterUtils.parseLinterOutput, runDecoder,
    LinterUtils.parseLinterOutput_body.
  destruct (streq output [] || streq (trim output) []).
  - by eexists.
  - unfold tryCatch.
    destruct (LinterUtils.parseLinterOutput_try ch output emptyDecoderState)
      as [s [[]|e]]; [by eexists|].
    match goal with
    | |- context [LinterUtils.reportError ch ?m s] =>
        destruct (reportError_diagnostics ch m s) as (s' & -> & _ & _)
    end.
    by eexists.
Qed.

Lemma plain_total (output : jsstring) :
  exists ds, fst (LinterUtilsPlain.parseLinterOutput output) = Ok ds.
Proof.
  unfold LinterUtilsPlain.parseLinterOutput, runDecoder,
    LinterUtilsPlain.parseLinterOutput_body.
  destruct (streq output [] || streq (trim output) []).
  - by eexists.
  - unfold tryCatch.
    destruct (parseAndCollect LinterUtilsPlain.createDiagnosticFromProblem output
      emptyDecoderState)
      as [s [[]|e]]; by eexists.
Qed.

Lemma extracting_not_found (ch : bool) (output : jsstring) :
  trim output <> [] -> ~ bracketsFound output ->
  fst (LinterUtils.parseLinterOutput ch output) = Ok []
  /\ errorLogged (snd (LinterUtils.parseLinterOutput ch output)).
Proof.
  intros Hne Hnot.
  unfold LinterUtils.parseLinterOutput, runDecoder,
    LinterUtils.parseLinterOutput_body.
  rewrite nonblank_guard by done.
  unfold tryCatch, LinterUtils.parseLinterOutput_try. cbv zeta.
  destruct (indexOf OPEN_BRACKET (trim output) =? -1) eqn:E1.
  - match goal with
    | |- context [LinterUtils.reportError ch ?m ?s] =>
        destruct (reportError_diagnostics ch m s) as (s' & -> & Hd & Hlog)
    end.
    simpl. rewrite Hd. split; [reflexivity | by eexists _, _].
  - destruct ((lastIndexOf CLOSE_BRACKET (trim output) =? -1)
              || (lastIndexOf CLOSE_BRACKET (trim output)
                  <? indexOf OPEN_BRACKET (trim output))) eqn:E2.
    + match goal with
      | |- context [LinterUtils.reportError ch ?m ?s] =>
          destruct (reportError_diagnostics ch m s) as (s' & -> & Hd & Hlog)
      end.
      simpl. rewrite Hd. split; [reflexivity | by eexists _, _].
    + exfalso. apply Hnot. apply orb_false_iff in E2 as [E2 E3].
      apply Z.eqb_neq in E1, E2. apply Z.ltb_ge in E3.
      by repeat split.
Qed.

Lemma extracting_parse_failure (ch : bool) (output : jsstring) :
  bracketsFound output ->
  JSON_parse (LinterUtils.extractJson output) = None ->
  fst (LinterUtils.parseLinterOutput ch output) = Ok []
  /\ errorLogged (snd (LinterUtils.parseLinterOutput ch output)).
Proof.
  intros Hb Hparse.
  unfold LinterUtils.parseLinterOutput, runDecoder,
    LinterUtils.parseLinterOutput_body.
  rewrite (bracketsFound_nonblank _ Hb), (parse_try_found _ _ Hb).
  unfold tryCatch, decodeText, parseAndCollect. rewrite Hparse.
  unfold errorLogged.
  destruct ch; simpl; (split; [reflexivity|]); eexists _, _; find_logged.
Qed.

Lemma plain_throwing (output : jsstring) (e : exn) :
  trim output <> [] ->
  parseAndCollect LinterUtilsPlain.createDiagnosticFromProblem output
      emptyDecoderState
  = (emptyDecoderState, Throw e) ->
  fst (LinterUtilsPlain.parseLinterOutput output) = Ok []
  /\ errorLogged (snd (LinterUtilsPlain.parseLinterOutput output)).
Proof.
  intros Hne Hthrow.
  unfold LinterUtilsPlain.parseLinterOutput, runDecoder,
    LinterUtilsPlain.parseLinterOutput_body.
  rewrite nonblank_guard by done.
  unfold tryCatch. rewrite Hthrow. unfold errorLogged.
  simpl. split; [reflexivity|]. eexists _, _. find_logged.
Qed.

Lemma plain_parse_failure (output : jsstring) :
  trim output <> [] -> JSON_parse output = None ->
  fst (LinterUtilsPlain.parseLinterOutput output) = Ok []
  /\ errorLogged (snd (LinterUtilsPlain.parseLinterOutput output)).
Proof.
  intros Hne Hparse. apply (plain_throwing output SyntaxError Hne).
  unfold parseAndCollect. by rewrite Hparse.
Qed.

Lemma plain_no_pair (output : jsstring) :
  trim output <> [] ->
  OPEN_BRACKET ∉ output \/ CLOSE_BRACKET ∉ output ->
  fst (LinterUtilsPlain.parseLinterOutput output) = Ok []
  /\ errorLogged (snd (LinterUtilsPlain.parseLinterOutput output)).
Proof.
  intros Hne Hno.
  destruct (JSON_parse output) as [v|] eqn:Hparse;
    [|by apply plain_parse_failure].
  apply (plain_throwing output TypeError Hne).
  unfold parseAndCollect. rewrite Hparse.
  destruct v as [| | | | |xs|]; try reflexivity.
  exfalso. destruct (JSON_parse_array _ _ Hparse) as [Ho Hc].
  destruct Hno as [Hno|Hno]; by apply Hno.
Qed.

End DecoderFailures.

(** C3.  On every input both copies of the decoder return (they never hand
    an exception to the caller).  The result is empty, with nothing logged,
    on the empty and on a whitespace-only string; it is empty, with an
    error on the console, when the trimmed buffer has no bracket pair and
    when the text handed to [JSON.parse] does not parse. *)
Theorem decode_never_raises `{Platform} (output : jsstring) :
  (forall ch, exists ds, fst (LinterUtils.parseLinterOutput ch output) = Ok ds)
  /\ (exists ds, fst (LinterUtilsPlain.parseLinterOutput output) = Ok ds)
  /\ (trim output = [] ->
      (forall ch, LinterUtils.parseLinterOutput ch output = (Ok [], []))
      /\ LinterUtilsPlain.parseLinterOutput output = (Ok [], []))
  /\ (trim output <> [] -> ~ bracketsFound output ->
      forall ch,
        fst (LinterUtils.parseLinterOutput ch output) = Ok []
        /\ errorLogged (snd (LinterUtils.parseLinterOutput ch output)))
  /\ (trim output <> [] ->
      OPEN_BRACKET ∉ output \/ CLOSE_BRACKET ∉ output ->
      fst (LinterUtilsPlain.parseLinterOutput output) = Ok []
      /\ errorLogged (snd (LinterUtilsPlain.parseLinterOutput output)))
  /\ (bracketsFound output ->
      JSON_parse (LinterUtils.extractJson output) = None ->
      forall ch,
        fst (LinterUtils.parseLinterOutput ch output) = Ok []
        /\ errorLogged (snd (LinterUtils.parseLinterOutput ch output)))
  /\ (trim output <> [] -> JSON_parse output = None ->
      fst (LinterUtilsPlain.parseLinterOutput output) = Ok []
      /\ errorLogged (snd (LinterUtilsPlain.parseLinterOutput output))).
Proof.
  split; [intros ch; apply extracting_total|].
  split; [apply plain_total|].
  split.
  { intros Hblank. split; [intros ch|].
    - unfold LinterUtils.parseLinterOutput, runDecoder,
        LinterUtils.parseLinterOutput_body.
      by rewrite blank_guard.
    - unfold LinterUtilsPlain.parseLinterOutput, runDecoder,
        LinterUtilsPlain.parseLinterOutput_body.
      by rewrite blank_guard. }
  split; [intros Hne Hnot ch; by apply extracting_not_found|].
  split; [intros Hne Hno; by apply plain_no_pair|].
  split; [intros Hb Hparse ch; by apply extracting_parse_failure|].
  intros Hne Hparse. by apply plain_parse_failure.
Qed.

(** ** Process runner *)

Ltac run_st :=
  cbv [bind gets modify ret throw lift id appendLine record exists_
       Date_now checkFault showInformationMessage].

Lemma isFailureCode_spec (code : option Z) :
  isFailureCode code = false <-> code = Some 0 \/ code = Some 1.
Proof.
  destruct code as [z|]; simpl.
  - rewrite andb_false_iff, !negb_false_iff, !Z.eqb_eq.
    split; intros [?|?]; try (left; congruence); right; congruence.
  - split; [done | intros [?|?]; done].
Qed.

(** C4.  When the process closes, exit codes 0 and 1 resolve the run with
    the diagnostics decoded from the collected stdout; every other exit
    code (2 for one, and a missing code) rejects it with an error whose
    message names the code.  So do both the extension's runner and the
    language server's. *)
Theorem runLinter_exit_codes `{Platform}
    (buildLinterArgs : World -> jsstring -> Types.LinterOptions -> LinterArgs)
    (parseLinterOutput :
       jsstring -> result (list vscode.Diagnostic) * list LogEntry)
    (binaryPath filePath : jsstring) (options : Types.LinterOptions)
    (settings : Server.ExtensionSettings)
    (proc : ProcessRun) (code : option Z) (w : World) :
  ending proc = CloseEvent code ->
  (code = Some 0 \/ code = Some 1 ->
   (exists w',
       runLinter buildLinterArgs parseLinterOutput
         binaryPath filePath options proc w
       = (w', Ok (decoded (fst (parseLinterOutput (stdout proc))))))
   /\ (exists w',
       Server.runLinter buildLinterArgs parseLinterOutput
         binaryPath filePath settings proc w
       = (w', Ok (Server.toLsp
                    <$> decoded (fst (parseLinterOutput (stdout proc)))))))
  /\ (code <> Some 0 -> code <> Some 1 ->
      (exists w',
          runLinter buildLinterArgs parseLinterOutput
            binaryPath filePath options proc w
          = (w', Throw (Error (str "api-linter exited with code "
                                 ++ showCode code))))
      /\ (exists w',
          Server.runLinter buildLinterArgs parseLinterOutput
            binaryPath filePath settings proc w
          = (w', Throw (Error (str "api-linter exited with code "
                                 ++ showCode code)))))
  /\ (code = Some 2 ->
      exists w',
        runLinter buildLinterArgs parseLinterOutput
          binaryPath filePath options proc w
        = (w', Throw (Error (str "api-linter exited with code 2")))).
Proof.
  intros Hend. split; [|split].
  - intros Hcode. apply isFailureCode_spec in Hcode.
    split.
    + unfold runLinter. run_st. rewrite Hend, Hcode.
      destruct (negb (streq (stderr proc) []));
        destruct (fst (parseLinterOutput (stdout proc))); simpl;
        by eexists.
    + unfold Server.runLinter. run_st. rewrite Hend, Hcode.
      destruct (negb (streq (stderr proc) []));
        destruct (fst (parseLinterOutput (stdout proc))); simpl;
        by eexists.
  - intros H0 H1.
    assert (Hcode : isFailureCode code = true).
    { destruct (isFailureCode code) eqn:E; [done|].
      apply isFailureCode_spec in E as [?|?]; contradiction. }
    split.
    + unfold runLinter. run_st. rewrite Hend, Hcode.
      destruct (negb (streq (stderr proc) [])); simpl; by eexists.
    + unfold Server.runLinter. run_st. rewrite Hend, Hcode.
      destruct (negb (streq (stderr proc) [])); simpl; by eexists.
  - intros ->. unfold runLinter. run_st. rewrite Hend.
    destruct (negb (streq (stderr proc) [])); simpl; by eexists.
Qed.

(** ** Argument builder *)


(** ** Argument builder *)

Section ArgumentBuilderFacts.
Context `{Platform}.



End ArgumentBuilderFacts.



(** The example of the specification: [/ws/p/vendor] exists and is passed,
    [/ws/missing] does not and is not mentioned. *)
Example buildLinterArgs_vendor_example :
  args (@LinterUtils.buildLinterArgs Sample.platform Sample.vendorWorld
          (str "/ws/p/a.proto")
          (withProtoPath Sample.noOptions
             [str "${workspaceFolder}/p/vendor"; str "/ws/missing"]))
  = [str "--proto-path"; str "/ws/p";
     str "--proto-path"; str "/ws";
     str "--proto-path"; str "/ws/p/vendor";
     str "--output-format"; str "json"; str "a.proto"].
Proof. vm_compute. reflexivity. Qed.

(** The copy without resolution passes every entry through as written. *)
Example buildLinterArgs_plain_example :
  args (@LinterUtilsPlain.buildLinterArgs Sample.platform Sample.vendorWorld
          (str "/ws/p/a.proto")
          (withProtoPath Sample.noOptions [str "/ws/missing"]))
  = [str "--proto-path"; str "/ws/p";
     str "--proto-path"; str "/ws/missing";
     str "--output-format"; str "json"; str "a.proto"].
Proof. vm_compute. reflexivity. Qed.

(** ** Provisioner: the custom executable path *)

Section ProvisionerFacts.
Context `{Platform}.

Lemma networkCalls_app (a b : list Event) :
  networkCalls (a ++ b) = networkCalls a ++ networkCalls b.
Proof. unfold networkCalls. apply List.filter_app. Qed.





End ProvisionerFacts.



Section DefaultLiteral.
Context `{Platform}.





End DefaultLiteral.


(** ** Provisioner: freshness *)

Section Freshness.
Context `{Platform}.

Lemma readFile_file (w : World) (path content : jsstring) :
  fault w (OpReadFile path) = None ->
  fs w !! path = Some (File content) ->
  readFile path w = (w, Ok content).
Proof. intros Hf Hfs. unfold readFile. run_st. by rewrite Hf, Hfs. Qed.

Lemma readFile_unusable (w : World) (path : jsstring) :
  fs w !! path = None \/ fs w !! path = Some Directory
  \/ (exists e, fault w (OpReadFile path) = Some e) ->
  exists e, readFile path w = (w, Throw e).
Proof.
  unfold readFile. run_st.
  destruct (fault w (OpReadFile path)) as [e|] eqn:Hf; [by eexists|].
  intros [Hfs|[Hfs|[e He]]]; [rewrite Hfs..|discriminate]; by eexists.
Qed.

Lemma dueAfter_known (w : World) (path : jsstring) (interval : Z)
    (data : value) (t : Z) :
  metadataHolds w path data ->
  getProp data (str "lastChecked") = Ok (VNumber (Num t)) ->
  dueAfter path interval w = (w, Ok (interval <? now w - t)).
Proof.
  intros (Hf & content & Hfs & Hparse) Hlast.
  unfold dueAfter, tryCatch. unfold bind at 1.
  rewrite (readFile_file w path content Hf Hfs).
  unfold ApiLinterDownloader.parseJson. rewrite Hparse.
  run_st. by rewrite Hlast.
Qed.

Lemma dueAfter_unusable (w : World) (path : jsstring) (interval : Z) :
  metadataUnusable w path -> dueAfter path interval w = (w, Ok true).
Proof.
  intros Hbad. unfold dueAfter, tryCatch. unfold bind at 1.
  destruct Hbad as [Hfs|[(content & Hfs & Hparse)|Hbad]].
  - destruct (readFile_unusable w path) as [e ->]; [by left | reflexivity].
  - destruct (fault w (OpReadFile path)) as [e|] eqn:Hf.
    + destruct (readFile_unusable w path) as [e' ->];
        [right; right; by eexists | reflexivity].
    + rewrite (readFile_file w path content Hf Hfs).
      unfold ApiLinterDownloader.parseJson. by rewrite Hparse.
  - destruct (readFile_unusable w path) as [e ->];
      [by right | reflexivity].
Qed.

Lemma shouldCheckForUpdate_dueAfter :
  ApiLinterDownloader.shouldCheckForUpdate
  = dueAfter ApiLinterDownloader.METADATA_PATH ApiLinterDownloader.oneDayInMs.
Proof. reflexivity. Qed.

Lemma manager_shouldCheckForUpdate_dueAfter :
  BinaryManager.shouldCheckForUpdate
  = dueAfter ApiLinterDownloader.METADATA_PATH BinaryManager.CHECK_INTERVAL_MS.
Proof. reflexivity. Qed.


End Freshness.


(** ** Provisioner: writing the metadata file *)

Section MetadataWrites.
Context `{Platform}.

Lemma writeFile_done (w : World) (p data : jsstring) :
  fault w (OpWriteFile p) = None ->
  fs w !! p <> Some Directory ->
  writeFile p data w
  = (withTrace (trace w ++ [FsWriteFile p data])
       (withFs (<[p := File data]> (fs w)) w), Ok tt).
Proof.
  intros Hf Hdir. unfold writeFile. run_st. rewrite Hf.
  destruct (fs w !! p) as [[c|]|]; try reflexivity. by destruct Hdir.
Qed.

Lemma eventsOf_appended {A} (m : M A) (w w' : World) (r : result A)
    (es : list Event) :
  m w = (w', r) -> trace w' = trace w ++ es -> eventsOf m w = es.
Proof.
  intros Hm Ht. unfold eventsOf. rewrite Hm. simpl. rewrite Ht.
  apply drop_app_length.
Qed.

(** A completed [writeFile] and its two disk steps agree. *)
Lemma writeFile_steps (f : gmap jsstring Node) (p data : jsstring) :
  applySteps f (diskSteps (FsWriteFile p data)) = <[p := File data]> f.
Proof.
  unfold applySteps. simpl. rewrite lookup_insert_eq. simpl.
  by rewrite insert_insert_eq.
Qed.

(** The strategy of the specification is atomic in the sense of
    [atomicReplace]. *)
Lemma writeTempThenRename_atomic (f : gmap jsstring Node)
    (tmp p data : jsstring) :
  tmp <> p ->
  atomicReplace (flat_map diskSteps (writeTempThenRename tmp p data)) p f.
Proof.
  intros Hne k. unfold writeTempThenRename. cbn [flat_map diskSteps app].
  destruct k as [|[|[|k]]]; cbn [take applySteps foldl applyStep].
  - by left.
  - left. by rewrite lookup_insert_ne.
  - left. rewrite lookup_insert_eq. cbn.
    rewrite insert_insert_eq. by rewrite lookup_insert_ne.
  - right. by rewrite take_nil.
Qed.

End MetadataWrites.

(** C8, as the code has it.  Each metadata writer serialises its object and
    issues exactly one [writeFile] on the final metadata path itself: no
    temporary path and no rename.  When the write runs to completion the
    file holds the new content. *)
Theorem updateMetadata_in_place `{Platform} (w : World) (version : value) :
  let path := ApiLinterDownloader.METADATA_PATH in
  let gpath := GoogleapisDownloader.GOOGLEAPIS_METADATA_PATH in
  let content := JSON_stringify (binaryMetadata version (now w)) in
  let gcontent := JSON_stringify (googleapisMetadata (now w)) in
  (fault w (OpWriteFile path) = None -> fs w !! path <> Some Directory ->
   eventsOf (ApiLinterDownloader.updateMetadata version) w
   = [FsWriteFile path content]
   /\ snd (ApiLinterDownloader.updateMetadata version w) = Ok tt
   /\ fs (fst (ApiLinterDownloader.updateMetadata version w)) !! path
      = Some (File content)
   /\ flat_map diskSteps (eventsOf (ApiLinterDownloader.updateMetadata version) w)
      = [Truncate path; Append path content])
  /\ (fault w (OpWriteFile gpath) = None -> fs w !! gpath <> Some Directory ->
      eventsOf GoogleapisDownloader.updateGoogleapisMetadata w
      = [FsWriteFile gpath gcontent]
      /\ snd (GoogleapisDownloader.updateGoogleapisMetadata w) = Ok tt
      /\ fs (fst (GoogleapisDownloader.updateGoogleapisMetadata w)) !! gpath
         = Some (File gcontent)
      /\ flat_map diskSteps
           (eventsOf GoogleapisDownloader.updateGoogleapisMetadata w)
         = [Truncate gpath; Append gpath gcontent]).
Proof.
  cbv zeta. split.
  - intros Hf Hdir.
    assert (Hrun : ApiLinterDownloader.updateMetadata version w
                   = writeFile ApiLinterDownloader.METADATA_PATH
                       (JSON_stringify (binaryMetadata version (now w))) w)
      by reflexivity.
    rewrite (writeFile_done _ _ _ Hf Hdir) in Hrun.
    rewrite (eventsOf_appended _ _ _ _ _ Hrun eq_refl). rewrite Hrun.
    cbn [fst snd fs withTrace withFs]. rewrite lookup_insert_eq.
    repeat split.
  - intros Hf Hdir.
    assert (Hrun : GoogleapisDownloader.updateGoogleapisMetadata w
                   = writeFile GoogleapisDownloader.GOOGLEAPIS_METADATA_PATH
                       (JSON_stringify (googleapisMetadata (now w))) w)
      by reflexivity.
    rewrite (writeFile_done _ _ _ Hf Hdir) in Hrun.
    rewrite (eventsOf_appended _ _ _ _ _ Hrun eq_refl). rewrite Hrun.
    cbn [fst snd fs withTrace withFs]. rewrite lookup_insert_eq.
    repeat split.
Qed.

(** C8 as stated fails: the steps [updateMetadata] performs on an installed
    machine are a truncation of the metadata file followed by the write, no
    rename among them; an interruption after the first step leaves the
    file empty, neither the old nor the new metadata. *)
Lemma updateMetadata_not_atomic :
  let update :=
    @ApiLinterDownloader.updateMetadata Sample.platform
      (VString (str "v1.69.2")) in
  let steps := flat_map diskSteps (eventsOf update Sample.installed) in
  let path := str "/home/u/.gapi/metadata.json" in
  steps
  = [Truncate path;
     Append path
       (Sample.renderJson (Sample.metadataAt Sample.sampleNow))]
  /\ applySteps (fs Sample.installed) (take 1 steps) !! path = Some (File [])
  /\ ~ atomicReplace steps path (fs Sample.installed).
Proof.
  cbv zeta.
  assert (Hsteps :
    flat_map diskSteps
      (eventsOf (@ApiLinterDownloader.updateMetadata Sample.platform
                   (VString (str "v1.69.2"))) Sample.installed)
    = [Truncate (str "/home/u/.gapi/metadata.json");
       Append (str "/home/u/.gapi/metadata.json")
         (Sample.renderJson (Sample.metadataAt Sample.sampleNow))])
    by (vm_compute; reflexivity).
  rewrite Hsteps. split; [reflexivity|]. split.
  - vm_compute. reflexivity.
  - intros Hatomic. specialize (Hatomic 1%nat).
    vm_compute in Hatomic. destruct Hatomic as [Heq|Heq]; discriminate Heq.
Qed.

(** ** Documentation cache *)

(** C9.  For a rule page that is not cached yet and that the network
    serves, two requests in a row issue exactly one fetch: the first call
    fetches the page, stores the formatted body under the URI and returns
    it; the second returns the stored body and leaves no trace at all.  A
    new provider starts with an empty cache. *)
Theorem guidance_fetched_once `{Platform}
    (parseRuleHtml : jsstring -> jsstring)
    (w : World) (ruleUri html : jsstring) :
  guidanceCache w !! ruleUri = None ->
  fetchHtmlResponse w ruleUri = Ok html ->
  exists w1 w2,
    ApiLinterHoverProvider.fetchRuleGuidance parseRuleHtml ruleUri w
    = (w1, Ok (parseRuleHtml html))
    /\ ApiLinterHoverProvider.fetchRuleGuidance parseRuleHtml ruleUri w1
       = (w2, Ok (parseRuleHtml html))
    /\ guidanceCache w1 !! ruleUri = Some (parseRuleHtml html)
    /\ trace w1 = trace w ++ [FetchHtml ruleUri]
    /\ w2 = w1
    /\ networkCalls (trace w2) = networkCalls (trace w) ++ [FetchHtml ruleUri]
    /\ ApiLinterHoverProvider.initialGuidanceCache !! ruleUri = None.
Proof.
  intros Hmiss Hpage.
  eexists _, _. split.
  { unfold ApiLinterHoverProvider.fetchRuleGuidance, fetchHtml, tryCatch.
    run_st. rewrite Hmiss. cbn [withTrace fetchHtmlResponse trace].
    rewrite Hpage. reflexivity. }
  split.
  { unfold ApiLinterHoverProvider.fetchRuleGuidance. run_st.
    cbn [withCache withTrace guidanceCache]. rewrite lookup_insert_eq.
    reflexivity. }
  cbn [withCache withTrace guidanceCache trace].
  rewrite lookup_insert_eq, networkCalls_app.
  repeat split.
Qed.

(** * The properties on concrete runs *)

Ltac by_computation := vm_compute; repeat split; try discriminate; try reflexivity.




Ltac decide_by_computation :=
  match goal with
  | |- ?P =>
      let d := constr:(_ : Decision P) in
      apply (@bool_decide_eq_true_1 P d); vm_compute; reflexivity
  end.

Lemma decode_never_raises_witness :
  @LinterUtils.parseLinterOutput Sample.platform true (str "  ") = (Ok [], [])
  /\ @LinterUtilsPlain.parseLinterOutput Sample.platform [] = (Ok [], [])
  /\ fst (@LinterUtils.parseLinterOutput Sample.platform true (str "no findings"))
     = Ok []
  /\ errorLogged
       (snd (@LinterUtils.parseLinterOutput Sample.platform true
               (str "no findings")))
  /\ fst (@LinterUtilsPlain.parseLinterOutput Sample.platform (str "no findings"))
     = Ok []
  /\ fst (@LinterUtils.parseLinterOutput Sample.platform false
            (str "warning [deprecated] flag"))
     = Ok []
  /\ fst (@LinterUtilsPlain.parseLinterOutput Sample.platform
            (str "warning [deprecated] flag"))
     = Ok [].
Proof.
  destruct (@decode_never_raises Sample.platform (str "  "))
    as (_ & _ & Hblank & _).
  destruct (@decode_never_raises Sample.platform [])
    as (_ & _ & Hempty & _).
  destruct (@decode_never_raises Sample.platform (str "no findings"))
    as (_ & _ & _ & Hnopair & Hplain & _).
  destruct (@decode_never_raises Sample.platform
              (str "warning [deprecated] flag"))
    as (_ & _ & _ & _ & _ & Hsyntax & Hplainsyntax).
  assert (Hnonblank : trim (str "no findings") <> [])
    by (vm_compute; discriminate).
  assert (Hnone : ~ bracketsFound (str "no findings")).
  { apply no_pair_not_found. left. decide_by_computation. }
  assert (Hwsblank : trim (str "  ") = []) by (vm_compute; reflexivity).
  destruct (Hblank Hwsblank) as [Hb _].
  destruct (Hempty eq_refl) as [_ He].
  destruct (Hnopair Hnonblank Hnone true) as [Hn1 Hn2].
  split; [apply Hb|]. split; [exact He|].
  split; [exact Hn1|]. split; [exact Hn2|].
  split.
  { apply Hplain; [exact Hnonblank | left; decide_by_computation]. }
  split.
  { apply Hsyntax.
    - unfold bracketsFound. by_computation.
    - vm_compute. reflexivity. }
  apply Hplainsyntax; [vm_compute; discriminate | vm_compute; reflexivity].
Defined.

Lemma runLinter_exit_codes_witness :
  (exists w',
      runLinter (H := Sample.platform)
        (@LinterUtils.buildLinterArgs Sample.platform)
        (@LinterUtils.parseLinterOutput Sample.platform false)
        (str "/home/u/.gapi/api-linter") (str "/ws/p/a.proto")
        Sample.noOptions Sample.findingsRun Sample.offline
      = (w', Ok (decodeSpec vscode.Error Sample.payload1)))
  /\ (exists w',
        runLinter (H := Sample.platform)
        (@LinterUtils.buildLinterArgs Sample.platform)
          (@LinterUtils.parseLinterOutput Sample.platform false)
          (str "/home/u/.gapi/api-linter") (str "/ws/p/a.proto")
          Sample.noOptions Sample.failedRun Sample.offline
        = (w', Throw (Error (str "api-linter exited with code 2")))).
Proof.
  split.
  - destruct (@runLinter_exit_codes Sample.platform
                (@LinterUtils.buildLinterArgs Sample.platform)
                (@LinterUtils.parseLinterOutput Sample.platform false)
                (str "/home/u/.gapi/api-linter") (str "/ws/p/a.proto")
                Sample.noOptions Sample.noSettings Sample.findingsRun
                (Some 1) Sample.offline eq_refl) as (Hok & _ & _).
    destruct (Hok (or_intror eq_refl)) as [[w' Hrun] _].
    exists w'. rewrite Hrun. do 2 f_equal.
  - destruct (@runLinter_exit_codes Sample.platform
                (@LinterUtils.buildLinterArgs Sample.platform)
                (@LinterUtils.parseLinterOutput Sample.platform false)
                (str "/home/u/.gapi/api-linter") (str "/ws/p/a.proto")
                Sample.noOptions Sample.noSettings Sample.failedRun
                (Some 2) Sample.offline eq_refl) as (_ & _ & Htwo).
    exact (Htwo eq_refl).
Defined.




Lemma updateMetadata_in_place_witness :
  eventsOf (@ApiLinterDownloader.updateMetadata Sample.platform
              (VString (str "v1.69.2"))) Sample.installed
  = [FsWriteFile (str "/home/u/.gapi/metadata.json")
       (Sample.renderJson (Sample.metadataAt Sample.sampleNow))]
  /\ snd (@ApiLinterDownloader.updateMetadata Sample.platform
            (VString (str "v1.69.2")) Sample.installed) = Ok tt.
Proof.
  destruct (@updateMetadata_in_place Sample.platform Sample.installed
              (VString (str "v1.69.2"))) as [Hbinary _].
  destruct Hbinary as (Hevents & Hdone & _).
  - reflexivity.
  - vm_compute. discriminate.
  - split; [|exact Hdone]. rewrite Hevents. vm_compute. reflexivity.
Defined.

Lemma guidance_fetched_once_witness :
  exists w1,
    @ApiLinterHoverProvider.fetchRuleGuidance (fun html => html)
      Sample.ruleUri Sample.online
    = (w1, Ok (str "<h2 id=details>Details</h2>"))
    /\ @ApiLinterHoverProvider.fetchRuleGuidance (fun html => html)
         Sample.ruleUri w1
       = (w1, Ok (str "<h2 id=details>Details</h2>"))
    /\ networkCalls (trace w1) = [FetchHtml Sample.ruleUri].
Proof.
  destruct (@guidance_fetched_once Sample.platform (fun html => html)
              Sample.online Sample.ruleUri (str "<h2 id=details>Details</h2>"))
    as (w1 & w2 & Hfirst & Hsecond & _ & _ & Hsame & Hnet & _).
  - vm_compute. reflexivity.
  - vm_compute. reflexivity.
  - exists w1. subst w2. split; [exact Hfirst|]. split; [exact Hsecond|].
    rewrite Hnet. reflexivity.
Defined.


(** * Further properties *)

(** ** Output decoder: records collected before a failure *)

Section DecoderPartial.
Context `{Platform}.





End DecoderPartial.


(** ** Output decoder: the extraction is idempotent *)

Section ExtractionIdempotent.
Context `{Platform}.

Lemma indexOf_found (c : N) (s : jsstring) :
  indexOf c s <> -1 ->
  exists pre post,
    s = pre ++ c :: post /\ indexOf c s = Z.of_nat (length pre).
Proof.
  induction s as [|x s IH]; simpl; [done|].
  destruct (x =? c)%N eqn:E.
  - apply N.eqb_eq in E. subst. intros _. by exists [], s.
  - destruct (indexOf c s <? 0) eqn:E2; [done|].
    apply Z.ltb_ge in E2. intros _.
    destruct IH as (pre & post & -> & Hi); [lia|].
    exists (x :: pre), post. split; [reflexivity|].
    rewrite Hi. simpl length. lia.
Qed.

Lemma lastIndexOf_found (c : N) (s : jsstring) :
  lastIndexOf c s <> -1 ->
  exists pre post,
    s = pre ++ c :: post /\ lastIndexOf c s = Z.of_nat (length pre).
Proof.
  induction s as [|x s IH]; simpl; [done|].
  destruct (0 <=? lastIndexOf c s) eqn:E.
  - apply Z.leb_le in E. intros _.
    destruct IH as (pre & post & -> & Hi); [lia|].
    exists (x :: pre), post. split; [reflexivity|].
    rewrite Hi. simpl length. lia.
  - destruct (x =? c)%N eqn:E2; [|done].
    apply N.eqb_eq in E2. subst. intros _. by exists [], s.
Qed.

(** Whenever the three bracket tests pass, what is handed to [JSON.parse]
    starts with [[] and ends with []]. *)
Lemma extractJson_is_bracketed (output : jsstring) :
  bracketsFound output -> bracketed (LinterUtils.extractJson output).
Proof.
  intros (Hi & Hl & Hle). unfold LinterUtils.extractJson.
  destruct (indexOf_found _ _ Hi) as (pre & post & Ht & Hpre).
  destruct (lastIndexOf_found _ _ Hl) as (pre' & post' & Ht' & Hpre').
  rewrite Hpre, Hpre' in *.
  assert (Hlt : (length pre < length pre')%nat).
  { destruct (decide (length pre = length pre')) as [Heq|Hne]; [|lia].
    exfalso.
    assert (Hd : drop (length pre) (trim output)
                 = drop (length pre') (trim output)) by (by rewrite Heq).
    rewrite Ht in Hd at 1. rewrite Ht' in Hd.
    rewrite !drop_app_length in Hd. by inversion Hd. }
  assert (Hpost : post = drop (S (length pre)) pre' ++ CLOSE_BRACKET :: post').
  { assert (Hd : drop (S (length pre)) (trim output)
                 = drop (S (length pre)) (trim output)) by reflexivity.
    rewrite Ht in Hd at 1. rewrite Ht' in Hd.
    rewrite (drop_app_ge pre) in Hd by lia.
    replace (S (length pre) - length pre)%nat with 1%nat in Hd by lia.
    cbn [drop] in Hd. rewrite drop_0 in Hd. rewrite Hd.
    rewrite drop_app_le by lia. reflexivity. }
  exists (drop (S (length pre)) pre').
  rewrite Ht, Hpost.
  replace (Z.of_nat (length pre') + 1)
    with (Z.of_nat (length pre
                    + length (OPEN_BRACKET :: drop (S (length pre)) pre'
                              ++ [CLOSE_BRACKET]))).
  - replace (pre ++ OPEN_BRACKET
               :: drop (S (length pre)) pre' ++ CLOSE_BRACKET :: post')
      with (pre ++ (OPEN_BRACKET :: drop (S (length pre)) pre'
                      ++ [CLOSE_BRACKET]) ++ post').
    + apply substring_middle.
    + simpl. by rewrite <- app_assoc.
  - simpl length. rewrite length_app, length_drop. simpl length. lia.
Qed.

End ExtractionIdempotent.

(** X2.  Extraction is idempotent: whenever the decoder finds its bracket
    pair, the text it hands to [JSON.parse] starts with [[] and ends with
    []], extracting from that text gives it back, and decoding the
    extracted text alone returns the same diagnostics as decoding the
    whole output, whatever surrounds it. *)
Theorem decode_extraction_idempotent `{Platform}
    (outputChannel : bool) (output : jsstring) :
  bracketsFound output ->
  bracketed (LinterUtils.extractJson output)
  /\ LinterUtils.extractJson (LinterUtils.extractJson output)
     = LinterUtils.extractJson output
  /\ fst (LinterUtils.parseLinterOutput outputChannel
            (LinterUtils.extractJson output))
     = fst (LinterUtils.parseLinterOutput outputChannel output).
Proof.
  intros Hb.
  pose proof (extractJson_is_bracketed output Hb) as Hbr.
  split; [exact Hbr|]. split; [by apply extractJson_bracketed|].
  rewrite (parseLinterOutput_found _ output Hb).
  rewrite parseLinterOutput_found by (by apply bracketsFound_bracketed).
  by rewrite extractJson_bracketed.
Qed.

(** ** Process runner: spawn errors, decode failures, stderr *)

(** X3.  When the process cannot be spawned, no output is decoded: a
    missing executable ([ENOENT]) rejects the run with a message of its own
    that names the path that was tried, and any other spawn error is handed
    on unchanged.  So do both runners. *)
Theorem runLinter_spawn_errors `{Platform}
    (buildLinterArgs : World -> jsstring -> Types.LinterOptions -> LinterArgs)
    (parseLinterOutput :
       jsstring -> result (list vscode.Diagnostic) * list LogEntry)
    (binaryPath filePath : jsstring) (options : Types.LinterOptions)
    (settings : Server.ExtensionSettings)
    (proc : ProcessRun) (error : exn) (w : World) :
  ending proc = ErrorEvent error ->
  (isENOENT error = true ->
   snd (runLinter buildLinterArgs parseLinterOutput
          binaryPath filePath options proc w)
   = Throw (Error (str "api-linter binary not found at: " ++ binaryPath
              ++ str ". Please install it or configure the correct path in settings."))
   /\ snd (Server.runLinter buildLinterArgs parseLinterOutput
             binaryPath filePath settings proc w)
      = Throw (Error (str "api-linter binary not found at: " ++ binaryPath)))
  /\ (isENOENT error = false ->
      snd (runLinter buildLinterArgs parseLinterOutput
             binaryPath filePath options proc w)
      = Throw error
      /\ snd (Server.runLinter buildLinterArgs parseLinterOutput
                binaryPath filePath settings proc w)
         = Throw error).
Proof.
  intros Hend. split; intros Hcode; split.
  all: unfold runLinter, Server.runLinter; run_st; by rewrite Hend, Hcode.
Qed.

(** X4.  With the decoders of the repository the runner never takes its own
    [catch] branch: on exit code 0 or 1 the run resolves with exactly what
    the decoder returned (nothing, when stdout is blank or unparsable), and
    the only lines it logs are the command line, the working directory and
    stderr when there is some. *)
Theorem runLinter_absorbs_decode_failures `{Platform}
    (buildLinterArgs : World -> jsstring -> Types.LinterOptions -> LinterArgs)
    (outputChannel : bool)
    (binaryPath filePath : jsstring) (options : Types.LinterOptions)
    (proc : ProcessRun) (code : option Z) (w : World) :
  ending proc = CloseEvent code ->
  code = Some 0 \/ code = Some 1 ->
  let after :=
    withTrace
      (trace w ++ runnerPreamble binaryPath (buildLinterArgs w filePath options)
         ++ stderrLine proc) w in
  (exists ds,
      fst (LinterUtils.parseLinterOutput outputChannel (stdout proc)) = Ok ds
      /\ runLinter buildLinterArgs
           (LinterUtils.parseLinterOutput outputChannel)
           binaryPath filePath options proc w
         = (after, Ok ds))
  /\ (exists ds,
        fst (LinterUtilsPlain.parseLinterOutput (stdout proc)) = Ok ds
        /\ runLinter buildLinterArgs LinterUtilsPlain.parseLinterOutput
             binaryPath filePath options proc w
           = (after, Ok ds)).
Proof.
  intros Hend Hcode after. apply isFailureCode_spec in Hcode.
  split.
  - destruct (extracting_total outputChannel (stdout proc)) as [ds Hds].
    exists ds. split; [exact Hds|].
    unfold runLinter. run_st. rewrite Hend, Hcode, Hds.
    subst after. unfold stderrLine, runnerPreamble.
    destruct (negb (streq (stderr proc) [])); cbn;
      rewrite <- ?app_assoc; reflexivity.
  - destruct (plain_total (stdout proc)) as [ds Hds].
    exists ds. split; [exact Hds|].
    unfold runLinter. run_st. rewrite Hend, Hcode, Hds.
    subst after. unfold stderrLine, runnerPreamble.
    destruct (negb (streq (stderr proc) [])); cbn;
      rewrite <- ?app_assoc; reflexivity.
Qed.

(** X5.  What the process writes to stderr is only logged: two runs that
    agree on stdout and on how the process ended settle the promise in the
    same way, whatever their stderr. *)
Theorem runLinter_ignores_stderr `{Platform}
    (buildLinterArgs : World -> jsstring -> Types.LinterOptions -> LinterArgs)
    (parseLinterOutput :
       jsstring -> result (list vscode.Diagnostic) * list LogEntry)
    (binaryPath filePath : jsstring) (options : Types.LinterOptions)
    (settings : Server.ExtensionSettings)
    (proc1 proc2 : ProcessRun) (w : World) :
  stdout proc1 = stdout proc2 ->
  ending proc1 = ending proc2 ->
  snd (runLinter buildLinterArgs parseLinterOutput
         binaryPath filePath options proc1 w)
  = snd (runLinter buildLinterArgs parseLinterOutput
           binaryPath filePath options proc2 w)
  /\ snd (Server.runLinter buildLinterArgs parseLinterOutput
            binaryPath filePath settings proc1 w)
     = snd (Server.runLinter buildLinterArgs parseLinterOutput
              binaryPath filePath settings proc2 w).
Proof.
  intros Hout Hend.
  split; unfold runLinter, Server.runLinter; run_st; rewrite Hout, Hend.
  all: destruct (ending proc2) as [error|code];
    [destruct (isENOENT error); reflexivity|].
  all: destruct (negb (streq (stderr proc1) []));
    destruct (negb (streq (stderr proc2) []));
    destruct (isFailureCode code); cbn; try reflexivity.
  all: destruct (fst (parseLinterOutput (stdout proc2))); reflexivity.
Qed.

(** ** Argument builder: variable substitution *)

Section Substitution.
Context `{Platform}.

Lemma includes_cons (lit : jsstring) (c : N) (s : jsstring) :
  includes lit (c :: s) = false ->
  startsWith lit (c :: s) = false /\ includes lit s = false.
Proof. simpl. intros Hi. by apply orb_false_iff in Hi. Qed.

(** Without an occurrence nothing is replaced. *)
Lemma replaceAllFrom_absent (lit repl seen s : jsstring) :
  includes lit s = false -> replaceAllFrom lit repl O seen s = s.
Proof.
  revert seen. induction s as [|c s IH]; intros seen Hi; [reflexivity|].
  apply includes_cons in Hi as [Hs Hi].
  cbn [replaceAllFrom]. rewrite Hs. f_equal. by apply IH.
Qed.

Lemma replaceAll_absent (lit repl s : jsstring) :
  includes lit s = false -> replaceAll lit repl s = s.
Proof. apply replaceAllFrom_absent. Qed.

Lemma startsWith_app (lit rest : jsstring) : startsWith lit (lit ++ rest) = true.
Proof.
  induction lit as [|c lit IH]; [reflexivity|].
  simpl. by rewrite N.eqb_refl.
Qed.

(** Consuming the rest of a match. *)
Lemma replaceAllFrom_skip (lit repl seen a b : jsstring) :
  replaceAllFrom lit repl (length a) seen (a ++ b)
  = replaceAllFrom lit repl O (rev a ++ seen) b.
Proof.
  revert seen. induction a as [|x a IH]; intros seen; [reflexivity|].
  cbn [length app replaceAllFrom]. rewrite IH. cbn [rev].
  by rewrite <- app_assoc.
Qed.

(** A token at the head of a text without further occurrences is replaced
    by the expansion of the replacement text. *)
Lemma replaceAll_head (lit repl rest : jsstring) :
  lit <> [] -> includes lit rest = false ->
  replaceAll lit repl (lit ++ rest) = getSubstitution lit [] rest repl ++ rest.
Proof.
  intros Hne Hrest. destruct lit as [|c lit]; [done|].
  unfold replaceAll. cbn [app replaceAllFrom].
  pose proof (startsWith_app (c :: lit) rest) as Hs. cbn [app] in Hs.
  rewrite Hs. cbn [length rev].
  replace (drop (S (length lit)) (c :: lit ++ rest)) with rest
    by (cbn [drop]; by rewrite drop_app_length).
  replace (S (length lit) - 1)%nat with (length lit) by lia.
  rewrite replaceAllFrom_skip. by rewrite replaceAllFrom_absent.
Qed.

(** A replacement text without a dollar sign is inserted as it stands. *)
Lemma getSubstitution_plain (matched before after repl : jsstring) :
  DOLLAR ∉ repl -> getSubstitution matched before after repl = repl.
Proof.
  induction repl as [|c repl IH]; intros Hno; [reflexivity|].
  apply not_elem_of_cons in Hno as [Hc Hno].
  cbn [getSubstitution].
  destruct c as [|p]; [by rewrite IH|].
  destruct (decide (N.pos p = DOLLAR)) as [Heq|Hne]; [by destruct Hc|].
  unfold DOLLAR in Hne.
  repeat (destruct p as [p|p|]; try (by rewrite IH); try done).
Qed.

(** A token cannot start inside a text that lacks its first unit. *)
Lemma includes_app_no_start (lit a b : jsstring) (c : N) :
  head lit = Some c -> c ∉ a -> includes lit b = false ->
  includes lit (a ++ b) = false.
Proof.
  intros Hhead Hno Hb. induction a as [|x a IH]; [exact Hb|].
  apply not_elem_of_cons in Hno as [Hx Hno].
  cbn [app includes]. rewrite IH by done.
  destruct lit as [|l lit]; [done|]. simpl in Hhead. inversion Hhead; subst.
  cbn [startsWith].
  destruct (c =? x)%N eqn:E; [apply N.eqb_eq in E; congruence | reflexivity].
Qed.

End Substitution.

(** X6.  Variable substitution in configured paths.  A path that contains
    neither token is passed to [path.resolve] as it stands, workspace or
    not.  With a workspace open whose path holds no dollar sign, the token
    [${workspaceFolder}] at the head of a path is replaced by the workspace
    path before [path.resolve]; and in general the workspace path is used
    as a replacement pattern ([$$], [$&] and the like are expanded), not as
    literal text. *)
Theorem resolveWorkspaceVariables_substitution `{Platform}
    (w : World) (filePath rest : jsstring) :
  includes WORKSPACE_FOLDER_TOKEN rest = false ->
  includes WORKSPACE_ROOT_TOKEN rest = false ->
  resolveWorkspaceVariables w rest filePath = path_resolve rest
  /\ (forall first others,
        workspaceFolders w = first :: others ->
        let workspacePath := workspacePathOf w filePath first in
        let expanded :=
          getSubstitution WORKSPACE_FOLDER_TOKEN [] rest workspacePath in
        (DOLLAR ∉ expanded ->
         resolveWorkspaceVariables w (WORKSPACE_FOLDER_TOKEN ++ rest) filePath
         = path_resolve (expanded ++ rest))
        /\ (DOLLAR ∉ workspacePath -> expanded = workspacePath)).
Proof.
  intros HF HR. split.
  - unfold resolveWorkspaceVariables.
    destruct (workspaceFolders w) as [|first others]; [reflexivity|].
    fold WORKSPACE_FOLDER_TOKEN WORKSPACE_ROOT_TOKEN.
    rewrite (replaceAll_absent WORKSPACE_FOLDER_TOKEN) by done.
    by rewrite replaceAll_absent.
  - intros first others Hws workspacePath expanded. split.
    + intros Hno. unfold resolveWorkspaceVariables. rewrite Hws.
      fold WORKSPACE_FOLDER_TOKEN WORKSPACE_ROOT_TOKEN.
      fold workspacePath.
      rewrite replaceAll_head by done. fold expanded.
      rewrite replaceAll_absent; [reflexivity|].
      by apply (includes_app_no_start _ _ _ DOLLAR).
    + intros Hno. by apply getSubstitution_plain.
Qed.

(** ** Provisioner: an installed binary *)

Section InstalledBinary.
Context `{Platform}.



Lemma readFile_world (w : World) (path : jsstring) :
  exists r, readFile path w = (w, r).
Proof.
  unfold readFile. run_st.
  destruct (fault w (OpReadFile path)); [by eexists|].
  destruct (fs w !! path) as [[c|]|]; by eexists.
Qed.


End InstalledBinary.


(** ** Provisioner: what the metadata file says after a write *)

Section MetadataReads.
Context `{Platform}.

Lemma getCurrentVersion_known (w : World) (data : value) (v : value) :
  metadataHolds w ApiLinterDownloader.METADATA_PATH data ->
  getProp data (str "version") = Ok v ->
  ApiLinterDownloader.getCurrentVersion w = (w, Ok v).
Proof.
  intros (Hf & content & Hfs & Hparse) Hv.
  unfold ApiLinterDownloader.getCurrentVersion, tryCatch. unfold bind at 1.
  rewrite (readFile_file w _ content Hf Hfs).
  unfold ApiLinterDownloader.parseJson. rewrite Hparse.
  run_st. by rewrite Hv.
Qed.

Lemma getBinaryVersion_known (w : World) (data : value) (v : value) :
  metadataHolds w ApiLinterDownloader.METADATA_PATH data ->
  getProp data (str "version") = Ok v ->
  ApiLinterDownloaderViews.getBinaryVersion w
  = (w, Ok (ApiLinterDownloaderViews.orElse v (str "unknown"))).
Proof.
  intros (Hf & content & Hfs & Hparse) Hv.
  unfold ApiLinterDownloaderViews.getBinaryVersion, tryCatch.
  unfold bind at 1.
  rewrite (readFile_file w _ content Hf Hfs).
  unfold ApiLinterDownloader.parseJson. rewrite Hparse.
  run_st. by rewrite Hv.
Qed.

Lemma getCurrentVersion_total (w : World) :
  exists cur, ApiLinterDownloader.getCurrentVersion w = (w, Ok cur).
Proof.
  unfold ApiLinterDownloader.getCurrentVersion, tryCatch. unfold bind at 1.
  destruct (readFile_world w ApiLinterDownloader.METADATA_PATH)
    as [[c|e] ->]; [|by eexists].
  unfold ApiLinterDownloader.parseJson.
  destruct (JSON_parse c) as [data|]; [|by eexists].
  run_st. destruct (getProp data (str "version")); by eexists.
Qed.

(** The version read from the metadata file depends on the disk only. *)
Lemma getCurrentVersion_env (w1 w2 : World) :
  fs w1 = fs w2 -> fault w1 = fault w2 ->
  snd (ApiLinterDownloader.getCurrentVersion w1)
  = snd (ApiLinterDownloader.getCurrentVersion w2).
Proof.
  intros Hfs Hfault.
  unfold ApiLinterDownloader.getCurrentVersion, tryCatch, readFile.
  run_st. rewrite Hfault.
  destruct (fault w2 (OpReadFile ApiLinterDownloader.METADATA_PATH));
    [reflexivity|].
  cbv beta iota. rewrite Hfs.
  destruct (fs w2 !! ApiLinterDownloader.METADATA_PATH) as [[c|]|];
    try reflexivity.
  unfold ApiLinterDownloader.parseJson.
  destruct (JSON_parse c) as [data|]; [|reflexivity].
  cbv [ret]. by destruct (getProp data (str "version")).
Qed.

Lemma updateMetadata_written (w : World) (version : value) :
  snd (ApiLinterDownloader.updateMetadata version w) = Ok tt ->
  let w' := fst (ApiLinterDownloader.updateMetadata version w) in
  now w' = now w
  /\ fs w' !! ApiLinterDownloader.METADATA_PATH
     = Some (File (JSON_stringify (binaryMetadata version (now w)))).
Proof.
  unfold ApiLinterDownloader.updateMetadata, writeFile. run_st.
  destruct (fault w (OpWriteFile ApiLinterDownloader.METADATA_PATH));
    [discriminate|].
  destruct (fs w !! ApiLinterDownloader.METADATA_PATH) as [[c|]|];
    try discriminate;
    (intros _; split; [reflexivity|]; cbn [fst fs withFs withTrace];
     by rewrite lookup_insert_eq).
Qed.

End MetadataReads.

(** X8.  The metadata file round-trips.  When the file can be written and
    read and [JSON.parse] gives back what [JSON.stringify] produced,
    [updateMetadata version] succeeds, and on any later state of the same
    disk [getCurrentVersion] returns [version], the status view shows it
    (or [unknown] when it is falsy), and the next check falls due exactly
    when more than a day (ten days for the manager) has passed since the
    write. *)
Theorem updateMetadata_round_trip `{Platform} (w : World) (version : value) :
  writable w ApiLinterDownloader.METADATA_PATH ->
  fault w (OpReadFile ApiLinterDownloader.METADATA_PATH) = None ->
  roundTrips (binaryMetadata version (now w)) ->
  exists w',
    ApiLinterDownloader.updateMetadata version w = (w', Ok tt)
    /\ forall later,
         fs later = fs w' -> fault later = fault w' ->
         ApiLinterDownloader.getCurrentVersion later = (later, Ok version)
         /\ ApiLinterDownloaderViews.getBinaryVersion later
            = (later,
               Ok (ApiLinterDownloaderViews.orElse version (str "unknown")))
         /\ ApiLinterDownloader.shouldCheckForUpdate later
            = (later, Ok (ApiLinterDownloader.oneDayInMs <? now later - now w))
         /\ BinaryManager.shouldCheckForUpdate later
            = (later, Ok (BinaryManager.CHECK_INTERVAL_MS <? now later - now w)).
Proof.
  intros [Hwrite Hnode] Hread Hparse.
  eexists. split.
  { unfold ApiLinterDownloader.updateMetadata. unfold bind, Date_now, gets.
    apply (writeFile_done w _ _ Hwrite Hnode). }
  intros later Hfs Hfault.
  assert (Hholds : metadataHolds later ApiLinterDownloader.METADATA_PATH
                     (binaryMetadata version (now w))).
  { split; [by rewrite Hfault|]. eexists. split; [|exact Hparse].
    rewrite Hfs. cbn [fs withFs withTrace]. by rewrite lookup_insert_eq. }
  split; [|split; [|split]].
  - by apply (getCurrentVersion_known later _ version Hholds).
  - by apply (getBinaryVersion_known later _ version Hholds).
  - rewrite shouldCheckForUpdate_dueAfter.
    by apply (dueAfter_known later _ _ _ (now w) Hholds).
  - rewrite manager_shouldCheckForUpdate_dueAfter.
    by apply (dueAfter_known later _ _ _ (now w) Hholds).
Qed.

Section UpdateCheck.
Context `{Platform}.

Lemma getLatestVersion_env (w : World) :
  let w1 := fst (ApiLinterDownloader.getLatestVersion w) in
  fs w1 = fs w /\ fault w1 = fault w.
Proof.
  unfold ApiLinterDownloader.getLatestVersion, fetchJson. run_st.
  cbn [fetchJsonResponse withTrace].
  destruct (fetchJsonResponse w ApiLinterDownloader.GITHUB_API) as [r|e];
    [|done].
  by destruct (getProp r (str "tag_name")).
Qed.

Lemma bind_ok_eq {S A B} (m : ST S A) (k : A -> ST S B) (s s1 : S) (a : A) :
  m s = (s1, Ok a) -> bind m k s = k a s1.
Proof. intros Hm. unfold bind. by rewrite Hm. Qed.

Lemma bind_snd_ok {S A B} (m : ST S A) (k : A -> ST S B) (s : S) (b : B) :
  snd (bind m k s) = Ok b ->
  exists a, snd (m s) = Ok a /\ bind m k s = k a (fst (m s)).
Proof.
  unfold bind. destruct (m s) as [s1 [a|e]]; [|discriminate].
  intros _. by exists a.
Qed.

End UpdateCheck.

(** X9.  An update check that completes records the version that was
    installed BEFORE the check: the metadata file ends up holding the
    version read at the start together with the time of the check, also
    when the user accepted the update and a newer release has just been
    installed (the record written by the installation is overwritten). *)
Theorem checkAndUpdate_records_prior_version `{Platform} (w : World) :
  snd (ApiLinterDownloaderViews.checkAndUpdate_try w) = Ok tt ->
  let w' := fst (ApiLinterDownloaderViews.checkAndUpdate_try w) in
  exists cur,
    ApiLinterDownloader.getCurrentVersion w = (w, Ok cur)
    /\ fs w' !! ApiLinterDownloader.METADATA_PATH
       = Some (File (JSON_stringify (binaryMetadata cur (now w')))).
Proof.
  intros Hdone. cbv zeta.
  unfold ApiLinterDownloaderViews.checkAndUpdate_try in *.
  destruct (bind_snd_ok _ _ _ _ Hdone) as (latest & _ & Hstep).
  rewrite Hstep in Hdone |- *. clear Hstep.
  destruct (getLatestVersion_env w) as [Hfs Hfault]. cbv zeta in Hfs, Hfault.
  set (w1 := fst (ApiLinterDownloader.getLatestVersion w)) in *.
  destruct (getCurrentVersion_total w) as [cur Hcur].
  destruct (getCurrentVersion_total w1) as [cur1 Hcur1].
  assert (cur1 = cur) as ->.
  { pose proof (getCurrentVersion_env w1 w Hfs Hfault) as Henv.
    rewrite Hcur, Hcur1 in Henv. cbn in Henv. congruence. }
  exists cur. split; [done|].
  rewrite (bind_ok_eq _ _ _ _ _ Hcur1) in Hdone |- *.
  destruct (bind_snd_ok _ _ _ _ Hdone) as ([] & _ & Hstep).
  rewrite Hstep in Hdone |- *. clear Hstep.
  destruct (updateMetadata_written _ cur Hdone) as [Hnow Hfile].
  rewrite Hnow. exact Hfile.
Qed.

(** ** Provisioner: a first installation that cannot proceed *)

Section FirstInstall.
Context `{Platform}.

Lemma findByName_absent (name : jsstring) (assets : list value) :
  Forall (fun asset =>
            exists n, getProp asset (str "name") = Ok n
                      /\ strictEq n (VString name) = false) assets ->
  ApiLinterDownloader.findByName name assets = Ok VUndefined.
Proof.
  induction 1 as [|asset rest (n & Hname & Hne) _ IH]; [reflexivity|].
  cbn [ApiLinterDownloader.findByName]. rewrite Hname. cbn [result_bind].
  by rewrite Hne.
Qed.

Lemma assets_of_object (release : value) (assets : list value) :
  getProp release (str "assets") = Ok (VArray assets) ->
  exists tag, getProp release (str "tag_name") = Ok tag.
Proof.
  destruct release as [| | b | n | s | xs | fields]; try discriminate;
    intros _; by eexists.
Qed.

Lemma appendLine_run (line : jsstring) (w : World) :
  appendLine line w = (withTrace (trace w ++ [AppendLine line]) w, Ok tt).
Proof. reflexivity. Qed.

Lemma fetchJson_run (w : World) (url : jsstring) :
  fetchJson url w
  = (withTrace (trace w ++ [FetchJson url]) w, fetchJsonResponse w url).
Proof. unfold fetchJson. run_st. reflexivity. Qed.

Lemma fetchJson_ok (w : World) (url : jsstring) (r : value) :
  fetchJsonResponse w url = Ok r ->
  forall t, fetchJson url (withTrace t w)
            = (withTrace (t ++ [FetchJson url]) w, Ok r).
Proof. intros Hr t. rewrite fetchJson_run. cbn. by rewrite Hr. Qed.

End FirstInstall.

(** X10.  When the latest release has no asset named after this platform
    and architecture, [downloadBinary] rejects with
    [No compatible binary found for <platform>-<arch>]; it has asked the
    release API once and has touched nothing on disk: no download, no
    extraction, no metadata write. *)
Theorem downloadBinary_no_compatible_asset `{Platform} (w : World)
    (release : value) (assets : list value) :
  fetchJsonResponse w ApiLinterDownloader.GITHUB_API = Ok release ->
  getProp release (str "assets") = Ok (VArray assets) ->
  Forall (fun asset =>
            exists n, getProp asset (str "name") = Ok n
                      /\ strictEq n (VString ApiLinterDownloaderViews.assetName)
                         = false) assets ->
  ApiLinterDownloader.downloadBinary w
  = (withTrace
       (trace w ++ [AppendLine (str "Downloading api-linter binary...");
                    FetchJson ApiLinterDownloader.GITHUB_API]) w,
     Throw (Error (str "No compatible binary found for " ++ getPlatform
                     ++ str "-" ++ getArch))).
Proof.
  intros Hrelease Hassets Hnone.
  destruct (assets_of_object release assets Hassets) as [tag Htag].
  unfold ApiLinterDownloader.downloadBinary.
  rewrite (bind_ok_eq _ _ _ _ _ (appendLine_run _ _)).
  rewrite (bind_ok_eq _ _ _ _ _ (fetchJson_ok _ _ _ Hrelease _)).
  unfold bind at 1. unfold lift at 1. rewrite Htag.
  unfold bind at 1. unfold lift at 1. rewrite Hassets.
  unfold bind at 1. unfold lift at 1.
  unfold ApiLinterDownloader.findAssetForPlatform.
  fold ApiLinterDownloaderViews.assetName.
  rewrite (findByName_absent _ _ Hnone). cbn [truthy negb].
  unfold throw. by rewrite <- app_assoc.
Qed.


(** ** binaryManager.ts: the data directory *)

(** X12.  The manager's [ensureDirectory] swallows exactly the [EEXIST]
    error of [mkdir]: it completes when the directory is there, when it can
    be created, and also when a regular file occupies its place (which
    leaves no directory behind); every other error of [mkdir] is handed
    on. *)
Theorem manager_ensureDirectory_swallows_EEXIST `{Platform} (w : World) :
  let dir := ApiLinterDownloader.GAPI_DIR in
  (fault w (OpMkdir dir) = None ->
   exists w', BinaryManager.ensureDirectory w = (w', Ok tt)
              /\ (forall content,
                    fs w !! dir = Some (File content) -> w' = w))
  /\ (fault w (OpMkdir dir) = Some (ErrnoException (str "EEXIST")) ->
      BinaryManager.ensureDirectory w = (w, Ok tt))
  /\ (forall e, fault w (OpMkdir dir) = Some e ->
                e <> ErrnoException (str "EEXIST") ->
                BinaryManager.ensureDirectory w = (w, Throw e)).
Proof.
  cbv zeta. unfold BinaryManager.ensureDirectory, tryCatch, mkdir. run_st.
  split; [|split].
  - intros ->. cbv beta iota.
    destruct (fs w !! ApiLinterDownloader.GAPI_DIR) as [[c|]|] eqn:Hfs;
      eexists; (split; [reflexivity|]); intros content; try discriminate.
    done.
  - by intros ->.
  - intros e -> Hne. cbv beta iota.
    destruct e as [| | c | m]; try reflexivity.
    unfold streq. case_bool_decide as Hc; [|reflexivity].
    by subst c.
Qed.

(** ** Corpus downloaders: when a download is due *)

Section CorpusFreshness.
Context `{Platform}.

Lemma shouldDownloadGoogleapis_dueAfter (w : World) :
  GoogleapisDownloader.shouldDownloadGoogleapis w
  = if existsSync w GoogleapisDownloader.GOOGLEAPIS_DIR
    then dueAfter GoogleapisDownloader.GOOGLEAPIS_METADATA_PATH
           GoogleapisDownloader.thirtyDays w
    else (w, Ok true).
Proof.
  unfold GoogleapisDownloader.shouldDownloadGoogleapis.
  unfold bind at 1. unfold exists_, gets.
  by destruct (existsSync w GoogleapisDownloader.GOOGLEAPIS_DIR).
Qed.

Lemma shouldDownloadProtobuf_dueAfter (w : World) :
  CorpusDownloaders.shouldDownloadProtobuf w
  = if existsSync w CorpusDownloaders.PROTOBUF_DIR
    then dueAfter CorpusDownloaders.PROTOBUF_METADATA_PATH
           GoogleapisDownloader.thirtyDays w
    else (w, Ok true).
Proof.
  unfold CorpusDownloaders.shouldDownloadProtobuf.
  unfold bind at 1. unfold exists_, gets.
  by destruct (existsSync w CorpusDownloaders.PROTOBUF_DIR).
Qed.


End CorpusFreshness.

(** X13.  When a corpus download is due.  For the googleapis and the
    protobuf corpus alike: a missing corpus directory makes the download
    due whatever the metadata file says; with the directory in place, a
    missing, unreadable or unparsable metadata file makes it due, and a
    metadata file whose [lastChecked] is the number [t] makes it due
    exactly when [now - t] exceeds thirty days.  The check changes
    nothing and never rejects. *)
Theorem corpus_download_due `{Platform} (w : World) :
  let checks :=
    [(GoogleapisDownloader.GOOGLEAPIS_DIR,
      GoogleapisDownloader.GOOGLEAPIS_METADATA_PATH,
      GoogleapisDownloader.shouldDownloadGoogleapis);
     (CorpusDownloaders.PROTOBUF_DIR,
      CorpusDownloaders.PROTOBUF_METADATA_PATH,
      CorpusDownloaders.shouldDownloadProtobuf)] in
  Forall (fun '(dir, path, check) =>
    (existsSync w dir = false -> check w = (w, Ok true))
    /\ (existsSync w dir = true -> metadataUnusable w path ->
        check w = (w, Ok true))
    /\ (forall data t,
          existsSync w dir = true -> metadataHolds w path data ->
          getProp data (str "lastChecked") = Ok (VNumber (Num t)) ->
          exists due, check w = (w, Ok due)
                      /\ (due = true
                          <-> now w - t > GoogleapisDownloader.thirtyDays)))
    checks.
Proof.
  cbv zeta. repeat constructor.
  - rewrite shouldDownloadGoogleapis_dueAfter. by intros ->.
  - rewrite shouldDownloadGoogleapis_dueAfter. intros -> Hbad.
    by apply dueAfter_unusable.
  - intros data t Hdir Hholds Hlast.
    rewrite shouldDownloadGoogleapis_dueAfter, Hdir.
    rewrite (dueAfter_known w _ _ data t Hholds Hlast).
    eexists. split; [reflexivity|]. rewrite Z.ltb_lt. lia.
  - rewrite shouldDownloadProtobuf_dueAfter. by intros ->.
  - rewrite shouldDownloadProtobuf_dueAfter. intros -> Hbad.
    by apply dueAfter_unusable.
  - intros data t Hdir Hholds Hlast.
    rewrite shouldDownloadProtobuf_dueAfter, Hdir.
    rewrite (dueAfter_known w _ _ data t Hholds Hlast).
    eexists. split; [reflexivity|]. rewrite Z.ltb_lt. lia.
Qed.


Section VersionViews.
Context `{Platform}.

Lemma orElse_truthy (v : value) (fallback : jsstring) :
  fallback <> [] ->
  truthy (ApiLinterDownloaderViews.orElse v fallback) = true.
Proof.
  intros Hne. unfold ApiLinterDownloaderViews.orElse.
  destruct (truthy v) eqn:Hv; [done|].
  cbn [truthy]. unfold streq. by rewrite bool_decide_eq_false_2.
Qed.

Lemma view_total (path key fallback : jsstring) (w : World) :
  fallback <> [] ->
  exists v,
    tryCatch
      (metadata <- readFile path ;;
       data <- ApiLinterDownloader.parseJson metadata ;;
       field <- lift (getProp data key) ;;
       ret (ApiLinterDownloaderViews.orElse field fallback))
      (fun _ => ret (VString fallback)) w = (w, Ok v)
    /\ truthy v = true
    /\ (metadataUnusable w path -> v = VString fallback).
Proof.
  intros Hne.
  assert (Hfallback : truthy (VString fallback) = true).
  { cbn [truthy]. unfold streq. by rewrite bool_decide_eq_false_2. }
  unfold tryCatch, readFile. run_st.
  destruct (fault w (OpReadFile path)) as [e|] eqn:Hf; [eexists; by split|].
  cbv beta iota.
  destruct (fs w !! path) as [[c|]|] eqn:Hfs; try (eexists; by split).
  unfold ApiLinterDownloader.parseJson.
  destruct (JSON_parse c) as [data|] eqn:Hparse; [|eexists; by split].
  cbv [ret]. destruct (getProp data key) as [field|e]; [|eexists; by split].
  eexists. split; [reflexivity|]. split; [by apply orElse_truthy|].
  intros [Hbad|[(c' & Hbad & Hnone)|[Hbad|[e He]]]]; congruence.
Qed.

End VersionViews.

(** X15.  The status views never fail and never show an empty value:
    [getBinaryVersion], [getGoogleapisCommit] and [getProtobufCommit]
    always return a truthy value and leave the world as it is; with a
    missing, unreadable or unparsable metadata file they return their
    fallback text ([unknown], [not downloaded]). *)
Theorem version_views_total `{Platform} (w : World) :
  (exists v,
      ApiLinterDownloaderViews.getBinaryVersion w = (w, Ok v)
      /\ truthy v = true
      /\ (metadataUnusable w ApiLinterDownloader.METADATA_PATH ->
          v = VString (str "unknown")))
  /\ (exists v,
        CorpusDownloaders.getGoogleapisCommit w = (w, Ok v)
        /\ truthy v = true
        /\ (metadataUnusable w GoogleapisDownloader.GOOGLEAPIS_METADATA_PATH ->
            v = VString (str "not downloaded")))
  /\ (exists v,
        CorpusDownloaders.getProtobufCommit w = (w, Ok v)
        /\ truthy v = true
        /\ (metadataUnusable w CorpusDownloaders.PROTOBUF_METADATA_PATH ->
            v = VString (str "not downloaded"))).
Proof.
  split; [|split]; by apply view_total.
Qed.

(** ** Hover: guidance cache and rendering *)

Section HoverFacts.
Context `{Platform}.
Variable parseRuleHtml : jsstring -> jsstring.
Variable uriToString : vscode.Uri -> jsstring.

Local Abbreviation fetchRuleGuidance :=
  (ApiLinterHoverProvider.fetchRuleGuidance parseRuleHtml).
Local Abbreviation ruleUriOf := (ApiLinterHoverRendering.ruleUriOf uriToString).
Local Abbreviation appendDiagnosticInfo :=
  (ApiLinterHoverRendering.appendDiagnosticInfo parseRuleHtml uriToString).
Local Abbreviation appendFrom :=
  (ApiLinterHoverRendering.appendFrom parseRuleHtml uriToString).

Lemma fetchRuleGuidance_cached (w : World) (ruleUri guidance : jsstring) :
  guidanceCache w !! ruleUri = Some guidance ->
  fetchRuleGuidance ruleUri w = (w, Ok guidance).
Proof.
  intros Hhit. unfold ApiLinterHoverProvider.fetchRuleGuidance. run_st.
  by rewrite Hhit.
Qed.

Lemma fetchRuleGuidance_served (w : World) (ruleUri html : jsstring) :
  guidanceCache w !! ruleUri = None ->
  fetchHtmlResponse w ruleUri = Ok html ->
  fetchRuleGuidance ruleUri w
  = (withTrace (trace w ++ [FetchHtml ruleUri])
       (withCache (<[ruleUri := parseRuleHtml html]> (guidanceCache w)) w),
     Ok (parseRuleHtml html)).
Proof.
  intros Hmiss Hpage.
  unfold ApiLinterHoverProvider.fetchRuleGuidance, fetchHtml, tryCatch.
  run_st. rewrite Hmiss. cbn [withTrace fetchHtmlResponse trace].
  rewrite Hpage. reflexivity.
Qed.

Lemma fetchRuleGuidance_failed (w : World) (ruleUri : jsstring) (e : exn) :
  guidanceCache w !! ruleUri = None ->
  fetchHtmlResponse w ruleUri = Throw e ->
  fetchRuleGuidance ruleUri w
  = (withTrace (trace w ++ [FetchHtml ruleUri]) w,
     Ok ApiLinterHoverProvider.PLACEHOLDER).
Proof.
  intros Hmiss Hpage.
  unfold ApiLinterHoverProvider.fetchRuleGuidance, fetchHtml, tryCatch.
  run_st. rewrite Hmiss. cbn [withTrace fetchHtmlResponse trace].
  rewrite Hpage. reflexivity.
Qed.

(** One request: what it returns, what it adds to the cache and to the
    trace. *)
Lemma fetchRuleGuidance_run (w : World) (ruleUri : jsstring) :
  exists w1 guidance es,
    fetchRuleGuidance ruleUri w = (w1, Ok guidance)
    /\ w1 = withTrace (trace w ++ es) (withCache (guidanceCache w1) w)
    /\ guidanceCache w ⊆ guidanceCache w1
    /\ (es = []
        \/ es = [FetchHtml ruleUri] /\ guidanceCache w !! ruleUri = None)
    /\ ((exists html, fetchHtmlResponse w ruleUri = Ok html) ->
        guidanceCache w1 !! ruleUri = Some guidance).
Proof.
  destruct (guidanceCache w !! ruleUri) as [g|] eqn:Hcache.
  - exists w, g, []. rewrite (fetchRuleGuidance_cached w ruleUri g Hcache).
    split; [done|]. split; [by rewrite app_nil_r; destruct w|].
    split; [done|]. split; [by left|done].
  - destruct (fetchHtmlResponse w ruleUri) as [html|e] eqn:Hpage.
    + eexists _, _, [FetchHtml ruleUri].
      rewrite (fetchRuleGuidance_served w ruleUri html Hcache Hpage).
      split; [done|]. split; [done|].
      cbn [guidanceCache withTrace withCache].
      split; [by apply insert_subseteq|]. split; [by right|].
      intros _. by rewrite lookup_insert_eq.
    + eexists _, _, [FetchHtml ruleUri].
      rewrite (fetchRuleGuidance_failed w ruleUri e Hcache Hpage).
      split; [done|]. split; [by destruct w|].
      split; [done|]. split; [by right|].
      by intros [html Hhtml].
Qed.

Lemma appendDiagnosticInfo_run (markdown : jsstring)
    (diagnostic : vscode.Diagnostic) (w : World) :
  exists w1 markdown1 es,
    appendDiagnosticInfo markdown diagnostic w = (w1, Ok markdown1)
    /\ w1 = withTrace (trace w ++ es) (withCache (guidanceCache w1) w)
    /\ guidanceCache w ⊆ guidanceCache w1
    /\ (es = []
        \/ es = [FetchHtml (ruleUriOf diagnostic)]
           /\ guidanceCache w !! ruleUriOf diagnostic = None)
    /\ ((ruleUriOf diagnostic <> [] ->
         exists html, fetchHtmlResponse w (ruleUriOf diagnostic) = Ok html) ->
        (es = [] \/ is_Some (guidanceCache w1 !! ruleUriOf diagnostic))
        /\ forall w2,
             guidanceCache w1 ⊆ guidanceCache w2 ->
             appendDiagnosticInfo markdown diagnostic w2 = (w2, Ok markdown1)).
Proof.
  unfold ApiLinterHoverRendering.appendDiagnosticInfo. cbv zeta.
  destruct (truthy (VString (ruleUriOf diagnostic))) eqn:Hlinked.
  - destruct (fetchRuleGuidance_run w (ruleUriOf diagnostic))
      as (w1 & guidance & es & Hrun & Hw1 & Hsub & Hes & Hserved).
    eexists w1, _, es.
    rewrite (bind_ok_eq _ _ _ _ _ Hrun). split; [reflexivity|].
    split; [done|]. split; [done|]. split; [done|].
    intros Hpage.
    assert (Hne : ruleUriOf diagnostic <> []).
    { intros Hnil. rewrite Hnil in Hlinked. discriminate. }
    specialize (Hserved (Hpage Hne)). split; [right; by eexists|].
    intros w2 Hsub2.
    rewrite (bind_ok_eq _ _ _ _ _
               (fetchRuleGuidance_cached w2 _ guidance
                  (lookup_weaken _ _ _ _ Hserved Hsub2))).
    reflexivity.
  - eexists w, _, []. split; [reflexivity|].
    split; [by rewrite app_nil_r; destruct w|].
    split; [done|]. split; [by left|].
    intros _. split; [by left|done].
Qed.

Lemma appendFrom_run (diagnostics : list vscode.Diagnostic) :
  forall (index : nat) (markdown : jsstring) (w : World),
  exists w' markdown' es,
    appendFrom index diagnostics markdown w = (w', Ok markdown')
    /\ w' = withTrace (trace w ++ es) (withCache (guidanceCache w') w)
    /\ guidanceCache w ⊆ guidanceCache w'
    /\ Forall (fun e =>
                 exists d, d ∈ diagnostics /\ e = FetchHtml (ruleUriOf d)
                           /\ guidanceCache w !! ruleUriOf d = None) es
    /\ ((forall d, d ∈ diagnostics -> ruleUriOf d <> [] ->
           exists html, fetchHtmlResponse w (ruleUriOf d) = Ok html) ->
        NoDup es
        /\ forall w2,
             guidanceCache w' ⊆ guidanceCache w2 ->
             appendFrom index diagnostics markdown w2 = (w2, Ok markdown')).
Proof.
  induction diagnostics as [|d rest IH]; intros index markdown w.
  - exists w, markdown, []. split; [done|].
    split; [by rewrite app_nil_r; destruct w|]. split; [done|].
    split; [constructor|]. intros _. split; [constructor|done].
  - cbn [ApiLinterHoverRendering.appendFrom]. cbv zeta.
    set (markdown0 := if (0 <? index)%nat then _ else _).
    destruct (appendDiagnosticInfo_run markdown0 d w)
      as (w1 & markdown1 & es1 & Hrun1 & Hw1 & Hsub1 & Hes1 & Hserved1).
    destruct (IH (S index) markdown1 w1)
      as (w' & markdown' & es2 & Hrun2 & Hw' & Hsub2 & Hes2 & Hserved2).
    exists w', markdown', (es1 ++ es2).
    rewrite (bind_ok_eq _ _ _ _ _ Hrun1).
    split; [done|].
    split.
    { rewrite Hw' at 1. rewrite Hw1 at 1 2.
      cbn [trace withTrace withCache]. by rewrite app_assoc. }
    split; [by etrans|].
    split.
    { apply Forall_app. split.
      - destruct Hes1 as [->|[-> Hmiss]]; [constructor|].
        constructor; [|constructor]. exists d. split; [by left|done].
      - eapply Forall_impl; [exact Hes2|].
        intros e (d' & Hin & -> & Hmiss). exists d'.
        split; [by right|]. split; [done|].
        by eapply lookup_weaken_None. }
    intros Hpages.
    assert (Hsame : fetchHtmlResponse w1 = fetchHtmlResponse w)
      by (by rewrite Hw1).
    destruct Hserved1 as [Hcached Hagain1].
    { intros Hne. apply Hpages; [by left|done]. }
    destruct Hserved2 as [Hnodup Hagain2].
    { intros d' Hin Hne. rewrite Hsame. apply Hpages; [by right|done]. }
    split.
    + apply NoDup_app. split; [|split; [|done]].
      * destruct Hes1 as [->|[-> _]]; [constructor|].
        apply NoDup_singleton.
      * intros e Hin1 Hin2.
        destruct Hes1 as [->|[-> _]]; [by apply elem_of_nil in Hin1|].
        apply list_elem_of_singleton in Hin1 as ->.
        destruct Hcached as [Hnil|[g Hg]]; [discriminate|].
        rewrite Forall_forall in Hes2.
        destruct (Hes2 _ Hin2) as (d' & _ & [= Heq] & Hmiss).
        rewrite <- Heq in Hmiss. congruence.
    + intros w2 Hsub.
      rewrite (bind_ok_eq _ _ _ _ _ (Hagain1 w2 (transitivity Hsub2 Hsub))).
      by apply Hagain2.
Qed.

End HoverFacts.

(** X16.  A failed fetch is not cached.  When the page of a rule that is
    not cached cannot be fetched, [fetchRuleGuidance] does not reject: it
    returns the placeholder text and leaves the cache as it was, so the
    next request for the same rule asks the network again. *)
Theorem guidance_failure_not_cached `{Platform}
    (parseRuleHtml : jsstring -> jsstring)
    (w : World) (ruleUri : jsstring) (e : exn) :
  guidanceCache w !! ruleUri = None ->
  fetchHtmlResponse w ruleUri = Throw e ->
  let w1 := withTrace (trace w ++ [FetchHtml ruleUri]) w in
  let w2 := withTrace (trace w ++ [FetchHtml ruleUri; FetchHtml ruleUri]) w in
  ApiLinterHoverProvider.fetchRuleGuidance parseRuleHtml ruleUri w
  = (w1, Ok ApiLinterHoverProvider.PLACEHOLDER)
  /\ guidanceCache w1 = guidanceCache w
  /\ ApiLinterHoverProvider.fetchRuleGuidance parseRuleHtml ruleUri w1
     = (w2, Ok ApiLinterHoverProvider.PLACEHOLDER).
Proof.
  intros Hmiss Hpage. cbv zeta.
  split; [by apply fetchRuleGuidance_failed with e|].
  split; [reflexivity|].
  rewrite (fetchRuleGuidance_failed parseRuleHtml
             (withTrace (trace w ++ [FetchHtml ruleUri]) w) ruleUri e
             Hmiss Hpage).
  cbn [trace withTrace]. by rewrite <- app_assoc.
Qed.

(** X17.  Rendering a hover never rejects, whatever the network does and
    whatever the diagnostics hold; [provideHover] answers [null] for an
    empty list and otherwise attaches the text to the range of the first
    diagnostic.  Rendering changes nothing but the guidance
    cache and the trace; the cache only grows (an entry, once stored, is
    never replaced or dropped); and every network call it makes fetches
    the page of a rule of one of the diagnostics that was not cached
    before. *)
Theorem hover_never_rejects `{Platform}
    (parseRuleHtml : jsstring -> jsstring)
    (uriToString : vscode.Uri -> jsstring)
    (diagnostics : list vscode.Diagnostic) (w : World) :
  exists w' markdown es,
    ApiLinterHoverRendering.buildHoverMarkdown parseRuleHtml uriToString
      diagnostics w = (w', Ok markdown)
    /\ ApiLinterHoverRendering.provideHover parseRuleHtml uriToString
         diagnostics w
       = (w', Ok match diagnostics with
                 | [] => None
                 | first :: _ => Some (markdown, vscode.range first)
                 end)
    /\ w' = withTrace (trace w ++ es) (withCache (guidanceCache w') w)
    /\ guidanceCache w ⊆ guidanceCache w'
    /\ Forall (fun e =>
                 exists d,
                   d ∈ diagnostics
                   /\ e = FetchHtml
                            (ApiLinterHoverRendering.ruleUriOf uriToString d)
                   /\ guidanceCache w
                        !! ApiLinterHoverRendering.ruleUriOf uriToString d
                      = None) es.
Proof.
  destruct (appendFrom_run parseRuleHtml uriToString diagnostics 0%nat [] w)
    as (w' & markdown & es & Hrun & Hw' & Hsub & Hes & _).
  exists w', markdown, es. split; [done|]. split; [|done].
  unfold ApiLinterHoverRendering.provideHover.
  destruct diagnostics as [|first rest].
  - by injection Hrun as <- _.
  - unfold ApiLinterHoverRendering.buildHoverMarkdown.
    by rewrite (bind_ok_eq _ _ _ _ _ Hrun).
Qed.

(** X18.  One fetch per rule.  When the documentation site serves the page
    of every rule the diagnostics link to, rendering the hover fetches no
    page twice, however many of the diagnostics share a rule; and
    rendering the same diagnostics again, then or at any later state of
    the cache, gives the same text without any network call or other
    effect. *)
Theorem hover_fetches_each_rule_once `{Platform}
    (parseRuleHtml : jsstring -> jsstring)
    (uriToString : vscode.Uri -> jsstring)
    (diagnostics : list vscode.Diagnostic) (w : World) :
  (forall d,
      d ∈ diagnostics ->
      ApiLinterHoverRendering.ruleUriOf uriToString d <> [] ->
      exists html,
        fetchHtmlResponse w (ApiLinterHoverRendering.ruleUriOf uriToString d)
        = Ok html) ->
  exists w' markdown,
    ApiLinterHoverRendering.buildHoverMarkdown parseRuleHtml uriToString
      diagnostics w = (w', Ok markdown)
    /\ NoDup (eventsOf
                (ApiLinterHoverRendering.buildHoverMarkdown parseRuleHtml
                   uriToString diagnostics) w)
    /\ forall later,
         guidanceCache w' ⊆ guidanceCache later ->
         ApiLinterHoverRendering.buildHoverMarkdown parseRuleHtml uriToString
           diagnostics later = (later, Ok markdown).
Proof.
  intros Hpages.
  destruct (appendFrom_run parseRuleHtml uriToString diagnostics 0%nat [] w)
    as (w' & markdown & es & Hrun & Hw' & Hsub & Hes & Hserved).
  destruct (Hserved Hpages) as [Hnodup Hagain].
  exists w', markdown. split; [done|]. split; [|done].
  erewrite eventsOf_appended; [exact Hnodup|exact Hrun|].
  rewrite Hw'. reflexivity.
Qed.

(** ** Linting documents *)

Section ProviderFacts.
Context `{Platform}.
Variable buildLinterArgs :
  World -> jsstring -> Types.LinterOptions -> LinterArgs.
Variable parseLinterOutput :
  jsstring -> result (list vscode.Diagnostic) * list LogEntry.
Variable ensureBinary : M jsstring.
Variable spawn : jsstring -> list jsstring -> jsstring -> ProcessRun.

Local Abbreviation lintDocument :=
  (LinterProvider.lintDocument buildLinterArgs parseLinterOutput ensureBinary
     spawn).
Local Abbreviation runSpawned :=
  (LinterProvider.runSpawned buildLinterArgs parseLinterOutput spawn).

Lemma onWorld_run {A} (m : M A) (h : LinterProvider.Host) :
  LinterProvider.onWorld m h
  = (LinterProvider.withWorld (fst (m (LinterProvider.world h))) h,
     snd (m (LinterProvider.world h))).
Proof.
  unfold LinterProvider.onWorld. by destruct (m (LinterProvider.world h)).
Qed.

(** The two ways a lint of a [.proto] document ends. *)
Lemma lintDocument_outcomes (document : LinterProvider.TextDocument)
    (saveFirst : bool) (h : LinterProvider.Host) :
  endsWith (str ".proto") (LinterProvider.fileName document) = true ->
  let saves :=
    if saveFirst && LinterProvider.isDirty document
    then [LinterProvider.DocumentSaved (LinterProvider.uri document)]
    else [] in
  let w0 :=
    withTrace (trace (LinterProvider.world h)
                 ++ [AppendLine (str "Starting lint for: "
                                   ++ LinterProvider.fsPath document)])
      (LinterProvider.world h) in
  exists h',
    lintDocument document saveFirst h = (h', Ok tt)
    /\ LinterProvider.linterOptions h' = LinterProvider.linterOptions h
    /\ ((exists binaryPath w1 w2 diagnostics,
           ensureBinary w0 = (w1, Ok binaryPath)
           /\ runSpawned binaryPath (LinterProvider.fsPath document)
                (LinterProvider.linterOptions h)
                (withTrace (trace w1
                              ++ [AppendLine (str "Using binary: "
                                                ++ binaryPath)]) w1)
              = (w2, Ok diagnostics)
           /\ LinterProvider.diagnosticCollection h'
              = <[LinterProvider.uri document := diagnostics]>
                  (LinterProvider.diagnosticCollection h)
           /\ LinterProvider.window h' = LinterProvider.window h ++ saves)
        \/ (exists error,
              (snd (ensureBinary w0) = Throw error
               \/ exists binaryPath w1,
                    ensureBinary w0 = (w1, Ok binaryPath)
                    /\ snd (runSpawned binaryPath
                              (LinterProvider.fsPath document)
                              (LinterProvider.linterOptions h)
                              (withTrace
                                 (trace w1
                                    ++ [AppendLine (str "Using binary: "
                                                      ++ binaryPath)]) w1))
                       = Throw error)
              /\ LinterProvider.diagnosticCollection h'
                 = LinterProvider.diagnosticCollection h
              /\ LinterProvider.window h'
                 = LinterProvider.window h ++ saves
                     ++ [LinterProvider.ShowErrorMessage
                           (str "Google API Linter error: "
                              ++ showError error)])).
Proof.
  intros Hproto saves w0.
  unfold LinterProvider.lintDocument. rewrite Hproto. cbn [negb].
  set (h0 := LinterProvider.withWindow (LinterProvider.window h ++ saves) h).
  assert (Hsaved :
    (if saveFirst && LinterProvider.isDirty document
     then LinterProvider.notify
            (LinterProvider.DocumentSaved (LinterProvider.uri document))
     else ret tt) h = (h0, Ok tt)).
  { subst h0 saves.
    destruct (saveFirst && LinterProvider.isDirty document); [reflexivity|].
    rewrite app_nil_r. by destruct h. }
  rewrite (bind_ok_eq _ _ _ _ _ Hsaved).
  rewrite (bind_ok_eq _ _ _ (LinterProvider.withWorld w0 h0) tt)
    by reflexivity.
  unfold tryCatch. unfold bind at 1. rewrite onWorld_run.
  cbn [LinterProvider.world LinterProvider.withWorld LinterProvider.withWindow].
  fold w0.
  destruct (ensureBinary w0) as [w1 [binaryPath|error]] eqn:Hensure;
    cbn [fst snd].
  - rewrite (bind_ok_eq _ _ _
               (LinterProvider.withWorld
                  (withTrace (trace w1 ++ [AppendLine (str "Using binary: "
                                                         ++ binaryPath)]) w1)
                  h0) tt) by reflexivity.
    unfold bind at 1. unfold gets at 1. cbv beta iota.
    unfold bind at 1. rewrite onWorld_run.
    cbn [LinterProvider.world LinterProvider.withWorld
         LinterProvider.withWindow LinterProvider.linterOptions].
    match goal with
    | |- context [runSpawned ?p ?f ?o ?w] =>
        destruct (runSpawned p f o w) as [w2 [diagnostics|error]] eqn:Hrun
    end; cbn [fst snd];
      change (LinterProvider.linterOptions h0)
        with (LinterProvider.linterOptions h) in Hrun.
    + eexists. split; [reflexivity|]. split; [reflexivity|].
      left. exists binaryPath, w1, w2, diagnostics.
      split; [done|]. split; [exact Hrun|]. by split.
    + eexists. split; [reflexivity|]. split; [reflexivity|].
      right. exists error. split.
      { right. exists binaryPath, w1. split; [done|]. by rewrite Hrun. }
      split; [reflexivity|].
      cbn [LinterProvider.window LinterProvider.withWindow
           LinterProvider.withWorld]. subst h0.
      cbn [LinterProvider.window LinterProvider.withWindow].
      by rewrite <- app_assoc.
  - eexists. split; [reflexivity|]. split; [reflexivity|].
    right. exists error. split; [by left|].
    split; [reflexivity|].
    cbn [LinterProvider.window LinterProvider.withWindow
         LinterProvider.withWorld]. subst h0.
    cbn [LinterProvider.window LinterProvider.withWindow].
    by rewrite <- app_assoc.
Qed.

(** What a lint can change, for any document. *)
Lemma lintDocument_changes (document : LinterProvider.TextDocument)
    (saveFirst : bool) (h : LinterProvider.Host) :
  let saves :=
    if saveFirst && LinterProvider.isDirty document
    then [LinterProvider.DocumentSaved (LinterProvider.uri document)]
    else [] in
  exists h',
    lintDocument document saveFirst h = (h', Ok tt)
    /\ LinterProvider.linterOptions h' = LinterProvider.linterOptions h
    /\ if endsWith (str ".proto") (LinterProvider.fileName document) then
         (exists diagnostics,
             LinterProvider.diagnosticCollection h'
             = <[LinterProvider.uri document := diagnostics]>
                 (LinterProvider.diagnosticCollection h)
             /\ LinterProvider.window h' = LinterProvider.window h ++ saves)
         \/ (exists error,
                LinterProvider.diagnosticCollection h'
                = LinterProvider.diagnosticCollection h
                /\ LinterProvider.window h'
                   = LinterProvider.window h ++ saves
                       ++ [LinterProvider.ShowErrorMessage
                             (str "Google API Linter error: "
                                ++ showError error)])
       else h' = h.
Proof.
  intros saves.
  destruct (endsWith (str ".proto") (LinterProvider.fileName document))
    eqn:Hproto.
  - destruct (lintDocument_outcomes document saveFirst h Hproto)
      as (h' & Hrun & Hopts & Hcases).
    exists h'. split; [done|]. split; [done|].
    destruct Hcases as [(bp & w1 & w2 & ds & _ & _ & Hset & Hwin)
                       |(error & _ & Hkeep & Hwin)].
    + left. by exists ds.
    + right. by exists error.
  - exists h. unfold LinterProvider.lintDocument. rewrite Hproto. done.
Qed.

Lemma runLinter_settles (binaryPath filePath : jsstring)
    (options : Types.LinterOptions) (proc : ProcessRun) (w : World) :
  snd (runLinter buildLinterArgs parseLinterOutput binaryPath filePath
         options proc w)
  = match ending proc with
    | ErrorEvent error =>
        Throw (if isENOENT error
               then Error (str "api-linter binary not found at: "
                             ++ binaryPath
                             ++ str ". Please install it or configure the correct path in settings.")
               else error)
    | CloseEvent code =>
        if isFailureCode code
        then Throw (Error (str "api-linter exited with code "
                             ++ showCode code))
        else Ok (decoded (fst (parseLinterOutput (stdout proc))))
    end.
Proof.
  unfold runLinter. run_st.
  destruct (ending proc) as [error|code].
  - by destruct (isENOENT error).
  - destruct (negb (streq (stderr proc) [])); destruct (isFailureCode code);
      try reflexivity;
      by destruct (fst (parseLinterOutput (stdout proc))).
Qed.

Lemma runSpawned_fixed (binaryPath filePath : jsstring)
    (options : Types.LinterOptions) (proc : ProcessRun) (w : World) :
  (forall args cwd, spawn binaryPath args cwd = proc) ->
  runSpawned binaryPath filePath options w
  = runLinter buildLinterArgs parseLinterOutput binaryPath filePath options
      proc w.
Proof.
  intros Hproc. unfold LinterProvider.runSpawned, bind, gets, id.
  by rewrite Hproc.
Qed.

Lemma lintWorkspace_loop (protoFiles : list LinterProvider.TextDocument) :
  forall h : LinterProvider.Host,
  exists h' es,
    forEach (fun document => lintDocument document false) protoFiles h
    = (h', Ok tt)
    /\ LinterProvider.linterOptions h' = LinterProvider.linterOptions h
    /\ (forall u,
          u ∉ LinterProvider.uri <$> protoFiles ->
          LinterProvider.diagnosticCollection h' !! u
          = LinterProvider.diagnosticCollection h !! u)
    /\ LinterProvider.window h' = LinterProvider.window h ++ es
    /\ Forall (fun e => exists m, e = LinterProvider.ShowErrorMessage m) es
    /\ (length es <= length protoFiles)%nat.
Proof.
  induction protoFiles as [|document rest IH]; intros h.
  - exists h, []. split; [done|]. split; [done|]. split; [done|].
    split; [by rewrite app_nil_r|]. split; [constructor|done].
  - destruct (lintDocument_changes document false h)
      as (h1 & Hrun1 & Hopts1 & Hcases). cbn [andb] in Hcases.
    destruct (IH h1) as (h' & es & Hrun & Hopts & Hother & Hwin & Hes & Hlen).
    cbn [forEach]. rewrite (bind_ok_eq _ _ _ _ _ Hrun1).
    assert (Hstep : exists es1,
      LinterProvider.window h1 = LinterProvider.window h ++ es1
      /\ Forall (fun e => exists m, e = LinterProvider.ShowErrorMessage m) es1
      /\ (length es1 <= 1)%nat
      /\ forall u, u <> LinterProvider.uri document ->
           LinterProvider.diagnosticCollection h1 !! u
           = LinterProvider.diagnosticCollection h !! u).
    { destruct (endsWith (str ".proto") (LinterProvider.fileName document)).
      - destruct Hcases as [(ds & Hset & Hw)|(error & Hkeep & Hw)].
        + exists []. split; [done|]. split; [constructor|].
          split; [cbn; lia|]. intros u Hu. rewrite Hset.
          by rewrite lookup_insert_ne.
        + eexists [_]. split; [exact Hw|].
          split; [constructor; [by eexists|constructor]|].
          split; [done|]. intros u _. by rewrite Hkeep.
      - subst h1. exists []. split; [by rewrite app_nil_r|].
        split; [constructor|]. split; [cbn; lia|done]. }
    destruct Hstep as (es1 & Hwin1 & Hes1 & Hlen1 & Hother1).
    exists h', (es1 ++ es). split; [done|].
    split; [congruence|]. split.
    { intros u Hu. rewrite fmap_cons in Hu.
      apply not_elem_of_cons in Hu as [Hne Hu].
      rewrite (Hother u Hu). by apply Hother1. }
    split; [by rewrite Hwin, Hwin1, app_assoc|].
    split; [by apply Forall_app|].
    rewrite length_app, length_cons. lia.
Qed.

End ProviderFacts.

(** X19.  Linting a document never rejects.  A file whose name does not
    end in [.proto] is left alone: nothing is logged, saved or changed.
    For a [.proto] file the lint ends in one of two ways: either the
    diagnostics of this document, and of no other, are replaced and no
    error is shown; or one error message is shown and the whole diagnostic
    collection is left as it was, so the findings of the previous run stay
    on display. *)
Theorem lintDocument_never_rejects `{Platform}
    (buildLinterArgs : World -> jsstring -> Types.LinterOptions -> LinterArgs)
    (parseLinterOutput :
       jsstring -> result (list vscode.Diagnostic) * list LogEntry)
    (ensureBinary : M jsstring)
    (spawn : jsstring -> list jsstring -> jsstring -> ProcessRun)
    (document : LinterProvider.TextDocument) (saveFirst : bool)
    (h : LinterProvider.Host) :
  let saves :=
    if saveFirst && LinterProvider.isDirty document
    then [LinterProvider.DocumentSaved (LinterProvider.uri document)]
    else [] in
  exists h',
    LinterProvider.lintDocument buildLinterArgs parseLinterOutput ensureBinary
      spawn document saveFirst h = (h', Ok tt)
    /\ LinterProvider.linterOptions h' = LinterProvider.linterOptions h
    /\ if endsWith (str ".proto") (LinterProvider.fileName document) then
         (exists diagnostics,
             LinterProvider.diagnosticCollection h'
             = <[LinterProvider.uri document := diagnostics]>
                 (LinterProvider.diagnosticCollection h)
             /\ LinterProvider.window h' = LinterProvider.window h ++ saves)
         \/ (exists error,
                LinterProvider.diagnosticCollection h'
                = LinterProvider.diagnosticCollection h
                /\ LinterProvider.window h'
                   = LinterProvider.window h ++ saves
                       ++ [LinterProvider.ShowErrorMessage
                             (str "Google API Linter error: "
                                ++ showError error)])
       else h' = h.
Proof. apply lintDocument_changes. Qed.

(** X20.  What the exit of the tool does to the diagnostics on display.
    With the binary resolved and the spawned process behaving as [proc]:
    on exit code 0 or 1 the document's diagnostics become what the decoder
    returned, and become empty when the decoder threw, without any
    message to the user; on every other exit code, and when the process
    could not be started, the diagnostics are left as they were and the
    error is shown, for an exit code with the text
    [api-linter exited with code <code>]. *)
Theorem lintDocument_by_exit `{Platform}
    (buildLinterArgs : World -> jsstring -> Types.LinterOptions -> LinterArgs)
    (parseLinterOutput :
       jsstring -> result (list vscode.Diagnostic) * list LogEntry)
    (ensureBinary : M jsstring)
    (spawn : jsstring -> list jsstring -> jsstring -> ProcessRun)
    (document : LinterProvider.TextDocument) (saveFirst : bool)
    (h : LinterProvider.Host)
    (binaryPath : jsstring) (w1 : World) (proc : ProcessRun) :
  endsWith (str ".proto") (LinterProvider.fileName document) = true ->
  ensureBinary
    (withTrace (trace (LinterProvider.world h)
                  ++ [AppendLine (str "Starting lint for: "
                                    ++ LinterProvider.fsPath document)])
       (LinterProvider.world h))
  = (w1, Ok binaryPath) ->
  (forall args cwd, spawn binaryPath args cwd = proc) ->
  let saves :=
    if saveFirst && LinterProvider.isDirty document
    then [LinterProvider.DocumentSaved (LinterProvider.uri document)]
    else [] in
  exists h',
    LinterProvider.lintDocument buildLinterArgs parseLinterOutput ensureBinary
      spawn document saveFirst h = (h', Ok tt)
    /\ (forall code,
          ending proc = CloseEvent code -> code = Some 0 \/ code = Some 1 ->
          LinterProvider.diagnosticCollection h'
          = <[LinterProvider.uri document :=
                decoded (fst (parseLinterOutput (stdout proc)))]>
              (LinterProvider.diagnosticCollection h)
          /\ LinterProvider.window h' = LinterProvider.window h ++ saves)
    /\ (forall code,
          ending proc = CloseEvent code -> code <> Some 0 -> code <> Some 1 ->
          LinterProvider.diagnosticCollection h'
          = LinterProvider.diagnosticCollection h
          /\ LinterProvider.window h'
             = LinterProvider.window h ++ saves
                 ++ [LinterProvider.ShowErrorMessage
                       (str "Google API Linter error: "
                          ++ showError
                               (Error (str "api-linter exited with code "
                                         ++ showCode code)))])
    /\ (forall error,
          ending proc = ErrorEvent error ->
          LinterProvider.diagnosticCollection h'
          = LinterProvider.diagnosticCollection h
          /\ exists shown,
               LinterProvider.window h'
               = LinterProvider.window h ++ saves
                   ++ [LinterProvider.ShowErrorMessage shown]).
Proof.
  intros Hproto Hensure Hproc saves.
  destruct (lintDocument_outcomes buildLinterArgs parseLinterOutput
              ensureBinary spawn document saveFirst h Hproto)
    as (h' & Hrun & _ & Hcases).
  exists h'. split; [exact Hrun|].
  assert (Hsettled : forall w,
    snd (LinterProvider.runSpawned buildLinterArgs parseLinterOutput spawn
           binaryPath (LinterProvider.fsPath document)
           (LinterProvider.linterOptions h) w)
    = match ending proc with
      | ErrorEvent error =>
          Throw (if isENOENT error
                 then Error (str "api-linter binary not found at: "
                               ++ binaryPath
                               ++ str ". Please install it or configure the correct path in settings.")
                 else error)
      | CloseEvent code =>
          if isFailureCode code
          then Throw (Error (str "api-linter exited with code "
                               ++ showCode code))
          else Ok (decoded (fst (parseLinterOutput (stdout proc))))
      end).
  { intros w.
    rewrite (runSpawned_fixed buildLinterArgs parseLinterOutput spawn
               _ _ _ proc w Hproc).
    apply runLinter_settles. }
  destruct Hcases as [(bp & w1' & w2 & ds & Hens & Hspawned & Hset & Hwin)
                     |(error & Hwhy & Hkeep & Hwin)].
  - rewrite Hensure in Hens. injection Hens as <- <-.
    pose proof (Hsettled
                  (withTrace (trace w1 ++ [AppendLine (str "Using binary: "
                                                         ++ binaryPath)]) w1))
      as Hsnd.
    rewrite Hspawned in Hsnd. cbn [snd] in Hsnd.
    split; [|split].
    + intros code Hend Hcode. apply isFailureCode_spec in Hcode.
      rewrite Hend, Hcode in Hsnd. injection Hsnd as ->. by split.
    + intros code Hend Hne0 Hne1. rewrite Hend in Hsnd.
      destruct (isFailureCode code) eqn:Hfail; [discriminate|].
      apply isFailureCode_spec in Hfail. by destruct Hfail.
    + intros error Hend. by rewrite Hend in Hsnd.
  - assert (Herror :
      snd (LinterProvider.runSpawned buildLinterArgs parseLinterOutput spawn
             binaryPath (LinterProvider.fsPath document)
             (LinterProvider.linterOptions h)
             (withTrace (trace w1 ++ [AppendLine (str "Using binary: "
                                                    ++ binaryPath)]) w1))
      = Throw error).
    { destruct Hwhy as [Hthrown|(bp & w1' & Hens & Hthrown)].
      - rewrite Hensure in Hthrown. discriminate.
      - rewrite Hensure in Hens. by injection Hens as <- <-. }
    rewrite Hsettled in Herror.
    split; [|split].
    + intros code Hend Hcode. apply isFailureCode_spec in Hcode.
      rewrite Hend, Hcode in Herror. discriminate.
    + intros code Hend _ _. rewrite Hend in Herror.
      destruct (isFailureCode code); [|discriminate].
      injection Herror as <-. by split.
    + intros e Hend. split; [done|]. by eexists.
Qed.

(** X21.  Once the files are found and opened, linting the workspace never
    rejects: a file whose lint fails does not abort the run.  Diagnostics
    of documents that are not listed are left as they were, no document is
    saved, and at most one error message per listed file is shown. *)
Theorem lintWorkspace_never_rejects `{Platform}
    (buildLinterArgs : World -> jsstring -> Types.LinterOptions -> LinterArgs)
    (parseLinterOutput :
       jsstring -> result (list vscode.Diagnostic) * list LogEntry)
    (ensureBinary : M jsstring)
    (spawn : jsstring -> list jsstring -> jsstring -> ProcessRun)
    (protoFiles : list LinterProvider.TextDocument)
    (h : LinterProvider.Host) :
  exists h' es,
    LinterProvider.lintWorkspace buildLinterArgs parseLinterOutput
      ensureBinary spawn protoFiles h = (h', Ok tt)
    /\ LinterProvider.linterOptions h' = LinterProvider.linterOptions h
    /\ (forall u,
          u ∉ LinterProvider.uri <$> protoFiles ->
          LinterProvider.diagnosticCollection h' !! u
          = LinterProvider.diagnosticCollection h !! u)
    /\ LinterProvider.window h' = LinterProvider.window h ++ es
    /\ Forall (fun e => exists m, e = LinterProvider.ShowErrorMessage m) es
    /\ (length es <= length protoFiles)%nat.
Proof.
  unfold LinterProvider.lintWorkspace.
  assert (Hshown : forall msg w,
    exists r, snd (showInformationMessage msg [] w) = Ok r).
  { intros msg w. unfold showInformationMessage. run_st. by eexists. }
  destruct (length protoFiles =? 0)%nat.
  - unfold bind at 1. rewrite onWorld_run.
    destruct (Hshown (str "No .proto files found in workspace.")
                (LinterProvider.world h)) as [r ->].
    eexists _, []. split; [reflexivity|].
    split; [done|]. split; [done|].
    split; [by rewrite app_nil_r|]. split; [constructor|cbn; lia].
  - unfold bind at 1. rewrite onWorld_run.
    destruct (Hshown
                (str "Linting " ++ showZ (Z.of_nat (length protoFiles))
                   ++ str " proto file(s)...") (LinterProvider.world h))
      as [r ->].
    cbv beta iota.
    match goal with
    | |- context [bind (forEach ?f protoFiles) ?k ?h0] =>
        destruct (lintWorkspace_loop buildLinterArgs parseLinterOutput
                    ensureBinary spawn protoFiles h0)
          as (h1 & es & Hloop & Hopts & Hother & Hwin & Hes & Hlen)
    end.
    rewrite (bind_ok_eq _ _ _ _ _ Hloop).
    unfold bind at 1. rewrite onWorld_run.
    destruct (Hshown (str "Workspace linting completed.")
                (LinterProvider.world h1)) as [r2 ->].
    eexists _, es. split; [reflexivity|].
    split; [exact Hopts|]. split; [exact Hother|].
    split; [exact Hwin|]. by split.
Qed.

(** ** HTTP client: redirects and error pages *)

Section RedirectFacts.
Variable get : jsstring -> HttpClient.Exchange.

Lemma request_redirect (url next : jsstring) (fuel : nat) :
  redirectsTo get url next ->
  HttpClient.request get (S fuel) url = HttpClient.request get fuel next.
Proof.
  intros (res & Hget & Hstatus & Hlocation & Hne).
  cbn [HttpClient.request]. rewrite Hget, Hlocation.
  replace ((HttpClient.statusCode res =? 302)
           || (HttpClient.statusCode res =? 301)) with true
    by (destruct Hstatus as [-> | ->]; reflexivity).
  cbn [truthy]. unfold streq. by rewrite bool_decide_eq_false_2.
Qed.

Lemma request_chain (hops : list jsstring) :
  forall (url : jsstring) (fuel : nat),
    redirectChain get url hops ->
    HttpClient.request get (length hops + fuel) url
    = HttpClient.request get fuel (default url (last hops)).
Proof.
  induction hops as [|next rest IH]; intros url fuel Hchain; [done|].
  destruct Hchain as [Hfirst Hrest].
  cbn [length Nat.add]. rewrite (request_redirect url next _ Hfirst).
  rewrite (IH next fuel Hrest). rewrite last_cons.
  by destruct (last rest).
Qed.

Lemma request_chain_short (hops : list jsstring) :
  forall (url : jsstring) (fuel : nat),
    redirectChain get url hops ->
    (fuel <= length hops)%nat ->
    HttpClient.request get fuel url = None.
Proof.
  induction hops as [|next rest IH]; intros url fuel Hchain Hfuel.
  - cbn in Hfuel. by replace fuel with 0%nat by lia.
  - destruct fuel as [|fuel]; [done|].
    destruct Hchain as [Hfirst Hrest].
    rewrite (request_redirect url next _ Hfirst).
    apply IH; [done|]. cbn in Hfuel. lia.
Qed.

End RedirectFacts.

(** X22.  [downloadFile] follows redirects without any limit: when the
    responses lead from [url] through a chain of 301 or 302 redirects, of
    whatever length, the promise settles exactly as a download of the last
    address of the chain does, after one request per hop. *)
Theorem downloadFile_follows_redirects
    (get : jsstring -> HttpClient.Exchange)
    (url : jsstring) (hops : list jsstring) (fuel : nat) :
  redirectChain get url hops ->
  HttpClient.downloadFile get (length hops + fuel) url
  = HttpClient.downloadFile get fuel (default url (last hops)).
Proof. apply request_chain. Qed.

(** X23.  A redirect loop is never left: when a chain of redirects leads
    from [url] back to [url], the promise of [downloadFile] is not settled
    after any number of requests; it neither resolves nor rejects. *)
Theorem downloadFile_redirect_loop
    (get : jsstring -> HttpClient.Exchange)
    (url : jsstring) (hops : list jsstring) :
  redirectChain get url hops ->
  last hops = Some url ->
  forall fuel, HttpClient.downloadFile get fuel url = None.
Proof.
  intros Hchain Hback fuel. unfold HttpClient.downloadFile.
  induction (lt_wf fuel) as [fuel _ IH].
  destruct (le_lt_dec fuel (length hops)) as [Hshort|Hlong].
  - by apply (request_chain_short get hops).
  - replace fuel with (length hops + (fuel - length hops))%nat by lia.
    rewrite (request_chain get hops url _ Hchain), Hback. cbn [default].
    apply IH.
    assert (0 < length hops)%nat; [|lia].
    destruct hops; [discriminate|cbn; lia].
Qed.

(** X24.  An error page is cached as guidance.  [fetchHtml] resolves with
    the body of the response whatever its status code, so when the
    documentation site answers a rule page with an error status (404, 500),
    [fetchRuleGuidance] formats the error page, stores it, and returns it
    on every later request without asking again; [fetchJson], for the same
    response, rejects. *)
Theorem guidance_caches_error_pages `{Platform}
    (parseRuleHtml : jsstring -> jsstring)
    (get : jsstring -> HttpClient.Exchange)
    (w : World) (ruleUri : jsstring) (res : HttpClient.IncomingMessage) :
  htmlOver get w ->
  guidanceCache w !! ruleUri = None ->
  get ruleUri = HttpClient.Responded res ->
  HttpClient.statusCode res <> 200 ->
  exists w1,
    ApiLinterHoverProvider.fetchRuleGuidance parseRuleHtml ruleUri w
    = (w1, Ok (parseRuleHtml (HttpClient.data res)))
    /\ (forall later,
          guidanceCache w1 ⊆ guidanceCache later ->
          ApiLinterHoverProvider.fetchRuleGuidance parseRuleHtml ruleUri later
          = (later, Ok (parseRuleHtml (HttpClient.data res))))
    /\ HttpClient.fetchJson get ruleUri
       = Throw (Error (str "HTTP " ++ showZ (HttpClient.statusCode res)
                         ++ str ": "
                         ++ substring 0 200 (HttpClient.data res))).
Proof.
  intros Hover Hmiss Hget Hstatus.
  assert (Hpage : fetchHtmlResponse w ruleUri = Ok (HttpClient.data res)).
  { rewrite Hover. unfold HttpClient.fetchHtml. by rewrite Hget. }
  eexists. split.
  { apply (fetchRuleGuidance_served parseRuleHtml w ruleUri _ Hmiss Hpage). }
  split.
  - intros later Hsub. apply fetchRuleGuidance_cached.
    eapply lookup_weaken; [|exact Hsub].
    cbn [guidanceCache withTrace withCache]. by rewrite lookup_insert_eq.
  - unfold HttpClient.fetchJson. rewrite Hget.
    replace (HttpClient.statusCode res =? 200) with false; [done|].
    symmetry. by apply Z.eqb_neq.
Qed.

(** * The further properties on concrete runs *)


Lemma decode_extraction_idempotent_witness :
  let arr := Sample.renderJson (encodePayload Sample.payload1) in
  let output := str "Linting a.proto ..." ++ [10%N] ++ arr ++ str " done" in
  @LinterUtils.extractJson (@LinterUtils.extractJson output)
  = @LinterUtils.extractJson output
  /\ fst (@LinterUtils.parseLinterOutput Sample.platform true
            (@LinterUtils.extractJson output))
     = fst (@LinterUtils.parseLinterOutput Sample.platform true output).
Proof.
  cbv zeta.
  destruct (@decode_extraction_idempotent Sample.platform true
              (str "Linting a.proto ..." ++ [10%N]
                 ++ Sample.renderJson (encodePayload Sample.payload1)
                 ++ str " done")) as (_ & Hsame & Hdecoded).
  - unfold bracketsFound. by_computation.
  - by split.
Defined.

Lemma runLinter_spawn_errors_witness :
  snd (runLinter (H := Sample.platform)
         (@LinterUtils.buildLinterArgs Sample.platform)
         (@LinterUtils.parseLinterOutput Sample.platform false)
         (str "/home/u/.gapi/api-linter") (str "/ws/p/a.proto")
         Sample.noOptions Scenario.missingBinaryRun Sample.offline)
  = Throw (Error (str "api-linter binary not found at: /home/u/.gapi/api-linter. Please install it or configure the correct path in settings.")).
Proof.
  destruct (@runLinter_spawn_errors Sample.platform
              (@LinterUtils.buildLinterArgs Sample.platform)
              (@LinterUtils.parseLinterOutput Sample.platform false)
              (str "/home/u/.gapi/api-linter") (str "/ws/p/a.proto")
              Sample.noOptions Sample.noSettings Scenario.missingBinaryRun
              (ErrnoException (str "ENOENT")) Sample.offline eq_refl)
    as [Hmissing _].
  destruct Hmissing as [Hrun _]; [vm_compute; reflexivity|].
  exact Hrun.
Defined.

Lemma runLinter_absorbs_decode_failures_witness :
  exists w',
    runLinter (H := Sample.platform)
      (@LinterUtils.buildLinterArgs Sample.platform)
      (@LinterUtils.parseLinterOutput Sample.platform false)
      (str "/home/u/.gapi/api-linter") (str "/ws/p/a.proto")
      Sample.noOptions Sample.findingsRun Sample.offline
    = (w', Ok (decodeSpec vscode.Error Sample.payload1))
    /\ length (trace w') = 3%nat.
Proof.
  destruct (@runLinter_absorbs_decode_failures Sample.platform
              (@LinterUtils.buildLinterArgs Sample.platform) false
              (str "/home/u/.gapi/api-linter") (str "/ws/p/a.proto")
              Sample.noOptions Sample.findingsRun (Some 1) Sample.offline
              eq_refl (or_intror eq_refl)) as [(ds & Hds & Hrun) _].
  assert (Hval : Ok ds = Ok (decodeSpec vscode.Error Sample.payload1))
    by (rewrite <- Hds; vm_compute; reflexivity).
  injection Hval as ->.
  eexists. split; [exact Hrun | vm_compute; reflexivity].
Defined.

Lemma runLinter_ignores_stderr_witness :
  snd (runLinter (H := Sample.platform)
         (@LinterUtils.buildLinterArgs Sample.platform)
         (@LinterUtils.parseLinterOutput Sample.platform false)
         (str "/home/u/.gapi/api-linter") (str "/ws/p/a.proto")
         Sample.noOptions Scenario.noisyRun Sample.offline)
  = snd (runLinter (H := Sample.platform)
           (@LinterUtils.buildLinterArgs Sample.platform)
           (@LinterUtils.parseLinterOutput Sample.platform false)
           (str "/home/u/.gapi/api-linter") (str "/ws/p/a.proto")
           Sample.noOptions Sample.findingsRun Sample.offline).
Proof.
  destruct (@runLinter_ignores_stderr Sample.platform
              (@LinterUtils.buildLinterArgs Sample.platform)
              (@LinterUtils.parseLinterOutput Sample.platform false)
              (str "/home/u/.gapi/api-linter") (str "/ws/p/a.proto")
              Sample.noOptions Sample.noSettings
              Scenario.noisyRun Sample.findingsRun Sample.offline
              eq_refl eq_refl) as [Hsame _].
  exact Hsame.
Defined.

Lemma resolveWorkspaceVariables_substitution_witness :
  @resolveWorkspaceVariables Sample.platform Sample.vendorWorld
    (str "${workspaceFolder}/protos") (str "/ws/p/a.proto")
  = str "/ws/protos"
  /\ @resolveWorkspaceVariables Sample.platform Sample.vendorWorld
       (str "/opt/protos") (str "/ws/p/a.proto")
     = str "/opt/protos".
Proof.
  split.
  - destruct (@resolveWorkspaceVariables_substitution Sample.platform
                Sample.vendorWorld (str "/ws/p/a.proto") (str "/protos")
                eq_refl eq_refl) as [_ Hhead].
    destruct (Hhead (str "/ws") [] eq_refl) as [Hresolved _].
    cbv zeta in Hresolved.
    change (str "${workspaceFolder}/protos")
      with (WORKSPACE_FOLDER_TOKEN ++ str "/protos").
    rewrite Hresolved; [vm_compute; reflexivity|].
    decide_by_computation.
  - destruct (@resolveWorkspaceVariables_substitution Sample.platform
                Sample.vendorWorld (str "/ws/p/a.proto") (str "/opt/protos")
                eq_refl eq_refl) as [Hplain _].
    rewrite Hplain. vm_compute. reflexivity.
Defined.


Lemma updateMetadata_round_trip_witness :
  exists w',
    @ApiLinterDownloader.updateMetadata Scenario.platform
      (VString (str "v1.69.2")) Scenario.installedStale = (w', Ok tt)
    /\ @ApiLinterDownloader.getCurrentVersion Scenario.platform w'
       = (w', Ok (VString (str "v1.69.2")))
    /\ @ApiLinterDownloader.shouldCheckForUpdate Scenario.platform w'
       = (w', Ok false).
Proof.
  destruct (@updateMetadata_round_trip Scenario.platform
              Scenario.installedStale (VString (str "v1.69.2")))
    as (w' & Hrun & Hlater).
  - split; [reflexivity|]. vm_compute. discriminate.
  - reflexivity.
  - vm_compute. reflexivity.
  - exists w'. split; [exact Hrun|].
    destruct (Hlater w' eq_refl eq_refl) as (Hversion & _ & Hdue & _).
    split; [exact Hversion|]. rewrite Hdue.
    assert (Hnow : now w' = now Scenario.installedStale).
    { change w' with (fst (w', @Ok unit tt)). by rewrite <- Hrun. }
    rewrite Hnow. vm_compute. reflexivity.
Defined.

Lemma checkAndUpdate_records_prior_version_witness :
  let run :=
    @ApiLinterDownloaderViews.checkAndUpdate_try Scenario.platform
      Scenario.updateAccepted in
  snd run = Ok tt
  /\ last (networkCalls (trace (fst run)))
     = Some (DownloadFile (VString (str "https://example.org/asset"))
               (str "/home/u/.gapi/api-linter.tar.gz"))
  /\ fs (fst run) !! str "/home/u/.gapi/metadata.json"
     = Some (File (Sample.renderJson (Sample.metadataAt Sample.sampleNow))).
Proof.
  cbv zeta.
  assert (Hdone :
    snd (@ApiLinterDownloaderViews.checkAndUpdate_try Scenario.platform
           Scenario.updateAccepted) = Ok tt) by (vm_compute; reflexivity).
  destruct (@checkAndUpdate_records_prior_version Scenario.platform
              Scenario.updateAccepted Hdone) as (cur & Hcur & Hfile).
  split; [exact Hdone|]. split; [vm_compute; reflexivity|].
  assert (Hread :
    snd (@ApiLinterDownloader.getCurrentVersion Scenario.platform
           Scenario.updateAccepted) = Ok (VString (str "v1.69.2")))
    by (vm_compute; reflexivity).
  rewrite Hcur in Hread. injection Hread as ->.
  etrans; [exact Hfile|]. vm_compute. reflexivity.
Defined.

Lemma downloadBinary_no_compatible_asset_witness :
  @ApiLinterDownloader.downloadBinary Scenario.platform
    Scenario.foreignRelease
  = (withTrace
       [AppendLine (str "Downloading api-linter binary...");
        FetchJson
          (str "https://api.github.com/repos/googleapis/api-linter/releases/latest")]
       Scenario.foreignRelease,
     Throw (Error (str "No compatible binary found for linux-amd64"))).
Proof.
  rewrite (@downloadBinary_no_compatible_asset Scenario.platform
             Scenario.foreignRelease
             (Scenario.releaseWith (str "v1.70.0")
                (str "api-linter-windows-amd64.zip"))
             [VObject [(str "name",
                        VString (str "api-linter-windows-amd64.zip"));
                       (str "browser_download_url",
                        VString (str "https://example.org/asset"))]]).
  - reflexivity.
  - reflexivity.
  - reflexivity.
  - constructor; [|constructor].
    exists (VString (str "api-linter-windows-amd64.zip")).
    split; vm_compute; reflexivity.
Defined.


Lemma manager_ensureDirectory_swallows_EEXIST_witness :
  @BinaryManager.ensureDirectory Scenario.platform Scenario.fileInTheWay
  = (Scenario.fileInTheWay, Ok tt)
  /\ @BinaryManager.ensureDirectory Scenario.platform Sample.readOnlyHome
     = (Sample.readOnlyHome, Throw (ErrnoException (str "EACCES"))).
Proof.
  split.
  - destruct (@manager_ensureDirectory_swallows_EEXIST Scenario.platform
                Scenario.fileInTheWay) as (Hswallowed & _ & _).
    destruct (Hswallowed eq_refl) as (w' & Hrun & Hsame).
    rewrite Hrun. f_equal. apply (Hsame (str "notes")).
    vm_compute. reflexivity.
  - destruct (@manager_ensureDirectory_swallows_EEXIST Scenario.platform
                Sample.readOnlyHome) as (_ & _ & Hother).
    apply Hother; [reflexivity|]. vm_compute. discriminate.
Defined.

Lemma corpus_download_due_witness :
  @CorpusDownloaders.shouldDownloadProtobuf Scenario.platform
    Scenario.protobufStale
  = (Scenario.protobufStale, Ok true)
  /\ @GoogleapisDownloader.shouldDownloadGoogleapis Scenario.platform
       Scenario.installedFresh
     = (Scenario.installedFresh, Ok true).
Proof.
  split.
  - pose proof (Forall_inv
                  (Forall_inv_tail
                     (@corpus_download_due Scenario.platform
                        Scenario.protobufStale))) as (_ & _ & Hknown).
    destruct (Hknown
                (Sample.metadataAt
                   (Sample.sampleNow - (30 * 24 * 60 * 60 * 1000 + 1)))
                (Sample.sampleNow - (30 * 24 * 60 * 60 * 1000 + 1)))
      as (due & Hrun & Hdue).
    + vm_compute. reflexivity.
    + split; [reflexivity|].
      exists (Sample.renderJson
                (Sample.metadataAt
                   (Sample.sampleNow - (30 * 24 * 60 * 60 * 1000 + 1)))).
      split; vm_compute; reflexivity.
    + vm_compute. reflexivity.
    + rewrite Hrun. do 2 f_equal. apply Hdue. vm_compute. reflexivity.
  - pose proof (Forall_inv
                  (@corpus_download_due Scenario.platform
                     Scenario.installedFresh)) as (Hmissing & _ & _).
    apply Hmissing. vm_compute. reflexivity.
Defined.


Lemma version_views_total_witness :
  @ApiLinterDownloaderViews.getBinaryVersion Scenario.platform Sample.offline
  = (Sample.offline, Ok (VString (str "unknown")))
  /\ @CorpusDownloaders.getProtobufCommit Scenario.platform Sample.offline
     = (Sample.offline, Ok (VString (str "not downloaded"))).
Proof.
  destruct (@version_views_total Scenario.platform Sample.offline)
    as ((v & Hversion & _ & Hfallback) & _ & (c & Hcommit & _ & Hnone)).
  split.
  - rewrite Hversion, Hfallback; [reflexivity|]. left. reflexivity.
  - rewrite Hcommit, Hnone; [reflexivity|]. left. reflexivity.
Defined.

Lemma guidance_failure_not_cached_witness :
  let first :=
    @ApiLinterHoverProvider.fetchRuleGuidance (fun html => html)
      Sample.ruleUri Sample.offline in
  snd first = Ok (str "**Documentation available at the link below.**")
  /\ guidanceCache (fst first) = ∅
  /\ trace (fst (@ApiLinterHoverProvider.fetchRuleGuidance (fun html => html)
                   Sample.ruleUri (fst first)))
     = [FetchHtml Sample.ruleUri; FetchHtml Sample.ruleUri].
Proof.
  cbv zeta.
  destruct (@guidance_failure_not_cached Sample.platform (fun html => html)
              Sample.offline Sample.ruleUri
              (Error (str "getaddrinfo ENOTFOUND")) eq_refl eq_refl)
    as (Hfirst & Hcache & Hsecond).
  rewrite Hfirst. cbn [fst snd]. split; [reflexivity|].
  split; [exact Hcache|]. rewrite Hsecond. reflexivity.
Defined.

Lemma hover_fetches_each_rule_once_witness :
  exists w' markdown,
    @ApiLinterHoverRendering.buildHoverMarkdown Sample.platform
      (fun html => html) Scenario.uriToString Scenario.sameRule Sample.online
    = (w', Ok markdown)
    /\ NoDup (eventsOf
                (@ApiLinterHoverRendering.buildHoverMarkdown Sample.platform
                   (fun html => html) Scenario.uriToString Scenario.sameRule)
                Sample.online)
    /\ @ApiLinterHoverRendering.buildHoverMarkdown Sample.platform
         (fun html => html) Scenario.uriToString Scenario.sameRule w'
       = (w', Ok markdown).
Proof.
  destruct (@hover_fetches_each_rule_once Sample.platform (fun html => html)
              Scenario.uriToString Scenario.sameRule Sample.online)
    as (w' & markdown & Hrun & Hnodup & Hagain).
  - intros d Hin _. exists (str "<h2 id=details>Details</h2>").
    apply elem_of_cons in Hin as [->|Hin]; [vm_compute; reflexivity|].
    apply elem_of_cons in Hin as [->|Hin]; [vm_compute; reflexivity|].
    by apply elem_of_nil in Hin.
  - exists w', markdown. split; [exact Hrun|]. split; [exact Hnodup|].
    by apply Hagain.
Defined.

Lemma lintDocument_by_exit_witness :
  let lint proc :=
    @LinterProvider.lintDocument Sample.platform
      (@LinterUtils.buildLinterArgs Sample.platform)
      (@LinterUtils.parseLinterOutput Sample.platform false)
      (ret (str "/home/u/.gapi/api-linter"))
      (fun _ _ _ => proc) Scenario.document true Scenario.editor in
  (exists h',
      lint Sample.failedRun = (h', Ok tt)
      /\ LinterProvider.diagnosticCollection h'
         = LinterProvider.diagnosticCollection Scenario.editor
      /\ LinterProvider.window h'
         = [LinterProvider.DocumentSaved (str "file:///ws/p/a.proto");
            LinterProvider.ShowErrorMessage
              (str "Google API Linter error: Error: api-linter exited with code 2")])
  /\ (exists h',
        lint Sample.findingsRun = (h', Ok tt)
        /\ LinterProvider.diagnosticCollection h'
             !! str "file:///ws/p/a.proto"
           = Some (decodeSpec vscode.Error Sample.payload1)
        /\ LinterProvider.window h'
           = [LinterProvider.DocumentSaved (str "file:///ws/p/a.proto")]).
Proof.
  cbv zeta. split.
  - destruct (@lintDocument_by_exit Sample.platform
                (@LinterUtils.buildLinterArgs Sample.platform)
                (@LinterUtils.parseLinterOutput Sample.platform false)
                (ret (str "/home/u/.gapi/api-linter"))
                (fun _ _ _ => Sample.failedRun)
                Scenario.document true Scenario.editor
                (str "/home/u/.gapi/api-linter") _ Sample.failedRun
                eq_refl eq_refl (fun _ _ => eq_refl))
      as (h' & Hrun & _ & Hfailed & _).
    exists h'. split; [exact Hrun|].
    destruct (Hfailed (Some 2) eq_refl) as [Hkeep Hwindow];
      [discriminate..|].
    split; [exact Hkeep|]. rewrite Hwindow. reflexivity.
  - destruct (@lintDocument_by_exit Sample.platform
                (@LinterUtils.buildLinterArgs Sample.platform)
                (@LinterUtils.parseLinterOutput Sample.platform false)
                (ret (str "/home/u/.gapi/api-linter"))
                (fun _ _ _ => Sample.findingsRun)
                Scenario.document true Scenario.editor
                (str "/home/u/.gapi/api-linter") _ Sample.findingsRun
                eq_refl eq_refl (fun _ _ => eq_refl))
      as (h' & Hrun & Hfound & _ & _).
    exists h'. split; [exact Hrun|].
    destruct (Hfound (Some 1) eq_refl (or_intror eq_refl))
      as [Hset Hwindow].
    split; [|exact Hwindow].
    rewrite Hset, lookup_insert_eq. vm_compute. reflexivity.
Defined.

Lemma lintWorkspace_never_rejects_witness :
  exists h',
    @LinterProvider.lintWorkspace Sample.platform
      (@LinterUtils.buildLinterArgs Sample.platform)
      (@LinterUtils.parseLinterOutput Sample.platform false)
      (ret (str "/home/u/.gapi/api-linter"))
      (fun _ _ _ => Sample.failedRun) [Scenario.document] Scenario.editor
    = (h', Ok tt)
    /\ LinterProvider.diagnosticCollection h' !! str "file:///ws/p/b.proto"
       = None.
Proof.
  destruct (@lintWorkspace_never_rejects Sample.platform
              (@LinterUtils.buildLinterArgs Sample.platform)
              (@LinterUtils.parseLinterOutput Sample.platform false)
              (ret (str "/home/u/.gapi/api-linter"))
              (fun _ _ _ => Sample.failedRun) [Scenario.document]
              Scenario.editor)
    as (h' & es & Hrun & _ & Hothers & _).
  exists h'. split; [exact Hrun|].
  rewrite (Hothers (str "file:///ws/p/b.proto")).
  - vm_compute. reflexivity.
  - decide_by_computation.
Defined.

Lemma downloadFile_follows_redirects_witness :
  HttpClient.downloadFile Scenario.mirrors 3 (str "https://a")
  = Some (Ok (str "tarball")).
Proof.
  etrans; [|by vm_compute].
  apply (downloadFile_follows_redirects Scenario.mirrors (str "https://a")
           [str "https://b"; str "https://c"] 1).
  split; [|split; [|exact I]].
  - eexists. split; [vm_compute; reflexivity|].
    split; [by right|]. split; [reflexivity|discriminate].
  - eexists. split; [vm_compute; reflexivity|].
    split; [by left|]. split; [reflexivity|discriminate].
Defined.

Lemma downloadFile_redirect_loop_witness :
  HttpClient.downloadFile Scenario.pingPong 1000 (str "https://a") = None.
Proof.
  apply (downloadFile_redirect_loop Scenario.pingPong (str "https://a")
           [str "https://b"; str "https://a"]).
  - split; [|split; [|exact I]].
    + eexists. split; [vm_compute; reflexivity|].
      split; [by right|]. split; [reflexivity|discriminate].
    + eexists. split; [vm_compute; reflexivity|].
      split; [by right|]. split; [reflexivity|discriminate].
  - reflexivity.
Defined.

Lemma guidance_caches_error_pages_witness :
  exists w1,
    @ApiLinterHoverProvider.fetchRuleGuidance (fun html => html)
      Sample.ruleUri Scenario.brokenSite
    = (w1, Ok (str "<h1>Not Found</h1>"))
    /\ @ApiLinterHoverProvider.fetchRuleGuidance (fun html => html)
         Sample.ruleUri w1
       = (w1, Ok (str "<h1>Not Found</h1>")).
Proof.
  destruct (@guidance_caches_error_pages Sample.platform (fun html => html)
              Scenario.notFound Scenario.brokenSite Sample.ruleUri
              {| HttpClient.statusCode := 404;
                 HttpClient.location := None;
                 HttpClient.data := str "<h1>Not Found</h1>" |}
              eq_refl eq_refl eq_refl)
    as (w1 & Hfirst & Hlater & _).
  - discriminate.
  - exists w1. split; [exact Hfirst|]. by apply Hlater.
Defined.
